(** * Review scrapers: a shallow embedding and its properties

    The development embeds the three scripts of the repository,

    - [trustindex_scraper.py]   (module [V1]),
    - [trustindex_scraper2.py]  (module [V2]),
    - [trustpilot_scraper.py]   (module [TP]),

    in Rocq.  Python values that flow into review records are modelled by
    [pyval], Python exceptions by the error monad [result], the mutable
    accumulators of the extraction loops by a state-and-error monad whose
    state survives a raised exception (as the mutation of a Python list
    does), and the outside world (browser, HTTP server) by oracles that
    answer each interaction. *)

From Stdlib Require Import ZArith String Ascii List Bool Lia.
From stdpp Require Import base option list gmap sets strings sorting.

Set Warnings "-register-all,-clear-no-such-hyp".

Local Open Scope string_scope.
Local Open Scope list_scope.
Local Open Scope Z_scope.

(** ** Python exceptions *)

(** The exception classes the scripts raise or name in an [except] clause.
    All of them derive from [Exception]. *)
Inductive exn :=
| AttributeError
| KeyError
| TypeError
| ValueError
| JSONDecodeError                      (* subclass of ValueError *)
| StopIteration
| RequestException                     (* requests.exceptions.RequestException *)
| WebDriverException                   (* selenium's base class *)
| TimeoutException
| NoSuchElementException
| ElementClickInterceptedException
| StaleElementReferenceException.

#[global] Instance exn_eq_dec : EqDecision exn.
Proof. solve_decision. Defined.

(** [subclass e c]: an exception of class [e] is caught by [except c]. *)
Definition subclass (e c : exn) : bool :=
  bool_decide (e = c) ||
  match c, e with
  | ValueError, JSONDecodeError => true
  | WebDriverException,
    (TimeoutException | NoSuchElementException
     | ElementClickInterceptedException | StaleElementReferenceException) => true
  | _, _ => false
  end.

(** [except (c1, c2, ...)] *)
Definition except_ (cs : list exn) (e : exn) : bool :=
  existsb (subclass e) cs.

(** [except Exception] *)
Definition except_Exception (e : exn) : bool := true.

(** ** The error monad *)

Inductive result (A : Type) :=
| Ok (a : A)
| Raise (e : exn).
Arguments Ok {A} a.
Arguments Raise {A} e.

(** Sequencing, for [result] and for the state-and-error monad below. The
    computation comes first so that the type of the bound variable is known
    when the continuation is read. *)
Class Monad (T : Type -> Type) := {
  ret : forall {A}, A -> T A;
  bind : forall {A B}, T A -> (A -> T B) -> T B
}.

Declare Scope py_scope.
Notation "x ← y ; z" := (bind y (fun x => z))
  (at level 20, y at level 100, z at level 200, only parsing) : py_scope.
Notation "x ;; z" := (bind x (fun _ => z))
  (at level 100, z at level 200, only parsing, right associativity) : py_scope.
Local Open Scope py_scope.

#[global] Instance result_monad : Monad result := {
  ret := @Ok;
  bind := fun A B m f => match m with Ok a => f a | Raise e => Raise e end
}.

(** [try: body except cs: handler] *)
Definition try_except {A} (body : result A) (catches : exn -> bool)
    (handler : exn -> result A) : result A :=
  match body with
  | Ok a => Ok a
  | Raise e => if catches e then handler e else Raise e
  end.

(** ** Python values *)

(** A Python [float]: [nan], an infinity, or the number
    [(-1)^negative * m * 2^e], a zero keeping its sign. Every IEEE double
    is of this form. [json.loads] gives a [float] for a number with a
    fraction or an exponent and for [NaN], [Infinity] and [-Infinity]. *)
Inductive pyfloat :=
| FNaN
| FInf (negative : bool)
| FNum (negative : bool) (m : N) (e : Z).

(** The values that appear in review records and in the JSON payload. A
    [VDict] lists its items; the binding of a key is its first item. *)
Inductive pyval :=
| VNone
| VBool (b : bool)
| VInt (n : Z)
| VFloat (f : pyfloat)
| VStr (s : string)
| VList (l : list pyval)
| VDict (d : list (string * pyval)).

(** A review record is a Python [dict] with string keys. *)
Abbreviation record := (gmap string pyval).

(** Truthiness, as used by [if x] and [not x]. *)
Definition truthy (v : pyval) : bool :=
  match v with
  | VNone => false
  | VBool b => b
  | VInt n => negb (Z.eqb n 0)
  | VFloat f => match f with FNum _ N0 _ => false | _ => true end
  | VStr s => negb (String.eqb s "")
  | VList l => match l with [] => false | _ => true end
  | VDict d => match d with [] => false | _ => true end
  end.

(** ** Strings *)

Definition newline : string := String "010" EmptyString.

(** [s.startswith(p)] *)
Definition startswith (p s : string) : bool := String.prefix p s.

(** [s.replace(old, new)] for a non-empty [old]: every non-overlapping
    occurrence, from the left. [skip] counts the characters of a matched
    occurrence that are still to be dropped. *)
Fixpoint replace_from (old new : string) (skip : nat) (s : string) : string :=
  match s with
  | EmptyString => EmptyString
  | String c s' =>
      match skip with
      | S k => replace_from old new k s'
      | O =>
          if String.prefix old s
          then new +:+ replace_from old new (Nat.pred (String.length old)) s'
          else String c (replace_from old new O s')
      end
  end.

Definition str_replace (old new s : string) : string :=
  replace_from old new O s.

(** ** The libraries *)

(** The functions of [datetime], [html] and [str] whose results the scripts
    store without looking into them. [None] stands for [ValueError]. *)
Class PyLib := {
  datetime : Type;
  (** [datetime.strptime(s, '%Y.%m.%d')] *)
  strptime_Y_m_d : string -> option datetime;
  (** [datetime.fromisoformat(s)] *)
  fromisoformat : string -> option datetime;
  (** [dt.strftime('%Y-%m-%d')] *)
  strftime_date : datetime -> string;
  (** [dt.strftime('%Y-%m-%d %H:%M:%S')] *)
  strftime_datetime : datetime -> string;
  (** [s.strip()] *)
  str_strip : string -> string;
  (** [html.unescape(s)] *)
  html_unescape : string -> string;
  (** [BeautifulSoup(s, 'html.parser').get_text(separator='\n')] *)
  soup_get_text : string -> string
}.

(** ** The parsed document *)

(** A node of the tree BeautifulSoup builds. [class_] is the multi-valued
    [class] attribute ([None] when the element has none); [attrs] holds the
    single-valued attributes. *)
Inductive node :=
| NavigableString (s : string)
| Element (name : string) (attrs : gmap string string)
    (class_ : option (list string)) (contents : list node).

Record tag := Tag {
  tag_name : string;
  tag_attrs : gmap string string;
  tag_class : option (list string);
  tag_contents : list node
}.

(** The elements below a node, the node included, in document order. *)
Fixpoint elements_of (n : node) : list tag :=
  match n with
  | NavigableString _ => []
  | Element nm at_ cl cs =>
      Tag nm at_ cl cs ::
      (fix go (l : list node) : list tag :=
         match l with
         | [] => []
         | c :: l' => elements_of c ++ go l'
         end) cs
  end.

(** [tag.descendants], elements only *)
Definition descendants (t : tag) : list tag :=
  flat_map elements_of (tag_contents t).

(** The [class_=c] filter: one of the element's classes is [c], or the
    whole attribute, joined by spaces, is [c]. *)
Definition class_matches (c : string) (t : tag) : bool :=
  match tag_class t with
  | None => false
  | Some cls =>
      existsb (String.eqb c) cls || String.eqb (String.concat " " cls) c
  end.

(** [tag.find_all(name)] and [tag.find_all(name, class_=c)] *)
Definition find_all (name : string) (c : option string) (t : tag) : list tag :=
  List.filter (fun d => String.eqb (tag_name d) name &&
                        match c with Some c => class_matches c d | None => true end)
    (descendants t).

(** [tag.find(name, class_=c)]: the first match or [None] *)
Definition find (name : string) (c : string) (t : tag) : option tag :=
  head (find_all name (Some c) t).

(** [tag.text] *)
Fixpoint text_of (n : node) : string :=
  match n with
  | NavigableString s => s
  | Element _ _ _ cs =>
      (fix go (l : list node) : string :=
         match l with
         | [] => EmptyString
         | c :: l' => text_of c +:+ go l'
         end) cs
  end.

Definition text (t : tag) : string :=
  String.concat "" (map text_of (tag_contents t)).

(** [for br in t.find_all('br'): br.replace_with('\n')]: afterwards every
    outermost [br] below [t] is the string ["\n"]. *)
Fixpoint replace_br (n : node) : node :=
  match n with
  | NavigableString s => NavigableString s
  | Element nm at_ cl cs =>
      if String.eqb nm "br" then NavigableString newline
      else Element nm at_ cl (map replace_br cs)
  end.

Definition replace_brs (t : tag) : tag :=
  Tag (tag_name t) (tag_attrs t) (tag_class t) (map replace_br (tag_contents t)).

(** Attribute access on the result of [find]: [None] has no attribute. *)
Definition getattr {A} (o : option tag) (f : tag -> A) : result A :=
  match o with
  | Some t => Ok (f t)
  | None => Raise AttributeError
  end.

(** [tag.get('data-id')] *)
Definition tag_get (a : string) (t : tag) : option string := tag_attrs t !! a.

(** [tag['class']] *)
Definition tag_getitem_class (t : tag) : result (list string) :=
  match tag_class t with
  | Some cls => Ok cls
  | None => Raise KeyError
  end.

(** [next((s.replace('source-', '') for s in cls if s.startswith('source-')), 'Unknown')] *)
Definition source_of (cls : list string) : string :=
  match List.filter (startswith "source-") cls with
  | s :: _ => str_replace "source-" "" s
  | [] => "Unknown"
  end.

Definition opt_str (o : option string) : pyval :=
  match o with Some s => VStr s | None => VNone end.

(** [strptime] and [fromisoformat] raise [ValueError] on a string they do
    not accept. *)
Definition or_ValueError {A} (o : option A) : result A :=
  match o with
  | Some a => Ok a
  | None => Raise ValueError
  end.

(** ** Hashable values and the set of identifiers *)

(** What a Python [set] compares: [True == 1] and [False == 0] fall
    together, lists and dicts cannot be hashed. *)
Inductive hkey :=
| HNone
| HInt (n : Z)
| HFrac (negative : bool) (m : positive) (e : Z)
| HInf (negative : bool)
| HNaN
| HStr (s : string).

#[global] Instance hkey_eq_dec : EqDecision hkey.
Proof. solve_decision. Defined.

#[global] Program Instance hkey_countable : Countable hkey :=
  inj_countable'
    (fun k => match k with
              | HNone => inl (inl tt)
              | HNaN => inl (inr (inl tt))
              | HInf negative => inl (inr (inr negative))
              | HInt n => inr (inl n)
              | HFrac negative m e => inr (inr (inl (negative, m, e)))
              | HStr s => inr (inr (inr s))
              end)
    (fun x => match x with
              | inl (inl _) => HNone
              | inl (inr (inl _)) => HNaN
              | inl (inr (inr negative)) => HInf negative
              | inr (inl n) => HInt n
              | inr (inr (inl (negative, m, e))) => HFrac negative m e
              | inr (inr (inr s)) => HStr s
              end) _.
Next Obligation. by intros []. Qed.

(** The odd part of [m * 2^e] and the exponent that goes with it. *)
Fixpoint odd_part (m : positive) (e : Z) : positive * Z :=
  match m with
  | xO m' => odd_part m' (e + 1)
  | _ => (m, e)
  end.

(** The key of a [float]: that of the [int] it is equal to, if there is
    one. Every [NaN] of a payload is the one object [json.decoder.NaN],
    which a set finds by identity. *)
Definition float_key (f : pyfloat) : hkey :=
  match f with
  | FNaN => HNaN
  | FInf negative => HInf negative
  | FNum _ N0 _ => HInt 0
  | FNum negative (Npos m) e =>
      let (m', e') := odd_part m e in
      if 0 <=? e'
      then HInt ((if negative then Z.neg m' else Z.pos m') * 2 ^ e')
      else HFrac negative m' e'
  end.

Definition key_of (v : pyval) : option hkey :=
  match v with
  | VNone => Some HNone
  | VBool b => Some (HInt (if b then 1 else 0))
  | VInt n => Some (HInt n)
  | VFloat f => Some (float_key f)
  | VStr s => Some (HStr s)
  | VList _ | VDict _ => None
  end.

(** [hash(v)], raising [TypeError] on an unhashable value *)
Definition py_hash (v : pyval) : result hkey :=
  match key_of v with
  | Some k => Ok k
  | None => Raise TypeError
  end.

(** ** Operations on Python values *)

Fixpoint assoc (k : string) (d : list (string * pyval)) : option pyval :=
  match d with
  | [] => None
  | (k', v) :: d' => if String.eqb k k' then Some v else assoc k d'
  end.

(** [v.get(k, default)] *)
Definition py_get (v : pyval) (k : string) (default : pyval) : result pyval :=
  match v with
  | VDict d => Ok (match assoc k d with Some x => x | None => default end)
  | _ => Raise AttributeError
  end.

(** [v[k]] for a string [k] *)
Definition py_subscript (v : pyval) (k : string) : result pyval :=
  match v with
  | VDict d => match assoc k d with Some x => Ok x | None => Raise KeyError end
  | _ => Raise TypeError
  end.

(** [iter(v)]: a dict yields its keys, a string its characters. *)
Definition py_iter (v : pyval) : result (list pyval) :=
  match v with
  | VList l => Ok l
  | VDict d => Ok (map (fun kv => VStr (fst kv)) d)
  | VStr s => Ok (map (fun c => VStr (String c EmptyString)) (list_ascii_of_string s))
  | VNone | VBool _ | VInt _ | VFloat _ => Raise TypeError
  end.

(** [v.replace(old, new)] *)
Definition py_replace (v : pyval) (old new : string) : result string :=
  match v with
  | VStr s => Ok (str_replace old new s)
  | _ => Raise AttributeError
  end.

(** [bool] is a subclass of [int]. *)
Definition as_int (v : pyval) : option Z :=
  match v with
  | VInt n => Some n
  | VBool b => Some (if b then 1 else 0)
  | _ => None
  end.

(** How the [int] [n] compares with the [float] [f]: Python compares the
    exact values. [None] for [nan], with which every comparison is
    false. *)
Definition int_cmp_float (n : Z) (f : pyfloat) : option comparison :=
  match f with
  | FNaN => None
  | FInf negative => Some (if negative then Gt else Lt)
  | FNum negative m e =>
      let m := if negative then - Z.of_N m else Z.of_N m in
      Some (if 0 <=? e then n ?= m * 2 ^ e else n * 2 ^ (- e) ?= m)
  end.

(** [n < f] and [n >= f] *)
Definition int_lt_float (n : Z) (f : pyfloat) : bool :=
  match int_cmp_float n f with Some Lt => true | _ => false end.

Definition int_ge_float (n : Z) (f : pyfloat) : bool :=
  match int_cmp_float n f with Some (Eq | Gt) => true | _ => false end.

(** [min(v, n)] for an [int] [n]: the first argument unless the second is
    smaller. *)
Definition py_min (v : pyval) (n : Z) : result pyval :=
  match as_int v with
  | Some t => Ok (if n <? t then VInt n else v)
  | None =>
      match v with
      | VFloat f => Ok (if int_lt_float n f then VInt n else v)
      | _ => Raise TypeError
      end
  end.

(** [n >= v] for an [int] [n] *)
Definition py_ge (n : Z) (v : pyval) : result bool :=
  match as_int v with
  | Some t => Ok (t <=? n)
  | None =>
      match v with
      | VFloat f => Ok (int_ge_float n f)
      | _ => Raise TypeError
      end
  end.

(** [d[k]] on a record *)
Definition getitem (d : record) (k : string) : result pyval :=
  match d !! k with
  | Some v => Ok v
  | None => Raise KeyError
  end.

(** [bool(d)] for a record *)
Definition nonempty (d : record) : bool := negb (bool_decide (d = ∅)).

(** ** Events *)

(** What a run does to the outside world and meets on its way, in the
    order it happens. The log is not part of the scripts; it records their
    interactions so that they can be talked about. *)
Inductive event :=
| EvRequest (page : Z)           (* [requests.get] is called for a page *)
| EvClick (loop_count : nat)     (* an iteration of the 'More' loop starts *)
| EvPass (newly : nat)           (* a pass over the reviews of a page ends,
                                    [newly] records appended *)
| EvSeen (review_data : record). (* a parsed record reaches the
                                    deduplication test *)

(** ** Reading the event log *)

(** The parsed records that reached the deduplication test, in order. *)
Definition seen (tr : list event) : list record :=
  omap (fun e => match e with EvSeen r => Some r | _ => None end) tr.

(** The values of [loop_count] at which an iteration of the 'More' loop
    started. *)
Definition clicks (tr : list event) : list nat :=
  omap (fun e => match e with EvClick n => Some n | _ => None end) tr.

(** The pages requested, in order. *)
Definition requests (tr : list event) : list Z :=
  omap (fun e => match e with EvRequest p => Some p | _ => None end) tr.

(** ** The state of an extraction function *)

(** The two accumulators, the event log, and the remaining mutable local
    variables of the function. [review_ids] is [extracted_review_ids] in
    the Trustindex scripts and [processed_review_ids] in the Trustpilot
    one. *)
Record state (L : Type) := State {
  all_reviews_data : list record;
  review_ids : gset hkey;
  trace : list event;
  locals : L
}.
Arguments State {L}.
Arguments all_reviews_data {L}.
Arguments review_ids {L}.
Arguments trace {L}.
Arguments locals {L}.

(** A computation that reads and updates the state and may raise. The
    state it leaves behind is kept when it raises. *)
Definition M (L A : Type) : Type := state L -> state L * result A.

#[global] Instance M_monad {L} : Monad (M L) := {
  ret := fun A a s => (s, Ok a);
  bind := fun A B m f s =>
    match m s with
    | (s', Ok a) => f a s'
    | (s', Raise e) => (s', Raise e)
    end
}.

Definition lift {L A} (r : result A) : M L A := fun s => (s, r).

Definition gets {L A} (f : state L -> A) : M L A := fun s => (s, Ok (f s)).

Definition modify {L} (f : state L -> state L) : M L unit :=
  fun s => (f s, Ok tt).

(** [try: body except catches: handler] *)
Definition try_catch {L A} (body : M L A) (catches : exn -> bool)
    (handler : exn -> M L A) : M L A :=
  fun s =>
    match body s with
    | (s', Ok a) => (s', Ok a)
    | (s', Raise e) => if catches e then handler e s' else (s', Raise e)
    end.

(** [for x in l: b = body(x, b)], [b] being the variables the loop
    carries *)
Fixpoint for_ {L A B} (l : list A) (b : B) (body : A -> B -> M L B) : M L B :=
  match l with
  | [] => ret b
  | x :: l' => b' ← body x b; for_ l' b' body
  end.

Definition log {L} (e : event) : M L unit :=
  modify (fun s => State (all_reviews_data s) (review_ids s) (trace s ++ [e]) (locals s)).

(** [all_reviews_data.append(review_data)] *)
Definition append {L} (review_data : record) : M L unit :=
  modify (fun s => State (all_reviews_data s ++ [review_data]) (review_ids s)
                     (trace s) (locals s)).

(** [review_ids.add(v)] *)
Definition add_id {L} (v : pyval) : M L unit :=
  k ← lift (py_hash v);
  modify (fun s => State (all_reviews_data s) ({[k]} ∪ review_ids s)
                     (trace s) (locals s)).

(** [v not in review_ids] *)
Definition not_in_ids {L} (v : pyval) : M L bool :=
  k ← lift (py_hash v);
  gets (fun s => bool_decide (k ∉ review_ids s)).

Definition set_locals {L} (f : L -> L) : M L unit :=
  modify (fun s => State (all_reviews_data s) (review_ids s) (trace s) (f (locals s))).

(** How a loop body ends. *)
Inductive flow := Continue | Break.

(** [for review in all_reviews_data: review.pop(k, None)] for each [k] of
    [ks]. Every record of the list is a dict of its own, made by one call
    of the parse function. *)
Definition pop_all (ks : list string) (l : list record) : list record :=
  map (fun review => foldl (fun r k => delete k r) review ks) l.

(** ** trustindex_scraper.py *)

Module V1.
Section Parse.
Context `{PyLib}.

(** [parse_review_div(review_div)] *)
Definition parse_review_div (review_div : tag) : result record :=
  author ← try_except
    (t ← getattr (find "div" "ti-name" review_div) text;
     ret (VStr (str_strip t)))
    (except_ [AttributeError]) (fun _ => ret VNone);
  date ← try_except
    (t ← getattr (find "div" "ti-date" review_div) text;
     ret (VStr (str_strip t)))
    (except_ [AttributeError]) (fun _ => ret VNone);
  rating ← try_except
    (stars ← getattr (find "div" "ti-stars" review_div)
               (find_all "span" (Some "ti-star f"));
     ret (VInt (Z.of_nat (length stars))))
    (except_ [AttributeError]) (fun _ => ret VNone);
  body ← try_except
    (let content_div := find "div" "ti-review-content" review_div in
     content_div ← getattr content_div replace_brs;
     ret (VStr (str_strip (text content_div))))
    (except_ [AttributeError]) (fun _ => ret VNone);
  source ← try_except
    (source_class ← tag_getitem_class review_div;
     ret (source_of source_class))
    (except_ [AttributeError; KeyError]) (fun _ => ret "Unknown");
  let review_id := opt_str (tag_get "data-id" review_div) in
  ret (<["review_id" := review_id]>
        (<["author" := author]>
        (<["date" := date]>
        (<["rating" := rating]>
        (<["body" := body]>
        (<["source_platform" := VStr source]> (∅ : record))))))).

End Parse.

(** *** The extraction loop *)

(** The answers of the browser to the interactions of one iteration of the
    'More' loop. *)
Record more_click := MoreClick {
  (** [WebDriverWait(driver, 15).until(EC.element_to_be_clickable(...))] *)
  wait_clickable : result unit;
  (** [driver.execute_script("arguments[0].scrollIntoView(...)", more_button)] *)
  scroll_into_view : result unit;
  (** [more_button.click()] *)
  click : result unit;
  (** [WebDriverWait(driver, 10).until(EC.presence_of_element_located(...))] *)
  wait_presence : result unit;
  (** [driver.execute_script("arguments[0].click();", more_button)] *)
  js_click : result unit;
  (** [BeautifulSoup(driver.page_source, 'html.parser')] *)
  page_source : result tag
}.

(** The browser as the script meets it. [more n] holds the answers during
    the iteration that starts with [loop_count = n]. *)
Record browser := Browser {
  (** [webdriver.Chrome(options=chrome_options)] and [driver.get(url)] *)
  start : result unit;
  (** [BeautifulSoup(driver.page_source, 'html.parser')] after the load *)
  initial_page : result tag;
  more : nat -> more_click
}.

Section Extract.
Context `{PyLib}.

(** [review_data and review_data['review_id'] and
     review_data['review_id'] not in extracted_review_ids] *)
Definition is_new (review_data : record) : M unit bool :=
  if negb (nonempty review_data) then ret false else
  review_id ← lift (getitem review_data "review_id");
  if negb (truthy review_id) then ret false else
  not_in_ids review_id.

(** The body of [for div in review_divs], [newly] counting the appended
    records. *)
Definition take (div : tag) (newly : nat) : M unit nat :=
  review_data ← lift (parse_review_div div);
  log (EvSeen review_data);;
  new ← is_new review_data;
  if new then
    append review_data;;
    review_id ← lift (getitem review_data "review_id");
    add_id review_id;;
    ret (S newly)
  else ret newly.

(** The interactions with the browser at the start of the [try] block
    inside [while loop_count < max_loops]: wait for the button, scroll to
    it, click it. They do not touch the accumulators. *)
Definition press (c : more_click) : result unit :=
  wait_clickable c;;
  scroll_into_view c;;
  try_except (click c)
    (except_ [ElementClickInterceptedException; StaleElementReferenceException])
    (fun _ => wait_presence c;; js_click c).

(** The [try] block inside [while loop_count < max_loops]. *)
Definition click_more (c : more_click) : M unit flow :=
  lift (press c);;
  current_soup ← lift (page_source c);
  let review_divs := find_all "div" (Some "review") current_soup in
  newly_loaded_reviews ← for_ review_divs O take;
  log (EvPass newly_loaded_reviews);;
  if Nat.eqb newly_loaded_reviews 0 then ret Break else ret Continue.

(** [while loop_count < max_loops]. An iteration either leaves the loop or
    adds one to [loop_count], so [remaining] is [max_loops - loop_count]. *)
Fixpoint more_loop (w : browser) (remaining loop_count : nat) : M unit unit :=
  match remaining with
  | O => ret tt
  | S remaining' =>
      log (EvClick loop_count);;
      f ← try_catch (click_more (more w loop_count))
            except_Exception (fun _ => ret Break);
      match f with
      | Break => ret tt
      | Continue => more_loop w remaining' (S loop_count)
      end
  end.

(** The outer [try] block. The first loop over the elements keeps no
    count; the one [take] carries is dropped. *)
Definition scrape (w : browser) (max_loops : Z) : M unit unit :=
  lift (start w);;
  initial_soup ← lift (initial_page w);
  let review_divs := find_all "div" (Some "review") initial_soup in
  for_ review_divs O take;;
  more_loop w (Z.to_nat max_loops) O.

Definition initial_state : state unit := State [] ∅ [] tt.

(** The state when the [try ... except Exception ... finally] statement is
    left, and what it raises. *)
Definition collect (w : browser) (max_loops : Z) : state unit * result unit :=
  try_catch (scrape w max_loops) except_Exception (fun _ => ret tt) initial_state.

(** [extract_reviews_selenium(url, max_loops)] *)
Definition extract_reviews_selenium (w : browser) (max_loops : Z)
    : result (list record) :=
  match collect w max_loops with
  | (s, Ok _) => Ok (pop_all ["review_id"] (all_reviews_data s))
  | (_, Raise e) => Raise e
  end.

End Extract.
End V1.

(** ** trustindex_scraper2.py *)

Module V2.
Section Parse.
Context `{PyLib}.

(** [parse_review_div(review_div)]; [Ok None] is the Python [None]. *)
Definition parse_review_div (review_div : tag) : result (option record) :=
  let review_data : record := ∅ in
  let review_id := opt_str (tag_get "data-id" review_div) in
  if negb (truthy review_id) then ret None else
  let review_data := <["review_id" := review_id]> review_data in
  author ← try_except
    (t ← getattr (find "div" "ti-name" review_div) text;
     ret (VStr (str_strip t)))
    (except_ [AttributeError]) (fun _ => ret VNone);
  let review_data := <["author" := author]> review_data in
  date ← try_except
    (date_str ← getattr (find "div" "ti-date" review_div) text;
     let date_str := str_strip date_str in
     try_except
       (dt_obj ← or_ValueError (strptime_Y_m_d date_str);
        ret (VStr (strftime_date dt_obj)))
       (except_ [ValueError]) (fun _ => ret (VStr date_str)))
    (except_ [AttributeError]) (fun _ => ret VNone);
  let review_data := <["date" := date]> review_data in
  rating ← try_except
    (let star_container := find "div" "ti-stars" review_div in
     match star_container with
     | Some star_container =>
         ret (VInt (Z.of_nat (length
                 (find_all "span" (Some "ti-star f") star_container))))
     | None => ret VNone
     end)
    except_Exception (fun _ => ret VNone);
  let review_data := <["rating" := rating]> review_data in
  body ← try_except
    (let content_div := find "div" "ti-review-content" review_div in
     match content_div with
     | Some content_div =>
         let raw_body := str_strip (text (replace_brs content_div)) in
         ret (VStr (html_unescape raw_body))
     | None => ret VNone
     end)
    (except_ [AttributeError]) (fun _ => ret VNone);
  let review_data := <["body" := body]> review_data in
  source ← try_except
    (try_except
       (let source_class := default [] (tag_class review_div) in
        ret (source_of source_class))
       (except_ [StopIteration]) (fun _ => ret "Unknown"))
    except_Exception (fun _ => ret "Unknown");
  let review_data := <["source_platform" := VStr source]> review_data in
  ret (Some review_data).

End Parse.

(** *** The extraction loop *)

(** The answers of the browser to the interactions of one iteration of the
    'More' loop, in the order the script asks for them. *)
Record more_click := MoreClick {
  (** [len(driver.find_elements(By.CSS_SELECTOR, REVIEW_DIV_SELECTOR))] *)
  count_before : result nat;
  (** [wait.until(EC.presence_of_element_located(more_button_locator))] *)
  wait_presence : result unit;
  (** [driver.execute_script("arguments[0].scrollIntoView(...)", more_button)] *)
  scroll_into_view : result unit;
  (** [wait.until(EC.element_to_be_clickable(more_button_locator))] *)
  wait_clickable : result unit;
  (** [driver.find_element] on the locator of the button *)
  find_element : result unit;
  (** [more_button.click()] *)
  click : result unit;
  (** [wait.until(EC.presence_of_element_located(...))] before the
      JavaScript click *)
  wait_presence_again : result unit;
  (** [driver.execute_script("arguments[0].click();", more_button)] *)
  js_click : result unit;
  (** [wait.until(lambda driver: len(...) > num_reviews_before_click)] *)
  wait_increase : result unit;
  (** [len(driver.find_elements(...))] after the wait *)
  count_after : result nat;
  (** [stabilize_wait.until(EC.presence_of_element_located(...))] *)
  wait_stabilize : result unit;
  (** [driver.find_element(...).is_displayed()] *)
  is_displayed : result bool;
  (** [driver.page_source]; the inner result is that of
      [BeautifulSoup(page_source, 'html.parser')] and [soup.select] *)
  page_source : result (result tag)
}.

Record browser := Browser {
  (** [webdriver.Chrome(options=chrome_options)], the two [WebDriverWait]
      objects and [driver.get(url)] *)
  start : result unit;
  (** [driver.page_source] after the load *)
  initial_page : result (result tag);
  more : nat -> more_click
}.

Section Extract.
Context `{PyLib}.

(** [get_review_divs_from_source(page_source)] *)
Definition get_review_divs_from_source (page_source : result tag) : list tag :=
  match page_source with
  | Ok soup => find_all "div" (Some "review") soup
  | Raise _ => []
  end.

(** The state carries [last_known_review_id_count]. *)
Abbreviation st := (state nat).

(** [review_data and review_data['review_id'] and
     review_data['review_id'] not in extracted_review_ids] *)
Definition is_new (review_data : option record) : M nat bool :=
  match review_data with
  | None => ret false
  | Some review_data =>
      if negb (nonempty review_data) then ret false else
      review_id ← lift (getitem review_data "review_id");
      if negb (truthy review_id) then ret false else
      not_in_ids review_id
  end.

(** The body of [for div in initial_divs] and of [for div in current_divs] *)
Definition take (div : tag) (newly : nat) : M nat nat :=
  review_data ← lift (parse_review_div div);
  match review_data with Some r => log (EvSeen r) | None => ret tt end;;
  new ← is_new review_data;
  if new then
    match review_data with
    | Some review_data =>
        append review_data;;
        review_id ← lift (getitem review_data "review_id");
        add_id review_id;;
        ret (S newly)
    | None => ret newly
    end
  else ret newly.

(** [len(extracted_review_ids)] *)
Definition count_ids : M nat nat := gets (fun s => size (review_ids s)).

(** Step 5 of the loop body: wait for the reviews to load. *)
Definition wait_for_content (c : more_click) : result flow :=
  try_except
    (wait_increase c;;
     count_after c;;
     try_except (wait_stabilize c)
       (except_ [TimeoutException]) (fun _ => ret tt);;
     ret Continue)
    (except_ [TimeoutException])
    (fun _ =>
       try_except (is_displayed c;; ret tt)
         (except_ [NoSuchElementException]) (fun _ => ret tt);;
       ret Break).

(** Steps 1 to 5 of the loop body, the interactions with the browser:
    [Break] when one of them leaves the loop. They do not touch the
    accumulators. *)
Definition press (c : more_click) : result flow :=
  f ← try_except (wait_presence c;; ret Continue)
        (except_ [TimeoutException]) (fun _ => ret Break);
  match f with Break => ret Break | Continue =>
  try_except (scroll_into_view c) except_Exception (fun _ => ret tt);;
  try_except (wait_clickable c)
    (except_ [TimeoutException]) (fun _ => find_element c);;
  f ← try_except (click c;; ret Continue)
        (except_ [ElementClickInterceptedException; StaleElementReferenceException])
        (fun _ =>
           try_except
             (wait_presence_again c;; js_click c;; ret Continue)
             except_Exception (fun _ => ret Break));
  match f with Break => ret Break | Continue =>
  wait_for_content c
  end end.

(** Step 6 and the test that follows it. *)
Definition extract_new (c : more_click) : M nat flow :=
  page ← lift (page_source c);
  let current_divs := get_review_divs_from_source page in
  newly_loaded_reviews_in_loop ← for_ current_divs O take;
  log (EvPass newly_loaded_reviews_in_loop);;
  current_unique_count ← count_ids;
  last_known_review_id_count ← gets locals;
  if Nat.eqb current_unique_count last_known_review_id_count then ret Break else
  set_locals (fun _ => current_unique_count);;
  ret Continue.

(** The [try] block inside [while loop_count < max_loops]. *)
Definition click_more (c : more_click) : M nat flow :=
  f ← lift (press c);
  match f with
  | Break => ret Break
  | Continue => extract_new c
  end.

(** [while loop_count < max_loops]; [remaining] is
    [max_loops - loop_count]. The count of the review elements is taken
    outside the inner [try]. *)
Fixpoint more_loop (w : browser) (remaining loop_count : nat) : M nat unit :=
  match remaining with
  | O => ret tt
  | S remaining' =>
      log (EvClick loop_count);;
      lift (count_before (more w loop_count));;
      f ← try_catch (click_more (more w loop_count))
            except_Exception (fun _ => ret Break);
      match f with
      | Break => ret tt
      | Continue => more_loop w remaining' (S loop_count)
      end
  end.

(** The outer [try] block. *)
Definition scrape (w : browser) (max_loops : Z) : M nat unit :=
  lift (start w);;
  page ← lift (initial_page w);
  let initial_divs := get_review_divs_from_source page in
  for_ initial_divs O take;;
  n ← count_ids;
  set_locals (fun _ => n);;
  more_loop w (Z.to_nat max_loops) O.

Definition initial_state : st := State [] ∅ [] O.

Definition collect (w : browser) (max_loops : Z) : st * result unit :=
  try_catch (scrape w max_loops) except_Exception (fun _ => ret tt) initial_state.

(** [extract_reviews_selenium(url, max_loops)] *)
Definition extract_reviews_selenium (w : browser) (max_loops : Z)
    : result (list record) :=
  match collect w max_loops with
  | (s, Ok _) => Ok (pop_all ["review_id"] (all_reviews_data s))
  | (_, Raise e) => Raise e
  end.

End Extract.
End V2.

(** ** trustpilot_scraper.py *)

Module TP.

(** The local variables the loop assigns. *)
Record page_vars := PageVars {
  current_page : Z;
  total_pages : pyval;
  max_pages : Z
}.

(** What a request for a page brings. *)
Inductive response :=
| Raised (e : exn)
    (* [requests.get] or [raise_for_status] raises [e] *)
| Html (script_tag : option (result pyval)).
    (* the page has no [__NEXT_DATA__] script ([None]), or it has one and
       [json.loads(script_tag.string)] gives the result *)

(** The request fails with an exception of [requests]. *)
Abbreviation RequestFailed := (Raised RequestException).

(** [get n p] answers the request for page [p] made after [n] earlier
    requests of the run. *)
Record server := Server { get : nat -> Z -> response }.

Section Extract.
Context `{PyLib}.

(** One date field: [fmt] is the [strftime] of the field. *)
Definition parse_date (fmt : datetime -> string) (date_str : pyval) : result pyval :=
  try_except
    (s ← py_replace date_str "Z" "+00:00";
     dt_obj ← or_ValueError (fromisoformat s);
     ret (VStr (fmt dt_obj)))
    (except_ [ValueError; TypeError]) (fun _ => ret date_str).

(** [parse_trustpilot_review_data(review_json)] *)
Definition parse_trustpilot_review_data (review_json : pyval) : result record :=
  let review_data : record := ∅ in
  id ← py_get review_json "id" VNone;
  let review_data := <["id" := id]> review_data in
  consumer ← py_get review_json "consumer" (VDict []);
  author ← py_get consumer "displayName" VNone;
  let review_data := <["author" := author]> review_data in
  consumer_id ← py_get consumer "id" VNone;
  let review_data := <["consumer_id" := consumer_id]> review_data in
  consumer_reviews_count ← py_get consumer "numberOfReviews" VNone;
  let review_data := <["consumer_reviews_count" := consumer_reviews_count]> review_data in
  consumer_country ← py_get consumer "countryCode" VNone;
  let review_data := <["consumer_country" := consumer_country]> review_data in
  dates ← py_get review_json "dates" (VDict []);
  published_date_str ← py_get dates "publishedDate" VNone;
  experienced_date_str ← py_get dates "experiencedDate" VNone;
  date_published ← parse_date strftime_datetime published_date_str;
  let review_data := <["date_published" := date_published]> review_data in
  date_experience ← parse_date strftime_date experienced_date_str;
  let review_data := <["date_experience" := date_experience]> review_data in
  rating ← py_get review_json "rating" VNone;
  let review_data := <["rating" := rating]> review_data in
  title ← py_get review_json "title" VNone;
  let review_data := <["title" := title]> review_data in
  raw_body ← py_get review_json "text" (VStr "");
  raw_body ← py_replace raw_body "<br />" newline;
  let raw_body := str_replace "<br>" newline raw_body in
  let body := html_unescape (str_strip (soup_get_text raw_body)) in
  let review_data := <["body" := VStr body]> review_data in
  language ← py_get review_json "language" VNone;
  let review_data := <["language" := language]> review_data in
  likes ← py_get review_json "likes" (VInt 0);
  let review_data := <["likes" := likes]> review_data in
  labels ← py_get review_json "labels" (VDict []);
  verification_info ← py_get labels "verification" (VDict []);
  is_verified ← py_get verification_info "isVerified" (VBool false);
  let review_data := <["is_verified" := is_verified]> review_data in
  verification_source ← py_get verification_info "reviewSourceName" (VStr "Unknown");
  let review_data := <["verification_source" := verification_source]> review_data in
  ret review_data.

Abbreviation st := (state page_vars).

Definition set_total_pages (v : pyval) : M page_vars unit :=
  set_locals (fun l => PageVars (current_page l) v (max_pages l)).
Definition set_max_pages (n : Z) : M page_vars unit :=
  set_locals (fun l => PageVars (current_page l) (total_pages l) n).
Definition set_current_page (n : Z) : M page_vars unit :=
  set_locals (fun l => PageVars n (total_pages l) (max_pages l)).

(** [page_data['props']['pageProps']['filters']['pagination']['totalPages']] *)
Definition lookup_total_pages (page_data : pyval) : result pyval :=
  p ← py_subscript page_data "props";
  p ← py_subscript p "pageProps";
  p ← py_subscript p "filters";
  p ← py_subscript p "pagination";
  py_subscript p "totalPages".

(** The [try] statement under [if current_page == 1]. *)
Definition read_total_pages (page_data : pyval) : M page_vars unit :=
  try_catch
    (tp ← lift (lookup_total_pages page_data);
     set_total_pages tp;;
     max_pages ← gets (fun s => max_pages (locals s));
     if 0 <? max_pages then
       total_pages ← gets (fun s => total_pages (locals s));
       m ← lift (py_min total_pages max_pages);
       set_total_pages m
     else ret tt)
    (except_ [KeyError; TypeError])
    (fun _ =>
       max_pages ← gets (fun s => max_pages (locals s));
       if max_pages =? 0 then set_max_pages 1000 else ret tt).

(** [review_data and review_data['id'] not in processed_review_ids] *)
Definition is_new (review_data : record) : M page_vars bool :=
  if negb (nonempty review_data) then ret false else
  id ← lift (getitem review_data "id");
  not_in_ids id.

(** The body of [for review_json in reviews_on_page] *)
Definition take (review_json : pyval) (newly : nat) : M page_vars nat :=
  review_data ← lift (parse_trustpilot_review_data review_json);
  log (EvSeen review_data);;
  new ← is_new review_data;
  if new then
    append review_data;;
    id ← lift (getitem review_data "id");
    add_id id;;
    ret (S newly)
  else ret newly.

(** [page_data.get('props', {}).get('pageProps', {}).get('reviews', [])] *)
Definition reviews_of (page_data : pyval) : result pyval :=
  props ← py_get page_data "props" (VDict []);
  pageProps ← py_get props "pageProps" (VDict []);
  py_get pageProps "reviews" (VList []).

(** The second [try] block of the loop body. *)
Definition visit (script_tag : option (result pyval)) : M page_vars flow :=
  match script_tag with
  | None => ret Break
  | Some loads =>
      page_data ← lift loads;
      reviews_on_page ← lift (reviews_of page_data);
      current_page ← gets (fun s => current_page (locals s));
      (if current_page =? 1 then read_total_pages page_data else ret tt);;
      if negb (truthy reviews_on_page) then ret Break else
      reviews ← lift (py_iter reviews_on_page);
      new_reviews_found_on_page ← for_ reviews O take;
      log (EvPass new_reviews_found_on_page);;
      total_pages ← gets (fun s => total_pages (locals s));
      stop ← lift (py_ge current_page total_pages);
      if stop then ret Break else
      set_current_page (current_page + 1);;
      ret Continue
  end.

(** [while True]. [None] when [fuel] iterations did not reach a [break].
    The first [try] statement catches the exceptions of [requests] only:
    any other leaves the function. *)
Fixpoint page_loop (w : server) (fuel : nat) : M page_vars (option unit) :=
  match fuel with
  | O => ret None
  | S fuel' =>
      current_page ← gets (fun s => current_page (locals s));
      n ← gets (fun s => length (requests (trace s)));
      log (EvRequest current_page);;
      match get w n current_page with
      | Raised e =>
          if except_ [RequestException] e then ret (Some tt) else lift (Raise e)
      | Html script_tag =>
          f ← try_catch (visit script_tag) except_Exception (fun _ => ret Break);
          match f with
          | Break => ret (Some tt)
          | Continue => page_loop w fuel'
          end
      end
  end%nat.

Definition initial_state (max_pages : Z) : st :=
  State [] ∅ [] (PageVars 1 (VInt 1) max_pages).

Definition collect (w : server) (max_pages : Z) (fuel : nat)
    : st * result (option unit) :=
  page_loop w fuel (initial_state max_pages).

(** [extract_trustpilot_reviews(base_url, max_pages)]; [None] when the
    loop needs more than [fuel] iterations. *)
Definition extract_trustpilot_reviews (w : server) (max_pages : Z) (fuel : nat)
    : option (result (list record)) :=
  match collect w max_pages fuel with
  | (s, Ok (Some _)) => Some (Ok (pop_all ["id"; "consumer_id"] (all_reviews_data s)))
  | (_, Ok None) => None
  | (_, Raise e) => Some (Raise e)
  end.

End Extract.
End TP.

(** ** Writing the records to a file *)

(** [write_reviews_to_csv] and [write_reviews_to_excel] of
    [trustindex_scraper.py]; the other two scripts have the same functions
    with [logging] in the place of [print]. *)
Module Writers.

(** What the file and the writer library answer. *)
Record file_io := FileIO {
  (** [open(filename, 'w', newline='', encoding='utf-8')] *)
  open_ : result unit;
  (** [writer.writerow(row)] of [csv], [ws.append(row)] of [openpyxl] *)
  write_row : list pyval -> result unit;
  (** [wb.save(filename)] *)
  save : result unit
}.

(** The rows of a file, each the list of the values handed to the writer. *)
Abbreviation rows := (list (list pyval)).

(** [fieldnames = set(); for review in reviews:
     fieldnames.update(review.keys()); fieldnames = sorted(list(fieldnames))] *)
Definition fieldnames_of (reviews : list record) : list string :=
  let fieldnames : gset string :=
    foldl (fun fieldnames review => fieldnames ∪ dom review) ∅ reviews in
  merge_sort String.le (elements fieldnames).

(** [[review.get(field, "") for field in fieldnames]], which is also what
    [DictWriter] makes of a row with [restval] left at [''] *)
Definition row_of (fieldnames : list string) (review : record) : list pyval :=
  map (fun field => default (VStr "") (review !! field)) fieldnames.

(** Hand the rows to the writer one by one; the rows it took, and the
    exception that stopped it. *)
Fixpoint write_rows (io : file_io) (l : rows) : rows * result unit :=
  match l with
  | [] => ([], Ok tt)
  | row :: l' =>
      match write_row io row with
      | Ok _ => let (done, r) := write_rows io l' in (row :: done, r)
      | Raise e => ([], Raise e)
      end
  end.

(** [write_reviews_to_csv(reviews, filename)]: the rows of the file, [None]
    when no file is made. A failure while writing leaves the rows written
    before it. *)
Definition write_reviews_to_csv (io : file_io) (reviews : list record)
    : option rows :=
  match reviews with
  | [] => None
  | _ =>
      let fieldnames := fieldnames_of reviews in
      match open_ io with
      | Raise _ => None
      | Ok _ =>
          Some (fst (write_rows io
                  (map VStr fieldnames :: map (row_of fieldnames) reviews)))
      end
  end.

(** [write_reviews_to_excel(reviews, filename)]: the rows of the sheet
    that is saved, [None] when no file is made. *)
Definition write_reviews_to_excel (io : file_io) (reviews : list record)
    : option rows :=
  match reviews with
  | [] => None
  | _ =>
      let fieldnames := fieldnames_of reviews in
      match write_rows io (map VStr fieldnames :: map (row_of fieldnames) reviews) with
      | (ws, Ok _) =>
          match save io with
          | Ok _ => Some ws
          | Raise _ => None
          end
      | (_, Raise _) => None
      end
  end.

End Writers.

(** ** A reference library *)

(** An instance of [PyLib] to run the scripts on examples. It follows
    CPython on ASCII text that holds no markup and no character reference,
    and on years from 1000 on; [fromisoformat] accepts
    [YYYY-MM-DD] and [YYYY-MM-DD?HH:MM:SS] with an optional fraction of
    three or six digits and an optional offset [+HH:MM] or [-HH:MM]. *)
Module RefLib.

Definition digit (c : ascii) : option Z :=
  let n := Z.of_N (N_of_ascii c) in
  if (48 <=? n) && (n <=? 57) then Some (n - 48) else None.

Fixpoint number_from (acc : Z) (s : string) : option Z :=
  match s with
  | EmptyString => Some acc
  | String c s' =>
      match digit c with
      | Some d => number_from (10 * acc + d) s'
      | None => None
      end
  end.

(** A non-empty string of digits of the given length *)
Definition number (len : nat) (s : string) : option Z :=
  if Nat.eqb (String.length s) len && negb (Nat.eqb len 0)
  then number_from 0 s else None.

Definition is_leap (y : Z) : bool :=
  (y mod 4 =? 0) && (negb (y mod 100 =? 0) || (y mod 400 =? 0)).

Definition days_in_month (y m : Z) : Z :=
  if m =? 2 then (if is_leap y then 29 else 28)
  else if (m =? 4) || (m =? 6) || (m =? 9) || (m =? 11) then 30
  else 31.

Definition valid_date (y m d : Z) : bool :=
  (1 <=? y) && (y <=? 9999) && (1 <=? m) && (m <=? 12) &&
  (1 <=? d) && (d <=? days_in_month y m).

Definition valid_time (h mi s : Z) : bool :=
  (0 <=? h) && (h <=? 23) && (0 <=? mi) && (mi <=? 59) &&
  (0 <=? s) && (s <=? 59).

Record dt := Dt {
  year : Z; month : Z; day : Z; hour : Z; minute : Z; second : Z
}.

(** Split at the first occurrence of a character. *)
Fixpoint split_at (sep : ascii) (s : string) : string * option string :=
  match s with
  | EmptyString => (EmptyString, None)
  | String c s' =>
      if Ascii.eqb c sep then (EmptyString, Some s')
      else let (a, b) := split_at sep s' in (String c a, b)
  end.

(** One or two digits, as [%m] takes them *)
Definition short_number (s : string) : option Z :=
  match number 1 s with
  | Some n => Some n
  | None => number 2 s
  end.

(** [%d] also takes a space and a digit. *)
Definition day_number (s : string) : option Z :=
  match s with
  | String " " s' => number 1 s'
  | _ => short_number s
  end.

(** [datetime.strptime(s, '%Y.%m.%d')] *)
Definition strptime_Y_m_d (s : string) : option dt :=
  match split_at "." s with
  | (ys, Some rest) =>
      match split_at "." rest with
      | (ms, Some ds) =>
          match number 4 ys, short_number ms, day_number ds with
          | Some y, Some m, Some d =>
              if valid_date y m d then Some (Dt y m d 0 0 0) else None
          | _, _, _ => None
          end
      | _ => None
      end
  | _ => None
  end.

Definition date_of (s : string) : option (Z * Z * Z) :=
  match number 4 (substring 0 4 s), number 2 (substring 5 2 s),
        number 2 (substring 8 2 s) with
  | Some y, Some m, Some d =>
      if String.eqb (substring 4 1 s) "-" && String.eqb (substring 7 1 s) "-"
         && valid_date y m d
      then Some (y, m, d) else None
  | _, _, _ => None
  end.

Definition time_of (s : string) : option (Z * Z * Z) :=
  match number 2 (substring 0 2 s), number 2 (substring 3 2 s),
        number 2 (substring 6 2 s) with
  | Some h, Some mi, Some sec =>
      if String.eqb (substring 2 1 s) ":" && String.eqb (substring 5 1 s) ":"
         && valid_time h mi sec
      then Some (h, mi, sec) else None
  | _, _, _ => None
  end.

Definition fraction_ok (s : string) : bool :=
  match s with
  | EmptyString => true
  | String c s' =>
      Ascii.eqb c "." &&
      (match number 3 s' with Some _ => true | None => false end ||
       match number 6 s' with Some _ => true | None => false end)
  end.

Definition offset_ok (s : string) : bool :=
  match s with
  | EmptyString => true
  | String c s' =>
      (Ascii.eqb c "+" || Ascii.eqb c "-") &&
      Nat.eqb (String.length s') 5 &&
      match time_of (s' +:+ ":00") with
      | Some _ => true
      | None => false
      end
  end.

(** The fraction and the offset that follow the seconds *)
Definition tail_ok (s : string) : bool :=
  let cut :=
    match index 0 "+" s, index 0 "-" s with
    | Some i, _ => i
    | None, Some i => i
    | None, None => String.length s
    end in
  fraction_ok (substring 0 cut s) &&
  offset_ok (substring cut (String.length s - cut) s).

(** [datetime.fromisoformat(s)] *)
Definition fromisoformat (s : string) : option dt :=
  match date_of (substring 0 10 s) with
  | None => None
  | Some (y, m, d) =>
      let n := String.length s in
      if Nat.eqb n 10 then Some (Dt y m d 0 0 0)
      else if Nat.ltb n 19 then None
      else
        match time_of (substring 11 8 s) with
        | Some (h, mi, sec) =>
            if tail_ok (substring 19 (n - 19) s)
            then Some (Dt y m d h mi sec) else None
        | None => None
        end
  end.

Definition digit_char (n : Z) : ascii := ascii_of_N (Z.to_N (48 + n mod 10)).

(** [n] in [width] digits, padded with zeros *)
Fixpoint digits (width : nat) (n : Z) : string :=
  match width with
  | O => EmptyString
  | S w => digits w (n / 10) +:+ String (digit_char n) EmptyString
  end.

Definition strftime_date (d : dt) : string :=
  digits 4 (year d) +:+ "-" +:+ digits 2 (month d) +:+ "-" +:+ digits 2 (day d).

Definition strftime_datetime (d : dt) : string :=
  strftime_date d +:+ " " +:+ digits 2 (hour d) +:+ ":" +:+
  digits 2 (minute d) +:+ ":" +:+ digits 2 (second d).

(** The white space [str.strip] removes, within ASCII *)
Definition is_space (c : ascii) : bool :=
  let n := N_of_ascii c in
  ((9 <=? n) && (n <=? 13) || (28 <=? n) && (n <=? 32))%N.

Fixpoint lstrip (s : string) : string :=
  match s with
  | EmptyString => EmptyString
  | String c s' => if is_space c then lstrip s' else s
  end.

Fixpoint rstrip (s : string) : string :=
  match s with
  | EmptyString => EmptyString
  | String c s' =>
      match rstrip s' with
      | EmptyString => if is_space c then EmptyString else String c EmptyString
      | r => String c r
      end
  end.

Definition str_strip (s : string) : string := rstrip (lstrip s).

#[global] Instance lib : PyLib :=
  Build_PyLib dt strptime_Y_m_d fromisoformat strftime_date strftime_datetime
    str_strip (fun s => s) (fun s => s).

End RefLib.

(** ** The deduplication, stated on the log *)

(** The identifier under which the Trustindex scripts store a record:
    the value of ['review_id'], when the record has one that is true and
    can be hashed. *)
Definition trustindex_key (r : record) : option hkey :=
  if nonempty r then
    match r !! "review_id" with
    | Some v => if truthy v then key_of v else None
    | None => None
    end
  else None.

(** The identifier under which the Trustpilot script stores a record: the
    value of ['id'], when it can be hashed. *)
Definition trustpilot_key (r : record) : option hkey :=
  if nonempty r then
    match r !! "id" with
    | Some v => key_of v
    | None => None
    end
  else None.

(** The records of [l] that have an identifier not met before, neither in
    [ids] nor earlier in [l]. *)
Fixpoint first_seen (key : record -> option hkey) (ids : gset hkey)
    (l : list record) : list record :=
  match l with
  | [] => []
  | r :: l' =>
      match key r with
      | Some k =>
          if decide (k ∈ ids) then first_seen key ids l'
          else r :: first_seen key ({[k]} ∪ ids) l'
      | None => first_seen key ids l'
      end
  end.

(** The accumulators agree with the log: the list holds the first record
    of every identifier seen, the set their identifiers. *)
Definition deduplicated {L} (key : record -> option hkey) (s : state L) : Prop :=
  all_reviews_data s = first_seen key ∅ (seen (trace s)) /\
  review_ids s = list_to_set (omap key (all_reviews_data s)).

(** The state after a parsed record has met the deduplication test:
    the record is in the log, and it is in the accumulators when it has an
    identifier that was not there. *)
Definition logged {L} (e : event) (s : state L) : state L :=
  State (all_reviews_data s) (review_ids s) (trace s ++ [e]) (locals s).

Definition stored {L} (key : record -> option hkey) (rd : record) (s : state L)
    : state L :=
  match key rd with
  | Some k =>
      if decide (k ∈ review_ids s) then s
      else State (all_reviews_data s ++ [rd]) ({[k]} ∪ review_ids s)
             (trace s) (locals s)
  | None => s
  end.

Definition is_stored {L} (key : record -> option hkey) (rd : record) (s : state L)
    : bool :=
  match key rd with
  | Some k => bool_decide (k ∉ review_ids s)
  | None => false
  end.

Definition seen_step {L} (key : record -> option hkey) (s : state L) (rd : record)
    : state L :=
  stored key rd (logged (EvSeen rd) s).

(** ** The shape of a run of the 'More' loop *)

(** The events of a run of the 'More' loop that starts with [remaining]
    iterations to go at [loop_count]: an iteration starts, records are
    seen, and then the run stops on an exception ([more_stop]), on a pass
    that added nothing ([more_last]), or goes on after a pass that added
    something ([more_next]). *)
Inductive more_trace : nat -> nat -> list event -> Prop :=
| more_done loop_count :
    more_trace O loop_count []
| more_stop remaining loop_count rds :
    more_trace (S remaining) loop_count (EvClick loop_count :: (EvSeen <$> rds))
| more_last remaining loop_count rds :
    more_trace (S remaining) loop_count
      (EvClick loop_count :: (EvSeen <$> rds) ++ [EvPass O])
| more_next remaining loop_count rds n T :
    more_trace remaining (S loop_count) T ->
    more_trace (S remaining) loop_count
      (EvClick loop_count :: (EvSeen <$> rds) ++ EvPass (S n) :: T).

(** The second Trustindex script is ready for an iteration when the
    accumulators agree with the log and [last_known_review_id_count] is the
    size of the set. *)
Definition v2_ready (s : state nat) : Prop :=
  deduplicated trustindex_key s /\ locals s = size (review_ids s).

(** ** The first page of the Trustpilot loop *)

(** [total_pages] and [max_pages] after the [try] statement under
    [if current_page == 1]. *)
Definition after_read (page_data : pyval) (l : TP.page_vars) : TP.page_vars :=
  match TP.lookup_total_pages page_data with
  | Ok tp =>
      if 0 <? TP.max_pages l then
        match py_min tp (TP.max_pages l) with
        | Ok m => TP.PageVars (TP.current_page l) m (TP.max_pages l)
        | Raise _ => TP.PageVars (TP.current_page l) tp (TP.max_pages l)
        end
      else TP.PageVars (TP.current_page l) tp (TP.max_pages l)
  | Raise _ =>
      if TP.max_pages l =? 0
      then TP.PageVars (TP.current_page l) (TP.total_pages l) 1000
      else l
  end.

(** The values of [total_pages] for which [current_page >= total_pages] is
    false at every page: [nan] and [inf]. *)
Definition unbounded (v : pyval) : bool :=
  match v with
  | VFloat FNaN | VFloat (FInf false) => true
  | _ => false
  end.

(** The first page number that is [>=] the number [v]; 0 for a value that
    has none. *)
Definition limit (v : pyval) : Z :=
  match v with
  | VInt n => n
  | VBool b => if b then 1 else 0
  | VFloat (FNum negative m e) =>
      let m := if negative then - Z.of_N m else Z.of_N m in
      if 0 <=? e then m * 2 ^ e else - ((- m) / 2 ^ (- e))
  | _ => 0
  end.

(** The iterations the page loop can still make, the current one
    included, when [total_pages] is not [unbounded]. *)
Definition need (l : TP.page_vars) : nat :=
  Z.to_nat (Z.max 1 (limit (TP.total_pages l) - TP.current_page l + 1)).

(** The records a pass sees are parsed from the reviews of the page. *)
Definition parsed_from `{PyLib} (reviews : list pyval) (rds : list record) : Prop :=
  Forall (fun rd => exists x, x ∈ reviews /\
                     TP.parse_trustpilot_review_data x = Ok rd) rds.

(** One iteration of [while True]: the request, and the second [try]
    block when the request succeeds. *)
Definition iteration `{PyLib} (w : TP.server) (s : state TP.page_vars)
    : state TP.page_vars * result flow :=
  let s0 := logged (EvRequest (TP.current_page (locals s))) s in
  match TP.get w (length (requests (trace s))) (TP.current_page (locals s)) with
  | TP.Raised e =>
      (s0, if except_ [RequestException] e then Ok Break else Raise e)
  | TP.Html script_tag =>
      try_catch (TP.visit script_tag) except_Exception (fun _ => ret Break) s0
  end.

Definition with_locals {L} (l : L) (s : state L) : state L :=
  State (all_reviews_data s) (review_ids s) (trace s) l.

(** The events of a run of the page loop that starts at page [p] after
    [n] requests, and how the run stands: it is cut before the request
    ([pages_cut], with [Ok None]: the loop has not reached a [break]); the
    request raises an exception that is not caught, which leaves the
    function ([pages_raised]); the request fails with an exception of
    [requests] ([pages_failed]); the page is left before its reviews are
    read through ([pages_stop]); the page is the last one ([pages_last]);
    or the loop goes on with the next page, which takes a page that has
    reviews ([pages_next]). *)
Inductive pages_trace (w : TP.server)
    : nat -> Z -> result (option unit) -> list event -> Prop :=
| pages_cut n p :
    pages_trace w n p (Ok None) []
| pages_raised n p e :
    TP.get w n p = TP.Raised e -> except_ [RequestException] e = false ->
    pages_trace w n p (Raise e) [EvRequest p]
| pages_failed n p e :
    TP.get w n p = TP.Raised e -> except_ [RequestException] e = true ->
    pages_trace w n p (Ok (Some tt)) [EvRequest p]
| pages_stop n p script_tag rds :
    TP.get w n p = TP.Html script_tag ->
    pages_trace w n p (Ok (Some tt)) (EvRequest p :: (EvSeen <$> rds))
| pages_last n p script_tag rds m :
    TP.get w n p = TP.Html script_tag ->
    pages_trace w n p (Ok (Some tt))
      (EvRequest p :: (EvSeen <$> rds) ++ [EvPass m])
| pages_next n p page_data v rds m r T :
    TP.get w n p = TP.Html (Some (Ok page_data)) ->
    TP.reviews_of page_data = Ok v -> truthy v = true ->
    pages_trace w (S n) (p + 1) r T ->
    pages_trace w n p r (EvRequest p :: (EvSeen <$> rds) ++ EvPass m :: T).

(** What an iteration of the page loop does to the state [s]: it ends in
    [res], having seen the records [rds]. *)
Definition iteration_facts `{PyLib} (w : TP.server) (s : state TP.page_vars)
    (res : state TP.page_vars * result flow) : Prop :=
  let cur := TP.current_page (locals s) in
  let n := length (requests (trace s)) in
  exists s1 r rds tail,
    res = (s1, r) /\
    (tail = [] \/ exists m, tail = [EvPass m]) /\
    trace s1 = trace s ++ EvRequest cur :: (EvSeen <$> rds) ++ tail /\
    all_reviews_data s `prefix_of` all_reviews_data s1 /\
    (deduplicated trustpilot_key s -> deduplicated trustpilot_key s1) /\
    (match r with
     | Ok Break =>
         pages_trace w n cur (Ok (Some tt))
           (EvRequest cur :: (EvSeen <$> rds) ++ tail)
     | Raise e =>
         pages_trace w n cur (Raise e)
           (EvRequest cur :: (EvSeen <$> rds) ++ tail)
     | Ok Continue => True
     end) /\
    (r = Ok Continue -> exists page_data v m,
       TP.get w n cur = TP.Html (Some (Ok page_data)) /\
       TP.reviews_of page_data = Ok v /\ truthy v = true /\
       tail = [EvPass m] /\
       TP.current_page (locals s1) = cur + 1 /\
       py_ge cur (TP.total_pages (locals s1)) = Ok false) /\
    (cur <> 1 ->
       TP.total_pages (locals s1) = TP.total_pages (locals s) /\
       TP.max_pages (locals s1) = TP.max_pages (locals s)) /\
    (forall page_data v,
       TP.get w n cur = TP.Html (Some (Ok page_data)) ->
       TP.reviews_of page_data = Ok v -> cur = 1 ->
       TP.total_pages (locals s1) = TP.total_pages (after_read page_data (locals s)) /\
       TP.max_pages (locals s1) = TP.max_pages (after_read page_data (locals s))) /\
    (rds = [] \/ exists page_data v reviews,
       TP.get w n cur = TP.Html (Some (Ok page_data)) /\
       TP.reviews_of page_data = Ok v /\ py_iter v = Ok reviews /\
       parsed_from reviews rds).

(** The first page gives a [total_pages] under which no page is the
    last. *)
Definition endless (w : TP.server) (max_pages : Z) : bool :=
  match TP.get w 0 1 with
  | TP.Html (Some (Ok page_data)) =>
      unbounded (TP.total_pages
                   (after_read page_data (TP.PageVars 1 (VInt 1) max_pages)))
  | _ => false
  end.

(** The page at which the page loop can go on: it has reviews. *)
Definition goes_on (w : TP.server) (n : nat) (p : Z) : Prop :=
  exists page_data v,
    TP.get w n p = TP.Html (Some (Ok page_data)) /\
    TP.reviews_of page_data = Ok v /\ truthy v = true.

(** ** Functions used to state the properties *)

Section Statements.
Context `{PyLib}.

(** The date the second script stores for the text of the date element. *)
Definition iso_date (date_str : string) : string :=
  match strptime_Y_m_d date_str with
  | Some dt_obj => strftime_date dt_obj
  | None => date_str
  end.

(** The record [parse_review_div] builds for an element with the
    identifier [id]. *)
Definition v2_record (id : string) (review_div : tag) : record :=
  <["source_platform" := VStr (source_of (default [] (tag_class review_div)))]>
  (<["body" := match find "div" "ti-review-content" review_div with
               | Some c => VStr (html_unescape (str_strip (text (replace_brs c))))
               | None => VNone
               end]>
  (<["rating" := match find "div" "ti-stars" review_div with
                 | Some c => VInt (Z.of_nat (length (find_all "span" (Some "ti-star f") c)))
                 | None => VNone
                 end]>
  (<["date" := match find "div" "ti-date" review_div with
               | Some d => VStr (iso_date (str_strip (text d)))
               | None => VNone
               end]>
  (<["author" := match find "div" "ti-name" review_div with
                 | Some a => VStr (str_strip (text a))
                 | None => VNone
                 end]>
  (<["review_id" := VStr id]> ∅))))).

(** The text a Trustpilot date field holds for the date string [s], [fmt]
    being the [strftime] of the field. *)
Definition iso_of (fmt : datetime -> string) (s : string) : string :=
  match fromisoformat (str_replace "Z" "+00:00" s) with
  | Some dt_obj => fmt dt_obj
  | None => s
  end.

(** The record [parse_review_div] of trustindex_scraper.py builds. *)
Definition v1_record (review_div : tag) : record :=
  <["review_id" := opt_str (tag_get "data-id" review_div)]>
  (<["author" := match find "div" "ti-name" review_div with
                 | Some a => VStr (str_strip (text a))
                 | None => VNone
                 end]>
  (<["date" := match find "div" "ti-date" review_div with
               | Some d => VStr (str_strip (text d))
               | None => VNone
               end]>
  (<["rating" := match find "div" "ti-stars" review_div with
                 | Some c => VInt (Z.of_nat (length (find_all "span" (Some "ti-star f") c)))
                 | None => VNone
                 end]>
  (<["body" := match find "div" "ti-review-content" review_div with
               | Some c => VStr (str_strip (text (replace_brs c)))
               | None => VNone
               end]>
  (<["source_platform" := VStr (match tag_class review_div with
                                | Some cls => source_of cls
                                | None => "Unknown"
                                end)]> ∅))))).

End Statements.

(** ** Examples *)

(** A review element as the Trustindex page has it. *)
Definition review_elem (id : option string) (classes : list string)
    (name date : option string) (stars : option nat) (body : option (list node))
    : node :=
  let part (c : string) (cs : option (list node)) : list node :=
    match cs with
    | Some cs => [Element "div" ∅ (Some [c]) cs]
    | None => []
    end in
  Element "div"
    (match id with Some i => {[ "data-id" := i ]} | None => ∅ end)
    (Some classes)
    (part "ti-name" ((fun s => [NavigableString s]) <$> name) ++
     part "ti-date" ((fun s => [NavigableString s]) <$> date) ++
     part "ti-stars"
       ((fun n => repeat (Element "span" ∅ (Some ["ti-star"; "f"]) []) n) <$> stars) ++
     part "ti-review-content" body).

(** The element itself, as [find_all] returns it. *)
Definition as_tag (n : node) : tag :=
  match n with
  | Element nm at_ cl cs => Tag nm at_ cl cs
  | NavigableString _ => Tag "" ∅ None []
  end.

(** A parsed page with the given elements in its body. *)
Definition page_of (l : list node) : tag := Tag "[document]" ∅ None l.

Definition review_a : node :=
  review_elem (Some "a1") ["review"; "source-Google"] (Some " Ann ")
    (Some "2024.01.15") (Some 5%nat)
    (Some [NavigableString "Good"; Element "br" ∅ None []; NavigableString "flight"]).
Definition review_b : node :=
  review_elem (Some "b2") ["review"] (Some "Bob") (Some "last week") (Some 2%nat)
    (Some [NavigableString "Late"]).
Definition review_c : node :=
  review_elem None ["review"] (Some "Cy") None None None.
Definition review_d : node :=
  review_elem (Some "d4") ["review"; "source-Facebook"] None (Some "2023.12.01")
    (Some 4%nat) (Some [NavigableString "Fine"]).

(** A page with two reviews, and the page after a click on 'More': the
    same two, one without identifier, and a new one. *)
Definition page_one : tag := page_of [review_a; review_b].
Definition page_two : tag := page_of [review_a; review_b; review_c; review_d].

(** A browser that loads [page_one], shows [page_two] after every click
    during the first two iterations, and has no button after that. *)
Definition browser_a : V1.browser :=
  V1.Browser (Ok tt) (Ok page_one)
    (fun loop_count =>
       if Nat.ltb loop_count 2
       then V1.MoreClick (Ok tt) (Ok tt) (Ok tt) (Ok tt) (Ok tt) (Ok page_two)
       else V1.MoreClick (Raise TimeoutException) (Ok tt) (Ok tt) (Ok tt) (Ok tt)
              (Ok page_two)).

(** A browser for the second script: the scroll fails, the button never
    gets clickable, the direct click meets a stale element and the last
    element does not settle; the page after every click is [page_two]. *)
Definition browser_b : V2.browser :=
  V2.Browser (Ok tt) (Ok (Ok page_one))
    (fun _ =>
       V2.MoreClick (Ok 2%nat) (Ok tt) (Raise WebDriverException)
         (Raise TimeoutException) (Ok tt) (Raise StaleElementReferenceException)
         (Ok tt) (Ok tt) (Ok tt) (Ok 4%nat) (Raise TimeoutException) (Ok true)
         (Ok (Ok page_two))).

(** A review object as the Trustpilot payload has it. *)
Definition review_json_of (id : pyval) (published experienced : string) : pyval :=
  VDict [("id", id);
         ("consumer", VDict [("displayName", VStr "Eve"); ("id", VStr "c1")]);
         ("dates", VDict [("publishedDate", VStr published);
                          ("experiencedDate", VStr experienced)]);
         ("rating", VInt 4);
         ("text", VStr "Nice crew")].

Definition review_1 : pyval :=
  review_json_of (VStr "r1") "2023-05-01T12:34:56.000Z" "2023-04-30T00:00:00.000Z".
Definition review_2 : pyval :=
  review_json_of (VStr "r2") "2023-05-02T08:00:00.000Z" "in May".

(** The payload of a page: its reviews and, when given, [totalPages]. *)
Definition page_data_of (reviews : pyval) (totalPages : option pyval) : pyval :=
  VDict [("props",
          VDict [("pageProps",
                  VDict (("reviews", reviews) ::
                         match totalPages with
                         | Some t =>
                             [("filters",
                               VDict [("pagination", VDict [("totalPages", t)])])]
                         | None => []
                         end))])].

(** A server whose pages all hold [review_1] and say that there are no
    pages at all. *)
Definition server_zero : TP.server :=
  TP.Server (fun _ _ =>
    TP.Html (Some (Ok (page_data_of (VList [review_1]) (Some (VInt 0)))))).

(** A server whose pages hold two reviews and no pagination data. *)
Definition server_bare : TP.server :=
  TP.Server (fun _ _ =>
    TP.Html (Some (Ok (page_data_of (VList [review_1; review_2]) None)))).

(** A server with three pages: page 2 repeats a review of page 1, page 3
    cannot be fetched. *)
Definition server_three : TP.server :=
  TP.Server (fun _ p =>
    if p =? 1 then
      TP.Html (Some (Ok (page_data_of (VList [review_1]) (Some (VInt 3)))))
    else if p =? 2 then
      TP.Html (Some (Ok (page_data_of (VList [review_1; review_2]) (Some (VInt 3)))))
    else TP.RequestFailed).

(** A browser whose direct click is always intercepted, while the
    JavaScript click works: the page after the click of the iteration
    [loop_count] has one review more than the one before. *)
Definition review_e : node :=
  review_elem (Some "e5") ["review"] (Some "Eli") (Some "2023.11.30") (Some 3%nat)
    (Some [NavigableString "Fair"]).
Definition review_f : node :=
  review_elem (Some "f6") ["review"] (Some "Fay") (Some "2023.11.29") (Some 1%nat)
    (Some [NavigableString "Lost bag"]).

Definition browser_c : V1.browser :=
  V1.Browser (Ok tt) (Ok page_one)
    (fun loop_count =>
       V1.MoreClick (Ok tt) (Ok tt) (Raise ElementClickInterceptedException)
         (Ok tt) (Ok tt)
         (Ok (page_of ([review_a; review_b; review_d]
                       ++ firstn loop_count [review_e; review_f])))).

(** A server with three pages whose second request raises an exception
    that is not a [RequestException]. *)
Definition server_raising : TP.server :=
  TP.Server (fun _ p =>
    if p =? 1 then
      TP.Html (Some (Ok (page_data_of (VList [review_1]) (Some (VInt 3)))))
    else TP.Raised ValueError).
(** ** More functions used to state properties *)

Definition is_dict (v : pyval) : bool :=
  match v with VDict _ => true | _ => false end.

Definition is_str (v : pyval) : bool :=
  match v with VStr _ => true | _ => false end.

(** The value of a key in the items of a dict, [dflt] when it is absent. *)
Definition dict_get (d : list (string * pyval)) (k : string) (dflt : pyval) : pyval :=
  match assoc k d with
  | Some x => x
  | None => dflt
  end.

(** The review objects [parse_trustpilot_review_data] takes without an
    exception: an object whose [consumer], [dates], [labels] and
    [labels.verification] are objects when present, whose two dates are
    strings, and whose [text] is a string when present. *)
Definition parses (review_json : pyval) : bool :=
  match review_json with
  | VDict d =>
      is_dict (dict_get d "consumer" (VDict [])) &&
      match dict_get d "dates" (VDict []) with
      | VDict ds =>
          is_str (dict_get ds "publishedDate" VNone) &&
          is_str (dict_get ds "experiencedDate" VNone)
      | _ => false
      end &&
      is_str (dict_get d "text" (VStr "")) &&
      match dict_get d "labels" (VDict []) with
      | VDict ls => is_dict (dict_get ls "verification" (VDict []))
      | _ => false
      end
  | _ => false
  end.

(** The computation [m] keeps what [I] says of the state, whether it
    returns or raises. *)
Definition keeps {L A} (I : state L -> Prop) (m : M L A) : Prop :=
  forall s, I s -> I (fst (m s)).

(** Every record the run has seen satisfies [P]. *)
Definition all_seen {L} (P : record -> Prop) (s : state L) : Prop :=
  Forall P (seen (trace s)).

(** The review elements of the pages the browser shows to the first
    Trustindex script. *)
Definition v1_shown (w : V1.browser) (div : tag) : Prop :=
  exists soup,
    (V1.initial_page w = Ok soup \/
     exists n, V1.page_source (V1.more w n) = Ok soup) /\
    div ∈ find_all "div" (Some "review") soup.

(** The same for the second script. *)
Definition v2_shown (w : V2.browser) (div : tag) : Prop :=
  exists soup,
    (V2.initial_page w = Ok (Ok soup) \/
     exists n, V2.page_source (V2.more w n) = Ok (Ok soup)) /\
    div ∈ find_all "div" (Some "review") soup.

(** The review objects of the pages the server sends. *)
Definition tp_sent (w : TP.server) (x : pyval) : Prop :=
  exists n p page_data v reviews,
    TP.get w n p = TP.Html (Some (Ok page_data)) /\
    TP.reviews_of page_data = Ok v /\ py_iter v = Ok reviews /\
    x ∈ reviews.

(** The keys of the records the Trustindex scripts return, and of the
    records the Trustpilot script returns. *)
Definition trustindex_columns : list string :=
  ["author"; "body"; "date"; "rating"; "source_platform"].

Definition trustpilot_columns : list string :=
  ["author"; "body"; "consumer_country"; "consumer_reviews_count";
   "date_experience"; "date_published"; "is_verified"; "language"; "likes";
   "rating"; "title"; "verification_source"].

(** ** The scripts *)

(** The statements at the end of trustindex_scraper.py, which run when the
    module is loaded: [reviews = extract_reviews_selenium(trustindex_url,
    max_loops=10)], and [write_reviews_to_excel(reviews)] under
    [if reviews]. The result is the sheet that is saved. *)
Definition v1_main `{PyLib} (w : V1.browser) (io : Writers.file_io)
    : result (option Writers.rows) :=
  reviews ← V1.extract_reviews_selenium w 10;
  match reviews with
  | [] => ret None
  | _ => ret (Writers.write_reviews_to_excel io reviews)
  end.

(** The block under [if __name__ == "__main__"] of trustindex_scraper2.py
    after the arguments are read, [loops] being [args.loops]: the CSV file
    and the sheet. *)
Definition v2_main `{PyLib} (w : V2.browser) (loops : Z)
    (csv excel : Writers.file_io)
    : result (option Writers.rows * option Writers.rows) :=
  extracted_reviews ← V2.extract_reviews_selenium w loops;
  match extracted_reviews with
  | [] => ret (None, None)
  | _ => ret (Writers.write_reviews_to_csv csv extracted_reviews,
              Writers.write_reviews_to_excel excel extracted_reviews)
  end.

(** The block under [if __name__ == "__main__"] of trustpilot_scraper.py,
    [pages] being [args.pages]. *)
Definition tp_main `{PyLib} (w : TP.server) (pages : Z) (fuel : nat)
    (csv excel : Writers.file_io)
    : option (result (option Writers.rows * option Writers.rows)) :=
  match TP.extract_trustpilot_reviews w pages fuel with
  | None => None
  | Some r => Some (
      extracted_reviews ← r;
      match extracted_reviews with
      | [] => ret (None, None)
      | _ => ret (Writers.write_reviews_to_csv csv extracted_reviews,
                  Writers.write_reviews_to_excel excel extracted_reviews)
      end)
  end.

(** The table of the records [l] under the header [columns]. *)
Definition table (columns : list string) (l : list record) : Writers.rows :=
  map VStr columns :: map (Writers.row_of columns) l.

(** ** The pages a run reads *)

(** What the browser answers to the click of the iteration
    [loop_count = k], up to the page it shows after it. *)
Definition v1_click (w : V1.browser) (k : nat) : result tag :=
  V1.press (V1.more w k) ;; V1.page_source (V1.more w k).

(** The records of the review elements of the pages [soups], page after
    page. *)
Definition v1_records `{PyLib} (soups : list tag) : list record :=
  v1_record <$> concat (find_all "div" (Some "review") <$> soups).

(** ** The pages the Trustpilot run reads *)

(** The last page of a run that finds [totalPages = N] on the first page:
    [min(N, max_pages)] under a limit, [N] without. *)
Definition tp_last_page (max_pages N : Z) : Z :=
  if 0 <? max_pages then Z.min N max_pages else N.

(** The record of a review object, if the parse function returns one. *)
Definition tp_parsed `{PyLib} (review_json : pyval) : option record :=
  match TP.parse_trustpilot_review_data review_json with
  | Ok review_data => Some review_data
  | Raise _ => None
  end.

(** The records of the review objects of some pages, page after page. *)
Definition tp_records `{PyLib} (pages : list (list pyval)) : list record :=
  omap tp_parsed (concat pages).

(** The review object can be stored: it is parsed, and its ['id'] can be
    hashed. *)
Definition tp_storable `{PyLib} (review_json : pyval) : Prop :=
  exists review_data,
    TP.parse_trustpilot_review_data review_json = Ok review_data /\
    is_Some (trustpilot_key review_data).

(** The server answers the request for page [p], made after [p - 1]
    others, with the payload [page_data], whose reviews are the list
    [reviews]: not empty, and each of them can be stored. *)
Definition tp_healthy `{PyLib} (w : TP.server) (p : Z) (page_data : pyval)
    (reviews : list pyval) : Prop :=
  TP.get w (Z.to_nat (p - 1)) p = TP.Html (Some (Ok page_data)) /\
  TP.reviews_of page_data = Ok (VList reviews) /\
  reviews <> [] /\
  Forall tp_storable reviews.

(** What the browser answers during the iteration [loop_count = k] of the
    second script, up to the page source it hands over: [None] when the
    script leaves the loop before it reads the source. *)
Definition v2_click (w : V2.browser) (k : nat) : result (option (result tag)) :=
  V2.count_before (V2.more w k);;
  f ← V2.press (V2.more w k);
  match f with
  | Break => ret None
  | Continue =>
      page ← V2.page_source (V2.more w k);
      ret (Some page)
  end.

(** The record of a review element, if the parse function returns one. *)
Definition v2_parsed `{PyLib} (review_div : tag) : option record :=
  match V2.parse_review_div review_div with
  | Ok (Some review_data) => Some review_data
  | _ => None
  end.

(** The records of the review elements of some page sources, page after
    page. *)
Definition v2_records `{PyLib} (pages : list (result tag)) : list record :=
  omap v2_parsed (concat (V2.get_review_divs_from_source <$> pages)).

(** ** More examples *)

(** The payloads of the first two pages of [server_three], and their
    reviews. *)
Definition reviews_three (p : Z) : list pyval :=
  if p =? 1 then [review_1] else [review_1; review_2].

Definition page_three (p : Z) : pyval :=
  page_data_of (VList (reviews_three p)) (Some (VInt 3)).

(** A server whose pages all hold [review_1] and give [NaN] as
    [totalPages]. *)
Definition server_nan : TP.server :=
  TP.Server (fun _ _ =>
    TP.Html (Some (Ok (page_data_of (VList [review_1]) (Some (VFloat FNaN)))))).

(** The list [extract_trustpilot_reviews] returns on [server_three]
    without a limit. *)
Definition server_three_reviews : list record :=
  Eval vm_compute in
    match TP.extract_trustpilot_reviews server_three 0 5 with
    | Some (Ok l) => l
    | _ => []
    end.
(** * Properties *)

(** ** The state-and-error monad *)

Section MonadLaws.
Context {L : Type}.
Implicit Types (s : state L).

Lemma run_bind {A B} (m : M L A) (f : A -> M L B) s :
  bind m f s =
  match m s with
  | (s', Ok a) => f a s'
  | (s', Raise e) => (s', Raise e)
  end.
Proof. reflexivity. Qed.

Lemma run_try_catch {A} (m : M L A) catches (h : exn -> M L A) s :
  try_catch m catches h s =
  match m s with
  | (s', Ok a) => (s', Ok a)
  | (s', Raise e) => if catches e then h e s' else (s', Raise e)
  end.
Proof. reflexivity. Qed.

Lemma for_cons {A B} (x : A) (l : list A) (b : B) (body : A -> B -> M L B) :
  for_ (x :: l) b body = bind (body x b) (fun b' => for_ l b' body).
Proof. reflexivity. Qed.

End MonadLaws.

Ltac split_run := split; [|split; [|split; [|split]]].
Ltac split10 :=
  split; [|split; [|split; [|split; [|split; [|split; [|split; [|split; [|split]]]]]]]].
Ltac split4 := split; [|split; [|split]].

Lemma clicks_app (l1 l2 : list event) : clicks (l1 ++ l2) = clicks l1 ++ clicks l2.
Proof. apply omap_app. Qed.

Lemma seen_app (l1 l2 : list event) : seen (l1 ++ l2) = seen l1 ++ seen l2.
Proof. apply omap_app. Qed.

Lemma requests_app (l1 l2 : list event) :
  requests (l1 ++ l2) = requests l1 ++ requests l2.
Proof. apply omap_app. Qed.

(** ** [parse_review_div] of trustindex_scraper2.py *)

Section V2Parse.
Context `{PyLib}.

Lemma v2_parse_none (review_div : tag) :
  tag_get "data-id" review_div = None \/ tag_get "data-id" review_div = Some "" ->
  V2.parse_review_div review_div = Ok None.
Proof.
  unfold V2.parse_review_div. intros [-> | ->]; reflexivity.
Qed.

Lemma v2_parse_some (review_div : tag) (id : string) :
  tag_get "data-id" review_div = Some id -> id <> "" ->
  V2.parse_review_div review_div = Ok (Some (v2_record id review_div)).
Proof.
  intros Hid Hne. unfold V2.parse_review_div, v2_record, iso_date. rewrite Hid.
  assert (truthy (opt_str (Some id)) = true) as ->.
  { simpl. destruct id; [done | reflexivity]. }
  simpl negb. cbv iota.
  destruct (find "div" "ti-name" review_div);
    destruct (find "div" "ti-date" review_div);
    destruct (find "div" "ti-stars" review_div);
    destruct (find "div" "ti-review-content" review_div);
    simpl; try destruct (strptime_Y_m_d _); reflexivity.
Qed.

(** C10, amended. [parse_review_div] of trustindex_scraper2.py never
    raises; it returns [None] exactly when the element has no ['data-id']
    attribute or an empty one; otherwise it returns a dict whose keys are
    exactly review_id, author, date, rating, body and source_platform. A
    field is [None] exactly when its element is not found. When the element
    is found, author and body are the stripped text, rating is the number
    of stars, and date is the text in ISO form when [strptime] takes it
    and the stripped text itself when [strptime] raises [ValueError].
    source_platform is ['Unknown'] when no class of the element starts with
    ['source-']. *)
Theorem v2_parse_review_div_total (review_div : tag) :
  (exists r, V2.parse_review_div review_div = Ok r) /\
  (V2.parse_review_div review_div = Ok None <->
     tag_get "data-id" review_div = None \/
     tag_get "data-id" review_div = Some "") /\
  (forall r, V2.parse_review_div review_div = Ok (Some r) ->
     dom r = list_to_set ["review_id"; "author"; "date"; "rating"; "body";
                          "source_platform"] /\
     (exists id, tag_get "data-id" review_div = Some id /\
                 r !! "review_id" = Some (VStr id)) /\
     (find "div" "ti-name" review_div = None -> r !! "author" = Some VNone) /\
     (find "div" "ti-date" review_div = None -> r !! "date" = Some VNone) /\
     (find "div" "ti-stars" review_div = None -> r !! "rating" = Some VNone) /\
     (find "div" "ti-review-content" review_div = None ->
        r !! "body" = Some VNone) /\
     (List.filter (startswith "source-") (default [] (tag_class review_div)) = [] ->
        r !! "source_platform" = Some (VStr "Unknown")) /\
     (forall a, find "div" "ti-name" review_div = Some a ->
        r !! "author" = Some (VStr (str_strip (text a)))) /\
     (forall d dt_obj, find "div" "ti-date" review_div = Some d ->
        strptime_Y_m_d (str_strip (text d)) = Some dt_obj ->
        r !! "date" = Some (VStr (strftime_date dt_obj))) /\
     (forall d, find "div" "ti-date" review_div = Some d ->
        strptime_Y_m_d (str_strip (text d)) = None ->
        r !! "date" = Some (VStr (str_strip (text d)))) /\
     (forall c, find "div" "ti-stars" review_div = Some c ->
        r !! "rating" =
          Some (VInt (Z.of_nat (length (find_all "span" (Some "ti-star f") c))))) /\
     (forall c, find "div" "ti-review-content" review_div = Some c ->
        r !! "body" =
          Some (VStr (html_unescape (str_strip (text (replace_brs c))))))).
Proof.
  destruct (tag_get "data-id" review_div) as [id|] eqn:Hid.
  2: { rewrite (v2_parse_none review_div) by auto.
       split; [eauto|]. split; [tauto|]. intros r [=]. }
  destruct (decide (id = "")) as [->|Hne].
  { rewrite (v2_parse_none review_div) by auto.
    split; [eauto|]. split; [tauto|]. intros r [=]. }
  rewrite (v2_parse_some review_div id Hid Hne).
  split; [eauto|]. split.
  { split; [intros [=]|]. intros [[=]|[=]]. congruence. }
  intros r [= <-]. unfold v2_record, iso_date. split.
  { rewrite !dom_insert_L, dom_empty_L. set_solver. }
  split; [exists id; split; [done|]; by simplify_map_eq|].
  repeat apply conj.
  1-4: intros Hf; rewrite Hf; by simplify_map_eq.
  - intros Hf. unfold source_of. rewrite Hf. by simplify_map_eq.
  - intros a Hf. rewrite Hf. by simplify_map_eq.
  - intros d dt Hf Hdt. rewrite Hf, Hdt. by simplify_map_eq.
  - intros d Hf Hdt. rewrite Hf, Hdt. by simplify_map_eq.
  - intros c Hf. rewrite Hf. by simplify_map_eq.
  - intros c Hf. rewrite Hf. by simplify_map_eq.
Qed.

End V2Parse.

(** ** [parse_review_div] of trustindex_scraper.py *)

Section V1Parse.
Context `{PyLib}.

Lemma v1_parse_ok (review_div : tag) :
  V1.parse_review_div review_div = Ok (v1_record review_div).
Proof.
  unfold V1.parse_review_div, v1_record.
  destruct (find "div" "ti-name" review_div);
    destruct (find "div" "ti-date" review_div);
    destruct (find "div" "ti-stars" review_div);
    destruct (find "div" "ti-review-content" review_div);
    unfold tag_getitem_class; destruct (tag_class review_div);
    reflexivity.
Qed.

End V1Parse.

(** ** [parse_trustpilot_review_data] *)

Section TPParse.
Context `{PyLib}.

Lemma parse_date_str (fmt : datetime -> string) (s : string) :
  TP.parse_date fmt (VStr s) = Ok (VStr (iso_of fmt s)).
Proof.
  unfold TP.parse_date, iso_of. simpl.
  destruct (fromisoformat _); reflexivity.
Qed.

Lemma py_get_dict (d : list (string * pyval)) (k : string) (default : pyval) :
  py_get (VDict d) k default =
  Ok (match assoc k d with Some x => x | None => default end).
Proof. reflexivity. Qed.

Lemma py_get_ok_inv (v : pyval) (k : string) (default x : pyval) :
  py_get v k default = Ok x -> exists d, v = VDict d.
Proof. destruct v; simpl; intros [=]; eauto. Qed.

Lemma tp_parse_dates (review_json : pyval) (r : record) (dates : pyval) :
  TP.parse_trustpilot_review_data review_json = Ok r ->
  py_get review_json "dates" (VDict []) = Ok dates ->
  (forall p, py_get dates "publishedDate" VNone = Ok (VStr p) ->
     r !! "date_published" = Some (VStr (iso_of strftime_datetime p))) /\
  (forall e, py_get dates "experiencedDate" VNone = Ok (VStr e) ->
     r !! "date_experience" = Some (VStr (iso_of strftime_date e))).
Proof.
  intros Hp Hd. unfold TP.parse_trustpilot_review_data in Hp.
  cbn [bind ret result_monad] in Hp.
  rewrite Hd in Hp.
  repeat match type of Hp with
  | match ?m with Ok _ => _ | Raise _ => _ end = _ =>
      let E := fresh "E" in destruct m eqn:E; [|discriminate Hp]
  end.
  injection Hp as <-.
  split; intros s Hs;
    repeat match goal with
    | E : py_get dates _ _ = Ok ?a |- _ =>
        assert (a = VStr s) as -> by congruence; clear E
    end;
    repeat match goal with
    | E : TP.parse_date _ (VStr _) = Ok _ |- _ =>
        rewrite parse_date_str in E; injection E as <-
    end; by simplify_map_eq.
Qed.

(** A review object in which [consumer], [dates], [labels] and
    [verification] are objects (or absent), the two dates are strings and
    [text] is a string (or absent) is parsed without an exception. *)
Lemma tp_parse_returns (review_json : pyval) c ds p e body ls v :
  py_get review_json "consumer" (VDict []) = Ok (VDict c) ->
  py_get review_json "dates" (VDict []) = Ok (VDict ds) ->
  py_get (VDict ds) "publishedDate" VNone = Ok (VStr p) ->
  py_get (VDict ds) "experiencedDate" VNone = Ok (VStr e) ->
  py_get review_json "text" (VStr "") = Ok (VStr body) ->
  py_get review_json "labels" (VDict []) = Ok (VDict ls) ->
  py_get (VDict ls) "verification" (VDict []) = Ok (VDict v) ->
  exists r, TP.parse_trustpilot_review_data review_json = Ok r.
Proof.
  intros Hc Hd Hp He Ht Hl Hv.
  destruct (py_get_ok_inv _ _ _ _ Hc) as [d ->].
  unfold TP.parse_trustpilot_review_data.
  rewrite Hc, Hd, Ht, Hl. rewrite (py_get_dict d "id").
  cbn [bind ret result_monad]. rewrite !(py_get_dict c).
  cbn [bind ret result_monad]. rewrite Hp, He, !parse_date_str.
  rewrite !(py_get_dict d). cbn [bind ret result_monad py_replace].
  rewrite Hv. rewrite !(py_get_dict v). cbn [bind ret result_monad].
  eauto.
Qed.

End TPParse.

(** ** Dates *)

Section Dates.
Context `{PyLib}.


End Dates.



(** ** Writing the records to a file *)

Section WritersProps.
Import Writers.

Lemma write_rows_all (io : file_io) (l : rows) :
  (forall row, write_row io row = Ok tt) -> write_rows io l = (l, Ok tt).
Proof.
  intros Hw. induction l as [|row l IH]; [done|].
  simpl. by rewrite Hw, IH.
Qed.

Lemma elem_of_fold_dom (reviews : list record) (acc : gset string) (k : string) :
  k ∈ foldl (fun fieldnames review => fieldnames ∪ dom review) acc reviews <->
  k ∈ acc \/ exists r, r ∈ reviews /\ is_Some (r !! k).
Proof.
  revert acc. induction reviews as [|r reviews IH]; intros acc; simpl.
  - split; [auto|]. intros [?|(r & Hr & _)]; [done|]. by apply elem_of_nil in Hr.
  - rewrite IH, elem_of_union, elem_of_dom. split.
    + intros [[?|?]|(r' & Hr' & ?)]; [auto| |].
      * right. exists r. split; [left|done].
      * right. exists r'. split; [by right|done].
    + intros [?|(r' & Hr' & ?)]; [auto|].
      apply elem_of_cons in Hr' as [->|?]; [auto|].
      right. eauto.
Qed.

Lemma fieldnames_of_spec (reviews : list record) :
  Sorted String.le (fieldnames_of reviews) /\
  NoDup (fieldnames_of reviews) /\
  forall k, k ∈ fieldnames_of reviews <->
            exists r, r ∈ reviews /\ is_Some (r !! k).
Proof.
  unfold fieldnames_of. split; [apply Sorted_merge_sort; apply _|]. split.
  - rewrite merge_sort_Permutation. apply NoDup_elements.
  - intros k. rewrite merge_sort_Permutation, elem_of_elements, elem_of_fold_dom.
    split; [intros [?|?]; [set_solver|done] | auto].
Qed.

Lemma row_of_lookup (fieldnames : list string) (review : record) (j : nat) (k : string) :
  fieldnames !! j = Some k ->
  row_of fieldnames review !! j = Some (default (VStr "") (review !! k)).
Proof. intros Hj. unfold row_of. by rewrite list_lookup_fmap, Hj. Qed.

(** C5. For a non-empty list of records, when the file can be opened,
    written and saved, [write_reviews_to_csv] and [write_reviews_to_excel]
    write a header that is the sorted list, without repetition, of the keys
    of all records, then one row per record in the order of the list, the
    cell of a key the record lacks being the empty string; for the empty
    list neither writes a file. *)
Theorem writers_table (io : file_io) (reviews : list record) :
  (reviews = [] ->
     write_reviews_to_csv io reviews = None /\
     write_reviews_to_excel io reviews = None) /\
  (reviews <> [] ->
   open_ io = Ok tt -> (forall row, write_row io row = Ok tt) -> save io = Ok tt ->
   exists header body,
     write_reviews_to_csv io reviews = Some (map VStr header :: body) /\
     write_reviews_to_excel io reviews = Some (map VStr header :: body) /\
     Sorted String.le header /\ NoDup header /\
     (forall k, k ∈ header <-> exists r, r ∈ reviews /\ is_Some (r !! k)) /\
     length body = length reviews /\
     forall i r, reviews !! i = Some r ->
       exists row, body !! i = Some row /\ length row = length header /\
         forall j k, header !! j = Some k ->
           row !! j = Some (default (VStr "") (r !! k))).
Proof.
  split; [by intros ->|].
  intros Hne Ho Hw Hs.
  exists (fieldnames_of reviews), (map (row_of (fieldnames_of reviews)) reviews).
  destruct (fieldnames_of_spec reviews) as (Hsorted & Hnodup & Hmem).
  unfold write_reviews_to_csv, write_reviews_to_excel.
  destruct reviews as [|r0 reviews0] eqn:Hr; [done|]. rewrite <- Hr in *.
  rewrite Ho, (write_rows_all io _ Hw), Hs. simpl.
  repeat split; try done.
  - by apply Hmem.
  - by apply Hmem.
  - by rewrite length_map.
  - intros i r Hi. exists (row_of (fieldnames_of reviews) r).
    split; [by rewrite list_lookup_fmap, Hi|].
    split; [unfold row_of; by rewrite length_map|].
    intros j k Hj. by apply row_of_lookup.
Qed.

End WritersProps.

(** [writers_table] at a file that takes everything and two records with
    different keys. *)
Lemma writers_table_witness :
  let io := Writers.FileIO (Ok tt) (fun _ => Ok tt) (Ok tt) in
  let reviews : list record :=
    [ {[ "body" := VStr "Good"; "author" := VStr "Ann" ]};
      {[ "rating" := VInt 5; "author" := VNone ]} ] in
  (exists header body,
     Writers.write_reviews_to_csv io reviews = Some (map VStr header :: body) /\
     Writers.write_reviews_to_excel io reviews = Some (map VStr header :: body) /\
     Sorted String.le header /\ NoDup header /\
     (forall k, k ∈ header <-> exists r, r ∈ reviews /\ is_Some (r !! k)) /\
     length body = length reviews /\
     forall i r, reviews !! i = Some r ->
       exists row, body !! i = Some row /\ length row = length header /\
         forall j k, header !! j = Some k ->
           row !! j = Some (default (VStr "") (r !! k))) /\
  Writers.write_reviews_to_csv io reviews =
    Some [ [VStr "author"; VStr "body"; VStr "rating"];
           [VStr "Ann"; VStr "Good"; VStr ""];
           [VNone; VStr ""; VInt 5] ].
Proof.
  intros io reviews. split.
  - apply (proj2 (writers_table io reviews));
      [discriminate | reflexivity | reflexivity | reflexivity].
  - vm_compute. reflexivity.
Defined.

(** ** Deduplication *)

Section FirstSeen.
Context (key : record -> option hkey).

Lemma first_seen_keys (ids : gset hkey) (l : list record) :
  Forall (fun r => is_Some (key r)) (first_seen key ids l).
Proof.
  revert ids. induction l as [|r l IH]; intros ids; simpl; [constructor|].
  destruct (key r) as [k|] eqn:Hk; [|apply IH].
  destruct (decide (k ∈ ids)); [apply IH|].
  constructor; [by rewrite Hk | apply IH].
Qed.

Lemma first_seen_fresh (ids : gset hkey) (l : list record) (k : hkey) :
  k ∈ omap key (first_seen key ids l) -> k ∉ ids.
Proof.
  revert ids. induction l as [|r l IH]; intros ids; simpl.
  - by intros ?%elem_of_nil.
  - destruct (key r) as [k'|] eqn:Hk; [|apply IH].
    destruct (decide (k' ∈ ids)); [apply IH|].
    simpl. rewrite Hk. intros [->|Hin]%elem_of_cons; [done|].
    apply IH in Hin. set_solver.
Qed.

Lemma first_seen_NoDup (ids : gset hkey) (l : list record) :
  NoDup (omap key (first_seen key ids l)).
Proof.
  revert ids. induction l as [|r l IH]; intros ids; simpl; [constructor|].
  destruct (key r) as [k|] eqn:Hk; [|apply IH].
  destruct (decide (k ∈ ids)); [apply IH|].
  simpl. rewrite Hk. constructor; [|apply IH].
  intros Hin%first_seen_fresh. set_solver.
Qed.

Lemma first_seen_snoc (ids : gset hkey) (l : list record) (r : record) :
  first_seen key ids (l ++ [r]) =
  first_seen key ids l ++
  match key r with
  | Some k =>
      if decide (k ∈ ids ∪ list_to_set (omap key (first_seen key ids l)))
      then [] else [r]
  | None => []
  end.
Proof.
  revert ids. induction l as [|r' l IH]; intros ids; simpl.
  - destruct (key r) as [k|]; [|done].
    repeat case_decide; try done; exfalso; set_solver.
  - destruct (key r') as [k'|] eqn:Hk'; [|apply IH].
    destruct (decide (k' ∈ ids)); [apply IH|].
    simpl. rewrite Hk'. rewrite IH. f_equal.
    destruct (key r) as [k|]; [|done].
    simpl. repeat case_decide; try done; exfalso; set_solver.
Qed.

Lemma omap_key_length (l : list record) :
  Forall (fun r => is_Some (key r)) l -> length (omap key l) = length l.
Proof.
  induction 1 as [|r l [k Hk] _ IH]; [done|].
  simpl. rewrite Hk. simpl. f_equal. exact IH.
Qed.

Context {L : Type}.
Implicit Types (s : state L).

Lemma deduplicated_size s :
  deduplicated key s -> size (review_ids s) = length (all_reviews_data s).
Proof.
  intros [Hall Hids]. rewrite Hids, Hall.
  rewrite size_list_to_set by apply first_seen_NoDup.
  apply omap_key_length, first_seen_keys.
Qed.

Lemma deduplicated_NoDup s :
  deduplicated key s -> NoDup (omap key (all_reviews_data s)).
Proof. intros [-> _]. apply first_seen_NoDup. Qed.

Lemma seen_step_trace s rd : trace (seen_step key s rd) = trace s ++ [EvSeen rd].
Proof.
  unfold seen_step, stored. destruct (key rd); [|done]. by case_decide.
Qed.

Lemma seen_step_locals s rd : locals (seen_step key s rd) = locals s.
Proof.
  unfold seen_step, stored. destruct (key rd); [|done]. by case_decide.
Qed.

Lemma seen_step_all s rd :
  all_reviews_data (seen_step key s rd) =
  all_reviews_data s ++ (if is_stored key rd (logged (EvSeen rd) s) then [rd] else []).
Proof.
  unfold seen_step, stored, is_stored. destruct (key rd); [|by rewrite app_nil_r].
  simpl. case_decide; simpl.
  - rewrite bool_decide_eq_false_2 by auto. by rewrite app_nil_r.
  - by rewrite bool_decide_eq_true_2.
Qed.

Lemma seen_step_deduplicated s rd :
  deduplicated key s -> deduplicated key (seen_step key s rd).
Proof.
  intros [Hall Hids]. unfold deduplicated.
  rewrite seen_step_trace, seen_app.
  change (seen [EvSeen rd]) with [rd]. rewrite first_seen_snoc.
  rewrite <- Hall. unfold seen_step, stored. simpl.
  destruct (key rd) as [k|] eqn:Hk; simpl.
  - rewrite union_empty_l_L, <- Hids.
    case_decide; simpl.
    + by rewrite app_nil_r.
    + split; [done|]. rewrite omap_app. simpl. rewrite Hk. simpl.
      rewrite list_to_set_app_L, <- Hids. simpl. set_solver.
  - by rewrite app_nil_r.
Qed.

(** The same four facts for a run of steps. *)
Lemma seen_steps_trace s rds :
  trace (foldl (seen_step key) s rds) = trace s ++ (EvSeen <$> rds).
Proof.
  revert s. induction rds as [|rd rds IH]; intros s; simpl.
  - by rewrite app_nil_r.
  - by rewrite IH, seen_step_trace, <- app_assoc.
Qed.

Lemma seen_steps_locals s rds : locals (foldl (seen_step key) s rds) = locals s.
Proof.
  revert s. induction rds as [|rd rds IH]; intros s; simpl; [done|].
  by rewrite IH, seen_step_locals.
Qed.

Lemma seen_steps_prefix s rds :
  all_reviews_data s `prefix_of` all_reviews_data (foldl (seen_step key) s rds).
Proof.
  revert s. induction rds as [|rd rds IH]; intros s; simpl; [done|].
  etrans; [|apply IH]. rewrite seen_step_all. by apply prefix_app_r.
Qed.

Lemma seen_steps_deduplicated s rds :
  deduplicated key s -> deduplicated key (foldl (seen_step key) s rds).
Proof.
  revert s. induction rds as [|rd rds IH]; intros s Hs; simpl; [done|].
  by apply IH, seen_step_deduplicated.
Qed.

End FirstSeen.

(** ** The shape of the log *)

Lemma clicks_seen (rds : list record) : clicks (EvSeen <$> rds) = [].
Proof. by induction rds. Qed.

Lemma requests_seen (rds : list record) : requests (EvSeen <$> rds) = [].
Proof. by induction rds. Qed.

Lemma requests_cons_request (p : Z) (l : list event) :
  requests (EvRequest p :: l) = p :: requests l.
Proof. reflexivity. Qed.

Lemma requests_cons_pass (m : nat) (l : list event) :
  requests (EvPass m :: l) = requests l.
Proof. reflexivity. Qed.

Lemma seen_seen (rds : list record) : seen (EvSeen <$> rds) = rds.
Proof. induction rds as [|rd rds IH]; [done|]. simpl. f_equal. exact IH. Qed.

(** The iterations of a run start at consecutive values of [loop_count],
    and there are at most [remaining] of them. *)
Lemma more_trace_clicks (remaining loop_count : nat) (T : list event) :
  more_trace remaining loop_count T ->
  exists k, (k <= remaining)%nat /\ clicks T = seq loop_count k.
Proof.
  induction 1 as [lc|rem lc rds|rem lc rds|rem lc rds n T _ (k & Hk & IH)].
  - exists O. split; [lia|done].
  - exists 1%nat. split; [lia|]. simpl. by rewrite clicks_seen.
  - exists 1%nat. split; [lia|]. simpl. rewrite clicks_app, clicks_seen. done.
  - exists (S k). split; [lia|]. simpl. rewrite clicks_app, clicks_seen. simpl.
    by rewrite IH.
Qed.

(** A pass that added nothing is the last event of a run. *)
Lemma more_trace_pass0 (remaining loop_count : nat) (T : list event) :
  more_trace remaining loop_count T ->
  forall i, T !! i = Some (EvPass O) -> length T = S i.
Proof.
  induction 1 as [lc|rem lc rds|rem lc rds|rem lc rds n T _ IH]; intros i Hi.
  - done.
  - destruct i as [|i]; [done|]. simpl in Hi.
    rewrite list_lookup_fmap in Hi. by destruct (rds !! i).
  - destruct i as [|i]; [done|]. simpl in Hi.
    apply lookup_app_Some in Hi as [Hi|[Hle Hi]].
    + rewrite list_lookup_fmap in Hi. by destruct (rds !! i).
    + apply list_lookup_singleton_Some in Hi as [Hi _].
      simpl. rewrite length_app. simpl. lia.
  - destruct i as [|i]; [done|]. simpl in Hi.
    apply lookup_app_Some in Hi as [Hi|[Hle Hi]].
    + rewrite list_lookup_fmap in Hi. by destruct (rds !! i).
    + destruct (i - length (EvSeen <$> rds))%nat as [|j] eqn:Hj; [done|].
      simpl in Hi. apply IH in Hi.
      simpl. rewrite length_app. simpl. lia.
Qed.

(** The same for a log that starts with records seen before the loop. *)
Lemma seen_then_pass0 (rds : list record) (T : list event) :
  (forall i, T !! i = Some (EvPass O) -> length T = S i) ->
  forall i, ((EvSeen <$> rds) ++ T) !! i = Some (EvPass O) ->
            length ((EvSeen <$> rds) ++ T) = S i.
Proof.
  intros HT i Hi. apply lookup_app_Some in Hi as [Hi|[Hle Hi]].
  - rewrite list_lookup_fmap in Hi. by destruct (rds !! i).
  - apply HT in Hi. rewrite length_app. lia.
Qed.

Section PagesTrace.
Context `{PyLib}.

(** The pages requested are consecutive, there is at least one, and every
    page but the last one had reviews. *)
Lemma pages_trace_requests (w : TP.server) (n : nat) (p : Z)
    (r : result (option unit)) (T : list event) :
  pages_trace w n p r T ->
  exists k,
    requests T = (fun i => p + Z.of_nat i) <$> seq 0 k /\
    (r <> Ok None -> (1 <= k)%nat) /\
    forall i, (S i < k)%nat \/ (r = Ok None /\ (i < k)%nat) ->
              goes_on w (n + i) (p + Z.of_nat i).
Proof.
  induction 1 as [n p|n p e Hg He|n p e Hg He|n p tag rds Hg|n p tag rds m Hg
                  |n p pd v rds m r T Hg Hv Ht _ (k & IH & Hk & Hon)].
  - exists O. split; [done|]. split; [done|]. intros i [Hi | [_ Hi]]; lia.
  - exists 1%nat. split; [simpl; f_equal; lia|]. split; [done|].
    intros i [Hi | [[=] _]]; lia.
  - exists 1%nat. split; [simpl; f_equal; lia|]. split; [done|].
    intros i [Hi | [[=] _]]; lia.
  - exists 1%nat. split; [|split; [done|intros i [Hi | [[=] _]]; lia]].
    simpl. rewrite requests_seen. f_equal. lia.
  - exists 1%nat. split; [|split; [done|intros i [Hi | [[=] _]]; lia]].
    simpl. rewrite requests_app, requests_seen. simpl. f_equal. lia.
  - exists (S k). split; [|split; [lia|]].
    + rewrite requests_cons_request, requests_app, requests_seen.
      rewrite app_nil_l, requests_cons_pass, IH.
      change (seq 0 (S k)) with (O :: seq 1 k).
      rewrite <- seq_shift. rewrite fmap_cons, <- list_fmap_compose.
      f_equal; [lia|]. apply list_fmap_ext. intros ? i ?. simpl. lia.
    + intros [|i] Hi.
      * rewrite Nat.add_0_r, Z.add_0_r. by exists pd, v.
      * replace (n + S i)%nat with (S n + i)%nat by lia.
        replace (p + Z.of_nat (S i)) with (p + 1 + Z.of_nat i) by lia.
        apply Hon. destruct Hi as [Hi | [Hr Hi]]; [left; lia | right; split; [done|lia]].
Qed.

End PagesTrace.

(** ** The 'More' loop of trustindex_scraper.py *)

Section V1Loop.
Context `{PyLib}.

Lemma v1_take_run (div : tag) (n : nat) (s : state unit) :
  exists r,
    V1.take div n s = (seen_step trustindex_key s (v1_record div), r) /\
    if is_stored trustindex_key (v1_record div) (logged (EvSeen (v1_record div)) s)
    then r = Ok (S n) else r = Ok n \/ exists e, r = Raise e.
Proof.
  unfold V1.take. rewrite v1_parse_ok.
  generalize (v1_record div). intros rd.
  unfold seen_step, stored, is_stored, trustindex_key, V1.is_new.
  change (lift (Ok rd)) with (ret rd : M unit record).
  cbn [bind ret M_monad]. cbn.
  destruct (nonempty rd); cbn; [|eauto].
  unfold getitem. destruct (rd !! "review_id") as [v|]; cbn; [|eauto].
  destruct (truthy v); cbn; [|eauto].
  unfold py_hash. destruct (key_of v) as [k|]; cbn; [|eauto].
  case_decide;
    [rewrite bool_decide_eq_false_2 by auto | rewrite bool_decide_eq_true_2 by auto];
    eauto.
Qed.

(** A pass over the elements of a page: the records of a first part of the
    elements meet the deduplication test one after the other. *)
Lemma v1_for_run (divs : list tag) (n : nat) (s : state unit) :
  exists k r,
    for_ divs n V1.take s =
      (foldl (seen_step trustindex_key) s (v1_record <$> take k divs), r) /\
    forall n', r = Ok n' ->
      (n <= n')%nat /\
      length (all_reviews_data
                (foldl (seen_step trustindex_key) s (v1_record <$> take k divs))) =
        (length (all_reviews_data s) + (n' - n))%nat.
Proof.
  revert n s. induction divs as [|div divs IH]; intros n s.
  - exists O, (Ok n). split; [done|]. intros n' [= <-]. simpl. lia.
  - rewrite for_cons, run_bind.
    destruct (v1_take_run div n s) as (r & -> & Hr).
    pose proof (seen_step_all trustindex_key s (v1_record div)) as Hall.
    destruct (is_stored _ _ _).
    + subst r. destruct (IH (S n) (seen_step trustindex_key s (v1_record div)))
        as (k & r & Hrun & Hn).
      exists (S k), r. split; [exact Hrun|].
      intros n' Hn'. destruct (Hn n' Hn') as [Hle Hlen]. split; [lia|].
      etrans; [exact Hlen|]. rewrite Hall, length_app. simpl. lia.
    + destruct Hr as [-> | [e ->]].
      * destruct (IH n (seen_step trustindex_key s (v1_record div)))
          as (k & r & Hrun & Hn).
        exists (S k), r. split; [exact Hrun|].
        intros n' Hn'. destruct (Hn n' Hn') as [Hle Hlen]. split; [lia|].
        etrans; [exact Hlen|]. rewrite Hall, app_nil_r. lia.
      * exists 1%nat, (Raise e). split; [done|]. by intros n' [=].
Qed.

(** What the browser gives an iteration to read. *)
Lemma v1_click_more_run (c : V1.more_click) (s : state unit) :
  V1.click_more c s =
  match V1.press c ;; V1.page_source c with
  | Raise e => (s, Raise e)
  | Ok current_soup =>
      match for_ (find_all "div" (Some "review") current_soup) O V1.take s with
      | (s', Ok newly) =>
          (logged (EvPass newly) s',
           Ok (if Nat.eqb newly 0 then Break else Continue))
      | (s', Raise e) => (s', Raise e)
      end
  end.
Proof.
  unfold V1.click_more. rewrite run_bind. unfold lift at 1.
  destruct (V1.press c) as [[]|e]; [|reflexivity].
  rewrite run_bind. unfold lift at 1. cbn [bind result_monad].
  destruct (V1.page_source c) as [soup|e]; [|reflexivity].
  rewrite run_bind.
  destruct (for_ _ _ _ _) as [s' [[|n]|e]]; reflexivity.
Qed.

(** The loop from any state: it returns, keeps what was accumulated, keeps
    the accumulators in agreement with the log, and writes a log of the
    shape [more_trace]. *)
Lemma v1_more_loop_run (w : V1.browser) (remaining loop_count : nat) (s : state unit) :
  exists s' T,
    V1.more_loop w remaining loop_count s = (s', Ok tt) /\
    trace s' = trace s ++ T /\ more_trace remaining loop_count T /\
    all_reviews_data s `prefix_of` all_reviews_data s' /\
    (deduplicated trustindex_key s -> deduplicated trustindex_key s').
Proof.
  revert loop_count s. induction remaining as [|remaining IH]; intros loop_count s.
  { exists s, []. rewrite app_nil_r. split_run; try done. constructor. }
  cbn [V1.more_loop]. rewrite run_bind. cbn [log modify fst snd].
  rewrite run_bind, run_try_catch, v1_click_more_run.
  set (s0 := State (all_reviews_data s) (review_ids s)
               (trace s ++ [EvClick loop_count]) (locals s)).
  assert (Hs0 : deduplicated trustindex_key s -> deduplicated trustindex_key s0).
  { unfold deduplicated, s0. simpl. rewrite seen_app. simpl. by rewrite app_nil_r. }
  destruct (V1.press (V1.more w loop_count) ;; V1.page_source (V1.more w loop_count))
    as [soup|e].
  2: { exists s0, [EvClick loop_count]. cbn. split_run; try done.
       apply (more_stop _ _ []). }
  destruct (v1_for_run (find_all "div" (Some "review") soup) O s0)
    as (k & r & -> & Hn).
  set (rds := v1_record <$> take k (find_all "div" (Some "review") soup)) in *.
  set (s1 := foldl (seen_step trustindex_key) s0 rds) in *.
  assert (Ht1 : trace s1 = trace s ++ EvClick loop_count :: (EvSeen <$> rds)).
  { unfold s1. rewrite seen_steps_trace. unfold s0. simpl.
    by rewrite <- app_assoc. }
  assert (Hp1 : all_reviews_data s `prefix_of` all_reviews_data s1).
  { apply (seen_steps_prefix trustindex_key s0 rds). }
  assert (Hd1 : deduplicated trustindex_key s -> deduplicated trustindex_key s1).
  { intros Hd. by apply seen_steps_deduplicated, Hs0. }
  destruct r as [newly|e].
  2: { exists s1, (EvClick loop_count :: (EvSeen <$> rds)). cbn.
       split_run; try done. apply more_stop. }
  set (s2 := logged (EvPass newly) s1).
  assert (Hd2 : deduplicated trustindex_key s -> deduplicated trustindex_key s2).
  { intros Hd. destruct (Hd1 Hd) as [Ha Hi]. unfold deduplicated, s2. simpl.
    rewrite seen_app. simpl. by rewrite app_nil_r. }
  destruct newly as [|n]; cbn [Nat.eqb].
  { exists s2, (EvClick loop_count :: (EvSeen <$> rds) ++ [EvPass O]). cbn.
    split_run; try done.
    - rewrite Ht1. by rewrite <- !app_assoc.
    - apply more_last. }
  cbn. destruct (IH (S loop_count) s2) as (s' & T & -> & Ht & HT & Hp & Hd).
  exists s', (EvClick loop_count :: (EvSeen <$> rds) ++ EvPass (S n) :: T).
  split_run; try done.
  - rewrite Ht. unfold s2. simpl. rewrite Ht1. by rewrite <- !app_assoc.
  - by apply more_next.
  - by etrans.
  - auto.
Qed.

(** The whole [try] statement: it never raises; the log holds the records
    of the first page and then a run of the loop. *)
Lemma v1_collect_run (w : V1.browser) (max_loops : Z) :
  exists s rds T,
    V1.collect w max_loops = (s, Ok tt) /\
    trace s = (EvSeen <$> rds) ++ T /\
    (T = [] \/ more_trace (Z.to_nat max_loops) O T) /\
    deduplicated trustindex_key s.
Proof.
  unfold V1.collect, V1.scrape. rewrite run_try_catch, run_bind. unfold lift at 1.
  assert (Hd0 : deduplicated trustindex_key V1.initial_state) by done.
  destruct (V1.start w) as [[]|e].
  2: { exists V1.initial_state, [], []. split4; auto; done. }
  rewrite run_bind. unfold lift at 1.
  destruct (V1.initial_page w) as [soup|e].
  2: { exists V1.initial_state, [], []. split4; auto; done. }
  rewrite run_bind.
  destruct (v1_for_run (find_all "div" (Some "review") soup) O V1.initial_state)
    as (k & r & -> & _).
  set (rds := v1_record <$> take k (find_all "div" (Some "review") soup)).
  set (s1 := foldl (seen_step trustindex_key) V1.initial_state rds).
  assert (Ht1 : trace s1 = (EvSeen <$> rds)).
  { unfold s1. by rewrite seen_steps_trace. }
  assert (Hd1 : deduplicated trustindex_key s1) by by apply seen_steps_deduplicated.
  destruct r as [n|e].
  2: { exists s1, rds, []. rewrite app_nil_r. split4; auto; done. }
  destruct (v1_more_loop_run w (Z.to_nat max_loops) O s1)
    as (s' & T & -> & Ht & HT & _ & Hd).
  exists s', rds, T. rewrite Ht, Ht1. split4; auto; done.
Qed.

End V1Loop.

(** ** The 'More' loop of trustindex_scraper2.py *)

Section V2Loop.
Context `{PyLib}.

Lemma v2_parse_cases (div : tag) :
  V2.parse_review_div div = Ok None \/
  exists rd, V2.parse_review_div div = Ok (Some rd).
Proof.
  destruct (tag_get "data-id" div) as [id|] eqn:Hid.
  - destruct (decide (id = "")) as [->|Hne].
    + left. apply v2_parse_none. auto.
    + right. eexists. by apply v2_parse_some.
  - left. apply v2_parse_none. auto.
Qed.

Lemma v2_take_run (div : tag) (n : nat) (s : state nat) :
  V2.take div n s = (s, Ok n) \/
  exists rd r,
    V2.take div n s = (seen_step trustindex_key s rd, r) /\
    if is_stored trustindex_key rd (logged (EvSeen rd) s)
    then r = Ok (S n) else r = Ok n \/ exists e, r = Raise e.
Proof.
  unfold V2.take. destruct (v2_parse_cases div) as [-> | [rd ->]]; [by left|].
  right. exists rd.
  unfold seen_step, stored, is_stored, trustindex_key, V2.is_new.
  change (lift (Ok (Some rd))) with (ret (Some rd) : M nat (option record)).
  cbn [bind ret M_monad]. cbn.
  destruct (nonempty rd); cbn; [|eauto].
  unfold getitem. destruct (rd !! "review_id") as [v|]; cbn; [|eauto].
  destruct (truthy v); cbn; [|eauto].
  unfold py_hash. destruct (key_of v) as [k|]; cbn; [|eauto].
  case_decide;
    [rewrite bool_decide_eq_false_2 by auto | rewrite bool_decide_eq_true_2 by auto];
    eauto.
Qed.

Lemma v2_for_run (divs : list tag) (n : nat) (s : state nat) :
  exists rds r,
    for_ divs n V2.take s = (foldl (seen_step trustindex_key) s rds, r) /\
    forall n', r = Ok n' ->
      (n <= n')%nat /\
      length (all_reviews_data (foldl (seen_step trustindex_key) s rds)) =
        (length (all_reviews_data s) + (n' - n))%nat.
Proof.
  revert n s. induction divs as [|div divs IH]; intros n s.
  - exists [], (Ok n). split; [done|]. intros n' [= <-]. simpl. lia.
  - rewrite for_cons, run_bind.
    destruct (v2_take_run div n s) as [-> | (rd & r & -> & Hr)]; [apply IH|].
    pose proof (seen_step_all trustindex_key s rd) as Hall.
    destruct (is_stored _ _ _).
    + subst r. destruct (IH (S n) (seen_step trustindex_key s rd))
        as (rds & r & Hrun & Hn).
      exists (rd :: rds), r. split; [exact Hrun|].
      intros n' Hn'. destruct (Hn n' Hn') as [Hle Hlen]. split; [lia|].
      etrans; [exact Hlen|]. rewrite Hall, length_app. simpl. lia.
    + destruct Hr as [-> | [e ->]].
      * destruct (IH n (seen_step trustindex_key s rd)) as (rds & r & Hrun & Hn).
        exists (rd :: rds), r. split; [exact Hrun|].
        intros n' Hn'. destruct (Hn n' Hn') as [Hle Hlen]. split; [lia|].
        etrans; [exact Hlen|]. rewrite Hall, app_nil_r. lia.
      * exists [rd], (Raise e). split; [done|]. by intros n' [=].
Qed.

(** The second script compares the size of the set before and after the
    pass; the set grows exactly when the pass appended a record. *)
Lemma v2_extract_new_run (c : V2.more_click) (s : state nat) :
  v2_ready s ->
  exists s' r T,
    V2.extract_new c s = (s', r) /\
    trace s' = trace s ++ T /\
    all_reviews_data s `prefix_of` all_reviews_data s' /\
    deduplicated trustindex_key s' /\
    ((exists rds, T = (EvSeen <$> rds) /\ exists e, r = Raise e) \/
     (exists rds, T = (EvSeen <$> rds) ++ [EvPass O] /\ r = Ok Break) \/
     (exists rds n, T = (EvSeen <$> rds) ++ [EvPass (S n)] /\ r = Ok Continue /\
                    v2_ready s')).
Proof.
  intros [Hd Hl]. unfold V2.extract_new. rewrite run_bind. unfold lift at 1.
  destruct (V2.page_source c) as [page|e].
  2: { exists s, (Raise e), []. rewrite app_nil_r. split_run; try done.
       left. exists []. eauto. }
  rewrite run_bind.
  destruct (v2_for_run (V2.get_review_divs_from_source page) O s)
    as (rds & r & -> & Hn).
  set (s1 := foldl (seen_step trustindex_key) s rds) in *.
  assert (Hd1 : deduplicated trustindex_key s1) by by apply seen_steps_deduplicated.
  assert (Hp1 : all_reviews_data s `prefix_of` all_reviews_data s1)
    by apply seen_steps_prefix.
  assert (Ht1 : trace s1 = trace s ++ (EvSeen <$> rds)) by apply seen_steps_trace.
  assert (Hl1 : locals s1 = locals s) by apply seen_steps_locals.
  destruct r as [newly|e].
  2: { exists s1, (Raise e), (EvSeen <$> rds). split_run; try done.
       left. eauto. }
  destruct (Hn newly eq_refl) as [_ Hlen]. rewrite Nat.sub_0_r in Hlen.
  set (s2 := logged (EvPass newly) s1).
  assert (Hd2 : deduplicated trustindex_key s2).
  { destruct Hd1 as [Ha Hi]. unfold deduplicated, s2. simpl.
    rewrite seen_app. simpl. by rewrite app_nil_r. }
  assert (Hsz : size (review_ids s1) = (locals s1 + newly)%nat).
  { rewrite (deduplicated_size _ _ Hd1).
    rewrite Hlen, Hl1, Hl. by rewrite (deduplicated_size _ _ Hd). }
  cbn -[Nat.eqb size].
  destruct (Nat.eqb_spec (size (review_ids s1)) (locals s1)) as [Heq|Hne].
  - assert (newly = O) as -> by lia.
    exists s2, (Ok Break), ((EvSeen <$> rds) ++ [EvPass O]).
    split_run; try done.
    + unfold s2. simpl. by rewrite Ht1, <- app_assoc.
    + right. left. eauto.
  - destruct newly as [|n]; [lia|].
    eexists _, (Ok Continue), ((EvSeen <$> rds) ++ [EvPass (S n)]).
    split_run; [reflexivity| | | |].
    + simpl. by rewrite Ht1, <- app_assoc.
    + done.
    + destruct Hd1 as [Ha Hi]. unfold deduplicated. simpl.
      rewrite seen_app. simpl. by rewrite app_nil_r.
    + right. right. exists rds, n. split; [done|]. split; [done|].
      split; [|reflexivity].
      destruct Hd1 as [Ha Hi]. unfold deduplicated. simpl.
      rewrite seen_app. simpl. by rewrite app_nil_r.
Qed.

Lemma v2_click_more_run (c : V2.more_click) (s : state nat) :
  v2_ready s ->
  exists s' r T,
    try_catch (V2.click_more c) except_Exception (fun _ => ret Break) s = (s', Ok r) /\
    trace s' = trace s ++ T /\
    all_reviews_data s `prefix_of` all_reviews_data s' /\
    deduplicated trustindex_key s' /\
    ((exists rds, T = (EvSeen <$> rds) /\ r = Break) \/
     (exists rds, T = (EvSeen <$> rds) ++ [EvPass O] /\ r = Break) \/
     (exists rds n, T = (EvSeen <$> rds) ++ [EvPass (S n)] /\ r = Continue /\
                    v2_ready s')).
Proof.
  intros Hr. rewrite run_try_catch. unfold V2.click_more.
  rewrite run_bind. unfold lift at 1.
  destruct (V2.press c) as [[]|e].
  - destruct (v2_extract_new_run c s Hr)
      as (s' & r & T & -> & Ht & Hp & Hd & [(rds & -> & e & ->) |
           [(rds & -> & ->) | (rds & n & -> & -> & Hr')]]).
    + exists s', Break, (EvSeen <$> rds). split_run; try done. left. eauto.
    + exists s', Break, ((EvSeen <$> rds) ++ [EvPass O]).
      split_run; try done. right. left. eauto.
    + exists s', Continue, ((EvSeen <$> rds) ++ [EvPass (S n)]).
      split_run; try done. right. right. eauto.
  - exists s, Break, []. rewrite app_nil_r. destruct Hr. split_run; try done.
    left. exists []. eauto.
  - exists s, Break, []. rewrite app_nil_r. destruct Hr. split_run; try done.
    left. exists []. eauto.
Qed.

Lemma v2_more_loop_run (w : V2.browser) (remaining loop_count : nat) (s : state nat) :
  v2_ready s ->
  exists s' r T,
    V2.more_loop w remaining loop_count s = (s', r) /\
    trace s' = trace s ++ T /\ more_trace remaining loop_count T /\
    all_reviews_data s `prefix_of` all_reviews_data s' /\
    deduplicated trustindex_key s'.
Proof.
  revert loop_count s. induction remaining as [|remaining IH]; intros loop_count s Hr.
  { exists s, (Ok tt), []. rewrite app_nil_r. destruct Hr.
    split_run; try done. constructor. }
  cbn [V2.more_loop]. rewrite run_bind. cbn [log modify fst snd].
  set (s0 := State (all_reviews_data s) (review_ids s)
               (trace s ++ [EvClick loop_count]) (locals s)).
  assert (Hr0 : v2_ready s0).
  { destruct Hr as [[Ha Hi] Hl]. split; [|done]. unfold deduplicated, s0. simpl.
    rewrite seen_app. simpl. by rewrite app_nil_r. }
  rewrite run_bind. unfold lift at 1.
  destruct (V2.count_before (V2.more w loop_count)) as [nb|e].
  2: { exists s0, (Raise e), [EvClick loop_count]. destruct Hr0.
       split_run; try done. apply (more_stop _ _ []). }
  rewrite run_bind.
  destruct (v2_click_more_run (V2.more w loop_count) s0 Hr0)
    as (s1 & f & T & -> & Ht & Hp & Hd & [(rds & -> & ->) |
         [(rds & -> & ->) | (rds & n & -> & -> & Hr1)]]).
  - exists s1, (Ok tt), (EvClick loop_count :: (EvSeen <$> rds)).
    split_run; try done.
    + rewrite Ht. unfold s0. simpl. by rewrite <- app_assoc.
    + apply more_stop.
  - exists s1, (Ok tt), (EvClick loop_count :: (EvSeen <$> rds) ++ [EvPass O]).
    split_run; try done.
    + rewrite Ht. unfold s0. simpl. by rewrite <- app_assoc.
    + apply more_last.
  - destruct (IH (S loop_count) s1 Hr1) as (s' & r & T & -> & Ht' & HT & Hp' & Hd').
    exists s', r, (EvClick loop_count :: (EvSeen <$> rds) ++ EvPass (S n) :: T).
    split_run; try done.
    + rewrite Ht', Ht. unfold s0. simpl. by rewrite <- !app_assoc.
    + by apply more_next.
    + etrans; [exact Hp|exact Hp'].
Qed.

Lemma v2_collect_run (w : V2.browser) (max_loops : Z) :
  exists s rds T,
    V2.collect w max_loops = (s, Ok tt) /\
    trace s = (EvSeen <$> rds) ++ T /\
    (T = [] \/ more_trace (Z.to_nat max_loops) O T) /\
    deduplicated trustindex_key s.
Proof.
  unfold V2.collect, V2.scrape. rewrite run_try_catch, run_bind. unfold lift at 1.
  assert (Hd0 : deduplicated trustindex_key V2.initial_state) by done.
  destruct (V2.start w) as [[]|e].
  2: { exists V2.initial_state, [], []. split4; auto; done. }
  rewrite run_bind. unfold lift at 1.
  destruct (V2.initial_page w) as [page|e].
  2: { exists V2.initial_state, [], []. split4; auto; done. }
  rewrite run_bind.
  destruct (v2_for_run (V2.get_review_divs_from_source page) O V2.initial_state)
    as (rds & r & -> & _).
  set (s1 := foldl (seen_step trustindex_key) V2.initial_state rds).
  assert (Ht1 : trace s1 = (EvSeen <$> rds)).
  { unfold s1. by rewrite seen_steps_trace. }
  assert (Hd1 : deduplicated trustindex_key s1) by by apply seen_steps_deduplicated.
  destruct r as [n|e].
  2: { exists s1, rds, []. rewrite app_nil_r. split4; auto; done. }
  rewrite run_bind. cbn [V2.count_ids gets]. rewrite run_bind.
  cbn [set_locals modify].
  set (s2 := State (all_reviews_data s1) (review_ids s1) (trace s1)
               (size (review_ids s1))).
  assert (Hr2 : v2_ready s2) by done.
  destruct (v2_more_loop_run w (Z.to_nat max_loops) O s2 Hr2)
    as (s' & r & T & -> & Ht & HT & _ & Hd).
  exists s', rds, T. unfold s2 in Ht. simpl in Ht. rewrite Ht1 in Ht.
  destruct r as [[]|e]; split4; auto; done.
Qed.

End V2Loop.

(** ** The page loop of trustpilot_scraper.py *)

Section TPLoop.
Context `{PyLib}.

Lemma tp_take_run (review_json : pyval) (n : nat) (s : state TP.page_vars) :
  (exists e, TP.parse_trustpilot_review_data review_json = Raise e /\
             TP.take review_json n s = (s, Raise e)) \/
  exists rd r,
    TP.parse_trustpilot_review_data review_json = Ok rd /\
    TP.take review_json n s = (seen_step trustpilot_key s rd, r) /\
    if is_stored trustpilot_key rd (logged (EvSeen rd) s)
    then r = Ok (S n) else r = Ok n \/ exists e, r = Raise e.
Proof.
  unfold TP.take.
  destruct (TP.parse_trustpilot_review_data review_json) as [rd|e]; [|left; eauto].
  right. exists rd.
  unfold seen_step, stored, is_stored, trustpilot_key, TP.is_new.
  change (lift (Ok rd)) with (ret rd : M TP.page_vars record).
  cbn [bind ret M_monad]. cbn.
  destruct (nonempty rd); cbn; [|eauto 10].
  unfold getitem. destruct (rd !! "id") as [v|]; cbn; [|eauto 10].
  unfold py_hash. destruct (key_of v) as [k|]; cbn; [|eauto 10].
  case_decide;
    [rewrite bool_decide_eq_false_2 by auto | rewrite bool_decide_eq_true_2 by auto];
    eauto 10.
Qed.

Lemma parsed_from_cons (x : pyval) (reviews : list pyval) (rds : list record) :
  parsed_from reviews rds -> parsed_from (x :: reviews) rds.
Proof.
  intros Hf. eapply Forall_impl; [exact Hf|].
  intros rd (y & Hy & Hp). exists y. split; [by right|done].
Qed.

Lemma tp_for_run (reviews : list pyval) (n : nat) (s : state TP.page_vars) :
  exists rds r,
    for_ reviews n TP.take s = (foldl (seen_step trustpilot_key) s rds, r) /\
    parsed_from reviews rds.
Proof.
  revert n s. induction reviews as [|x reviews IH]; intros n s.
  - exists [], (Ok n). split; [done|constructor].
  - rewrite for_cons, run_bind.
    destruct (tp_take_run x n s) as [(e & _ & ->) | (rd & r & Hp & -> & Hr)].
    { exists [], (Raise e). split; [done|constructor]. }
    assert (Hrd : exists y, y ∈ x :: reviews /\
                    TP.parse_trustpilot_review_data y = Ok rd).
    { exists x. split; [left|done]. }
    destruct r as [n1|e].
    + destruct (IH n1 (seen_step trustpilot_key s rd)) as (rds & r & Hrun & Hf).
      exists (rd :: rds), r. split; [exact Hrun|].
      constructor; [done | by apply parsed_from_cons].
    + exists [rd], (Raise e). split; [done|]. by repeat constructor.
Qed.

Lemma lookup_total_pages_raises (page_data : pyval) (e : exn) :
  TP.lookup_total_pages page_data = Raise e -> e = KeyError \/ e = TypeError.
Proof.
  assert (Hs : forall v k e, py_subscript v k = Raise e -> e = KeyError \/ e = TypeError).
  { intros v k e'. destruct v; simpl; try (intros [= <-]; auto).
    destruct (assoc k d); intros [= <-]; auto. }
  unfold TP.lookup_total_pages. cbn [bind result_monad].
  repeat match goal with
  | |- match ?m with Ok _ => _ | Raise _ => _ end = _ -> _ =>
      let E := fresh "E" in destruct m eqn:E; [|intros [= <-]; eauto]
  end.
  eauto.
Qed.

Lemma read_total_pages_run (page_data : pyval) (s : state TP.page_vars) :
  TP.read_total_pages page_data s =
  (with_locals (after_read page_data (locals s)) s, Ok tt).
Proof.
  unfold TP.read_total_pages, after_read. rewrite run_try_catch, run_bind.
  unfold lift at 1.
  destruct (TP.lookup_total_pages page_data) as [tp|e] eqn:Hl.
  - cbn -[Z.ltb py_min]. destruct (0 <? TP.max_pages (locals s)) eqn:Hm; [|done].
    cbn -[py_min]. unfold py_min. destruct (as_int tp); [done|].
    destruct tp; try done; cbn;
      by assert ((TP.max_pages (locals s) =? 0) = false) as -> by lia.
  - destruct (lookup_total_pages_raises _ _ Hl) as [-> | ->]; cbn;
      destruct (TP.max_pages (locals s) =? 0); destruct s; reflexivity.
Qed.

(** The second [try] block, with its two [except] clauses, from any
    state. *)
Lemma tp_visit_run (script_tag : option (result pyval)) (s : state TP.page_vars) :
  try_catch (TP.visit script_tag) except_Exception (fun _ => ret Break) s =
  match script_tag with
  | None | Some (Raise _) => (s, Ok Break)
  | Some (Ok page_data) =>
      match TP.reviews_of page_data with
      | Raise _ => (s, Ok Break)
      | Ok v =>
          let cur := TP.current_page (locals s) in
          let s1 := if cur =? 1
                    then with_locals (after_read page_data (locals s)) s else s in
          if negb (truthy v) then (s1, Ok Break) else
          match py_iter v with
          | Raise _ => (s1, Ok Break)
          | Ok reviews =>
              match for_ reviews O TP.take s1 with
              | (s2, Raise _) => (s2, Ok Break)
              | (s2, Ok m) =>
                  let s3 := logged (EvPass m) s2 in
                  match py_ge cur (TP.total_pages (locals s3)) with
                  | Raise _ | Ok true => (s3, Ok Break)
                  | Ok false =>
                      (with_locals
                         (TP.PageVars (cur + 1) (TP.total_pages (locals s3))
                            (TP.max_pages (locals s3))) s3,
                       Ok Continue)
                  end
              end
          end
      end
  end.
Proof.
  rewrite run_try_catch. unfold TP.visit.
  destruct script_tag as [[page_data|e]|]; [|reflexivity|reflexivity].
  rewrite run_bind. unfold lift at 1. rewrite run_bind. unfold lift at 1.
  destruct (TP.reviews_of page_data) as [v|e]; [|reflexivity].
  rewrite run_bind. cbn [gets]. rewrite run_bind.
  cbv zeta.
  assert (Hread :
    (if TP.current_page (locals s) =? 1
     then TP.read_total_pages page_data else ret tt) s =
    (if TP.current_page (locals s) =? 1
     then with_locals (after_read page_data (locals s)) s else s, Ok tt)).
  { destruct (TP.current_page (locals s) =? 1); [apply read_total_pages_run|done]. }
  rewrite Hread. clear Hread.
  set (s1 := if TP.current_page (locals s) =? 1
             then with_locals (after_read page_data (locals s)) s else s).
  destruct (truthy v); cbn [negb]; [|reflexivity].
  rewrite run_bind. unfold lift at 1.
  destruct (py_iter v) as [reviews|e]; [|reflexivity].
  rewrite run_bind.
  destruct (for_ reviews O TP.take s1) as [s2 [m|e]]; [|reflexivity].
  rewrite run_bind. cbn [log modify]. rewrite run_bind. cbn [gets].
  rewrite run_bind. unfold lift at 1. cbn [logged locals].
  destruct (py_ge _ _) as [[]|e]; reflexivity.
Qed.

Lemma logged_deduplicated {L} key (e : event) (s : state L) :
  seen [e] = [] -> deduplicated key s -> deduplicated key (logged e s).
Proof.
  intros He [Ha Hi]. unfold deduplicated, logged. simpl.
  by rewrite seen_app, He, app_nil_r.
Qed.

Lemma after_read_current (page_data : pyval) (l : TP.page_vars) :
  TP.current_page (after_read page_data l) = TP.current_page l.
Proof.
  unfold after_read. destruct (TP.lookup_total_pages page_data).
  - destruct (0 <? TP.max_pages l); [|done]. by destruct (py_min _ _).
  - by destruct (TP.max_pages l =? 0).
Qed.

Lemma page_loop_unfold (w : TP.server) (fuel : nat) (s : state TP.page_vars) :
  TP.page_loop w (S fuel) s =
  match iteration w s with
  | (s1, Ok Break) => (s1, Ok (Some tt))
  | (s1, Ok Continue) => TP.page_loop w fuel s1
  | (s1, Raise e) => (s1, Raise e)
  end.
Proof.
  cbn [TP.page_loop]. unfold iteration.
  rewrite run_bind. cbn [gets]. rewrite run_bind. cbn [gets].
  rewrite run_bind. cbn [log modify].
  change (State (all_reviews_data s) (review_ids s)
            (trace s ++ [EvRequest (TP.current_page (locals s))]) (locals s))
    with (logged (EvRequest (TP.current_page (locals s))) s).
  destruct (TP.get w _ _) as [e|script_tag].
  { by destruct (except_ [RequestException] e). }
  rewrite run_bind.
  destruct (try_catch _ _ _ _) as [s1 [[]|e]]; reflexivity.
Qed.

(** One iteration of [while True]. *)
Lemma tp_iteration (w : TP.server) (s : state TP.page_vars) :
  iteration_facts w s (iteration w s).
Proof.
  unfold iteration.
  set (cur := TP.current_page (locals s)).
  set (n := length (requests (trace s))).
  set (s0 := logged (EvRequest cur) s).
  assert (Hd0 : deduplicated trustpilot_key s -> deduplicated trustpilot_key s0)
    by by apply logged_deduplicated.
  assert (Htr0 : trace s0 = trace s ++ [EvRequest cur]) by done.
  destruct (TP.get w n cur) as [e|script_tag] eqn:Hget.
  { unfold iteration_facts. fold cur n. rewrite Hget.
    destruct (except_ [RequestException] e) eqn:He.
    - exists s0, (Ok Break), [], [].
      split10; try done; try (by left); try (by right; eauto).
      by apply (pages_failed _ _ _ e).
    - exists s0, (Raise e), [], [].
      split10; try done; try (by left); try (by right; eauto).
      by apply pages_raised. }
  rewrite tp_visit_run.
  destruct script_tag as [[page_data|e]|].
  2,3: unfold iteration_facts; fold cur n; rewrite Hget;
       exists s0, (Ok Break), [], [];
       split10; try done; try (by left); try (by right; eauto);
       by eapply (pages_stop _ _ _ _ []).
  destruct (TP.reviews_of page_data) as [v|e] eqn:Hrev.
  2: { unfold iteration_facts. fold cur n. rewrite Hget.
       exists s0, (Ok Break), [], [].
       split10; try done; try (by left); try (by right; eauto).
       - by eapply (pages_stop _ _ _ _ []).
       - intros pd v' [= <-] Hv'. congruence. }
  cbv zeta. change (TP.current_page (locals s0)) with cur.
  set (s1 := if cur =? 1
             then with_locals (after_read page_data (locals s0)) s0 else s0).
  assert (Hs1 : exists l1, s1 = with_locals l1 s0 /\
            TP.current_page l1 = cur /\
            (cur <> 1 -> l1 = locals s) /\
            (cur = 1 -> l1 = after_read page_data (locals s))).
  { unfold s1. destruct (Z.eqb_spec cur 1) as [Heq|Hne].
    - eexists. split; [done|]. split; [apply after_read_current|]. split; [done|done].
    - exists (locals s). split; [by destruct s|]. split; [done|]. split; [done|done]. }
  destruct Hs1 as (l1 & Hs1 & Hc1 & Hl1 & Hl1').
  clearbody s1. subst s1.
  assert (Hstop1 : iteration_facts w s (with_locals l1 s0, Ok Break)).
  { unfold iteration_facts. fold cur n. rewrite Hget.
    exists (with_locals l1 s0), (Ok Break), [], [].
    split10; try done; try (by left); try (by right; eauto).
    - by apply (pages_stop _ _ _ (Some (Ok page_data)) []).
    - intros Hne. by rewrite (Hl1 Hne).
    - intros pd v' [= <-] Hv' Heq. by rewrite (Hl1' Heq). }
  destruct (truthy v) eqn:Htv; cbn [negb]; [|exact Hstop1].
  destruct (py_iter v) as [reviews|e] eqn:Hit; [|exact Hstop1].
  clear Hstop1.
  destruct (tp_for_run reviews O (with_locals l1 s0)) as (rds & r & -> & Hpf).
  set (s2 := foldl (seen_step trustpilot_key) (with_locals l1 s0) rds).
  assert (Ht2 : trace s2 = trace s ++ EvRequest cur :: (EvSeen <$> rds)).
  { unfold s2. rewrite seen_steps_trace. simpl. by rewrite <- app_assoc. }
  assert (Hp2 : all_reviews_data s `prefix_of` all_reviews_data s2).
  { apply (seen_steps_prefix trustpilot_key (with_locals l1 s0) rds). }
  assert (Hd2 : deduplicated trustpilot_key s -> deduplicated trustpilot_key s2).
  { intros Hd. apply seen_steps_deduplicated. by apply Hd0. }
  assert (Hl2 : locals s2 = l1).
  { unfold s2. by rewrite seen_steps_locals. }
  assert (Hfrom : rds = [] \/ exists pd v reviews,
            TP.Html (Some (Ok page_data)) = TP.Html (Some (Ok pd)) /\
            TP.reviews_of pd = Ok v /\ py_iter v = Ok reviews /\
            parsed_from reviews rds).
  { right. exists page_data, v, reviews. done. }
  destruct r as [m|e].
  2: { unfold iteration_facts. fold cur n. rewrite Hget.
       exists s2, (Ok Break), rds, []. rewrite app_nil_r.
       split10; try done; try (by left); try (by right; eauto).
       - by apply (pages_stop _ _ _ (Some (Ok page_data)) rds).
       - intros Hne. by rewrite Hl2, (Hl1 Hne).
       - intros pd v' [= <-] Hv' Heq. by rewrite Hl2, (Hl1' Heq). }
  cbn [logged locals]. rewrite Hl2.
  assert (Ht3 : trace (logged (EvPass m) s2) =
                trace s ++ EvRequest cur :: (EvSeen <$> rds) ++ [EvPass m]).
  { simpl. rewrite Ht2. by rewrite <- app_assoc. }
  assert (Hd3 : deduplicated trustpilot_key s ->
                deduplicated trustpilot_key (logged (EvPass m) s2)).
  { intros Hd. apply logged_deduplicated; [done|]. by apply Hd2. }
  assert (Hlast : iteration_facts w s (logged (EvPass m) s2, Ok Break)).
  { unfold iteration_facts. fold cur n. rewrite Hget.
    exists (logged (EvPass m) s2), (Ok Break), rds, [EvPass m].
    split10; try done; try (by left); try (by right; eauto).
    - by apply (pages_last _ _ _ (Some (Ok page_data)) rds m).
    - intros Hne. simpl. by rewrite Hl2, (Hl1 Hne).
    - intros pd v' [= <-] Hv' Heq. simpl. by rewrite Hl2, (Hl1' Heq). }
  destruct (py_ge cur (TP.total_pages l1)) as [[]|e] eqn:Hge;
    [exact Hlast| |exact Hlast].
  clear Hlast.
  unfold iteration_facts. fold cur n. rewrite Hget.
  eexists _, (Ok Continue), rds, [EvPass m].
  split10; try done; try (by left); try (by right; eauto).
  - intros _. exists page_data, v, m. split_run; try done; by split.
  - intros Hne. simpl. by rewrite (Hl1 Hne).
  - intros pd v' [= <-] Hv' Heq. simpl. by rewrite (Hl1' Heq).
Qed.

(** An iteration whose request is answered does not raise. *)
Lemma iteration_html (w : TP.server) (s : state TP.page_vars)
    (script_tag : option (result pyval)) :
  TP.get w (length (requests (trace s))) (TP.current_page (locals s))
    = TP.Html script_tag ->
  exists s1 f, iteration w s = (s1, Ok f).
Proof.
  intros Hg. unfold iteration. rewrite Hg, tp_visit_run.
  destruct script_tag as [[pd|e]|]; eauto.
  destruct (TP.reviews_of pd); eauto. cbv zeta.
  destruct (negb _); eauto. destruct (py_iter _); eauto.
  destruct (for_ _ _ _ _) as [s2 [m|e]]; eauto.
  destruct (py_ge _ _) as [[]|]; eauto.
Qed.

Lemma need_pos (l : TP.page_vars) : (1 <= need l)%nat.
Proof. unfold need. lia. Qed.

(** Where [current_page >= total_pages] is false, [current_page] is below
    the limit of [total_pages], unless there is none. *)
Lemma py_ge_false_limit (n : Z) (v : pyval) :
  py_ge n v = Ok false -> unbounded v = false -> n < limit v.
Proof.
  unfold py_ge. destruct v as [|b|t|f| | |]; simpl; try done.
  - intros [= Hb] _. destruct b; lia.
  - intros [= Ht] _. lia.
  - destruct f as [|negative|negative m e]; simpl; [done| |].
    + by destruct negative.
    + unfold int_ge_float, int_cmp_float. intros Hge _.
      set (mz := if negative then - Z.of_N m else Z.of_N m) in *.
      destruct (Z.leb_spec 0 e) as [He|He].
      * destruct (Z.compare_spec n (mz * 2 ^ e)); try done.
      * destruct (Z.compare_spec (n * 2 ^ (- e)) mz) as [|Hlt|]; try done.
        assert (Hd : 0 < 2 ^ (- e)) by (apply Z.pow_pos_nonneg; lia).
        assert ((- mz) / 2 ^ (- e) < - n); [|lia].
        apply Z.div_lt_upper_bound; [done|]. lia.
Qed.

(** The loop does not change its state once it has reached a [break] or
    raised. *)
Lemma page_loop_stable (w : TP.server) (fuel fuel' : nat)
    (s s' : state TP.page_vars) (r : result (option unit)) :
  TP.page_loop w fuel s = (s', r) -> r <> Ok None -> (fuel <= fuel')%nat ->
  TP.page_loop w fuel' s = (s', r).
Proof.
  revert fuel' s. induction fuel as [|fuel IH]; intros fuel' s Hrun Hr Hle.
  { simpl in Hrun. injection Hrun as <- <-. done. }
  destruct fuel' as [|fuel']; [lia|].
  rewrite page_loop_unfold in Hrun |- *.
  destruct (iteration w s) as [s1 [[]|e]]; [|done|done].
  apply IH; [done|done|lia].
Qed.

(** The loop after any number of iterations, from any state. *)
Lemma tp_loop_any (w : TP.server) (fuel : nat) (s : state TP.page_vars) :
  exists s' r T,
    TP.page_loop w fuel s = (s', r) /\
    trace s' = trace s ++ T /\
    pages_trace w (length (requests (trace s))) (TP.current_page (locals s)) r T /\
    all_reviews_data s `prefix_of` all_reviews_data s' /\
    (deduplicated trustpilot_key s -> deduplicated trustpilot_key s') /\
    (length (requests T) <= fuel)%nat.
Proof.
  revert s. induction fuel as [|fuel IH]; intros s.
  { exists s, (Ok None), []. rewrite app_nil_r.
    split_run; try done; try (by constructor); by split. }
  rewrite page_loop_unfold.
  destruct (tp_iteration w s)
    as (s1 & r & rds & tail & Hit & Htail & Ht & Hp & Hd & Hb & Hc & _).
  rewrite Hit.
  assert (Hreq : requests (EvRequest (TP.current_page (locals s))
                             :: (EvSeen <$> rds) ++ tail) =
                 [TP.current_page (locals s)]).
  { rewrite requests_cons_request, requests_app, requests_seen.
    by destruct Htail as [-> | [m ->]]. }
  destruct r as [[]|e].
  - destruct (Hc eq_refl) as (pd & v & m & Hg & Hv & Htv & -> & Hc1 & Hge).
    destruct (IH s1) as (s' & r & T' & -> & Ht' & HT' & Hp' & Hd' & Hn').
    exists s', r, (EvRequest (TP.current_page (locals s))
                     :: (EvSeen <$> rds) ++ EvPass m :: T').
    split_run; try done.
    + rewrite Ht', Ht. rewrite <- ?app_assoc. simpl. by rewrite <- ?app_assoc.
    + eapply pages_next; eauto.
      replace (S (length (requests (trace s))))
        with (length (requests (trace s1))).
      * by rewrite <- Hc1.
      * rewrite Ht, requests_app, Hreq, length_app. simpl. lia.
    + by etrans.
    + split; [auto|].
      rewrite requests_cons_request, requests_app, requests_seen.
      rewrite app_nil_l, requests_cons_pass. simpl. lia.
  - exists s1, (Ok (Some tt)),
      (EvRequest (TP.current_page (locals s)) :: (EvSeen <$> rds) ++ tail).
    split_run; try done. split; [done|]. rewrite Hreq. simpl. lia.
  - exists s1, (Raise e),
      (EvRequest (TP.current_page (locals s)) :: (EvSeen <$> rds) ++ tail).
    split_run; try done. split; [done|]. rewrite Hreq. simpl. lia.
Qed.

(** The loop from a page after the first, when [total_pages] has a limit:
    with [need] iterations of fuel it reaches a [break] or raises, and it
    makes at most that many requests. *)
Lemma tp_loop_run (w : TP.server) (k : nat) (s : state TP.page_vars) :
  2 <= TP.current_page (locals s) ->
  unbounded (TP.total_pages (locals s)) = false ->
  (need (locals s) <= k)%nat ->
  exists s' r T,
    r <> Ok None /\
    (forall fuel, (k <= fuel)%nat -> TP.page_loop w fuel s = (s', r)) /\
    trace s' = trace s ++ T /\
    pages_trace w (length (requests (trace s))) (TP.current_page (locals s)) r T /\
    all_reviews_data s `prefix_of` all_reviews_data s' /\
    (deduplicated trustpilot_key s -> deduplicated trustpilot_key s') /\
    (length (requests T) <= need (locals s))%nat.
Proof.
  revert s. induction k as [|k IH]; intros s Hcur Hub Hk.
  { pose proof (need_pos (locals s)). lia. }
  destruct (tp_iteration w s)
    as (s1 & r & rds & tail & Hit & Htail & Ht & Hp & Hd & Hb & Hc & Hl & _ & _).
  assert (Hreq : requests (EvRequest (TP.current_page (locals s))
                             :: (EvSeen <$> rds) ++ tail) =
                 [TP.current_page (locals s)]).
  { rewrite requests_cons_request, requests_app, requests_seen.
    by destruct Htail as [-> | [m ->]]. }
  destruct r as [[]|e].
  - destruct (Hc eq_refl) as (pd & v & m & Hg & Hv & Htv & -> & Hc1 & Hge).
    destruct Hl as [Htot Hmax]; [lia|].
    rewrite Htot in Hge.
    pose proof (py_ge_false_limit _ _ Hge Hub) as Hlt.
    assert (Hneed : need (locals s) = S (need (locals s1))).
    { unfold need. rewrite Hc1, Htot. lia. }
    destruct (IH s1) as (s' & r & T' & Hr & Hrun & Ht' & HT' & Hp' & Hd' & Hn');
      [lia | by rewrite Htot | lia |].
    exists s', r, (EvRequest (TP.current_page (locals s))
                     :: (EvSeen <$> rds) ++ EvPass m :: T').
    split; [done|]. split.
    { intros [|fuel] Hfuel; [lia|].
      rewrite page_loop_unfold, Hit. apply Hrun. lia. }
    split.
    { rewrite Ht', Ht. rewrite <- ?app_assoc. simpl. by rewrite <- ?app_assoc. }
    split.
    { eapply pages_next; eauto.
      replace (S (length (requests (trace s))))
        with (length (requests (trace s1))).
      - by rewrite <- Hc1.
      - rewrite Ht, requests_app, Hreq, length_app. simpl. lia. }
    split; [by etrans|]. split; [auto|].
    rewrite requests_cons_request, requests_app, requests_seen.
    rewrite app_nil_l, requests_cons_pass. simpl. lia.
  - exists s1, (Ok (Some tt)),
      (EvRequest (TP.current_page (locals s)) :: (EvSeen <$> rds) ++ tail).
    split; [done|]. split.
    { intros [|fuel] Hfuel; [lia|]. by rewrite page_loop_unfold, Hit. }
    split; [done|]. split; [done|]. split; [done|].
    split; [done|]. rewrite Hreq. simpl. apply need_pos.
  - exists s1, (Raise e),
      (EvRequest (TP.current_page (locals s)) :: (EvSeen <$> rds) ++ tail).
    split; [done|]. split.
    { intros [|fuel] Hfuel; [lia|]. by rewrite page_loop_unfold, Hit. }
    split; [done|]. split; [done|]. split; [done|].
    split; [done|]. rewrite Hreq. simpl. apply need_pos.
Qed.

(** The state of the function after any number of iterations of the
    loop, whatever the server answers. *)
Lemma tp_collect_any (w : TP.server) (max_pages : Z) (fuel : nat) :
  exists s r,
    TP.collect w max_pages fuel = (s, r) /\
    pages_trace w 0 1 r (trace s) /\
    deduplicated trustpilot_key s /\
    (length (requests (trace s)) <= fuel)%nat.
Proof.
  destruct (tp_loop_any w fuel (TP.initial_state max_pages))
    as (s & r & T & Hrun & Ht & HT & _ & Hd & Hn).
  exists s, r. split; [done|]. split; [by rewrite Ht|].
  split; [by apply Hd | by rewrite Ht].
Qed.

(** The state in which the function is left, from the first page on, when
    the first page does not make the loop endless: with enough fuel the
    loop reaches a [break] or raises, whatever the server answers. *)
Lemma tp_collect_run (w : TP.server) (max_pages : Z) :
  endless w max_pages = false ->
  exists fuel0 s' r rds,
    r <> Ok None /\
    (forall fuel, (fuel0 <= fuel)%nat ->
       TP.collect w max_pages fuel = (s', r)) /\
    pages_trace w 0 1 r (trace s') /\
    deduplicated trustpilot_key s' /\
    (rds = [] \/ exists page_data v reviews,
       TP.get w 0 1 = TP.Html (Some (Ok page_data)) /\
       TP.reviews_of page_data = Ok v /\ py_iter v = Ok reviews /\
       parsed_from reviews rds) /\
    (requests (trace s') = [1] /\ seen (trace s') = rds \/
     exists page_data v,
       TP.get w 0 1 = TP.Html (Some (Ok page_data)) /\
       TP.reviews_of page_data = Ok v /\ truthy v = true /\
       (length (requests (trace s')) <=
          need (after_read page_data (TP.PageVars 1 (VInt 1) max_pages)))%nat /\
       py_ge 1 (TP.total_pages
                  (after_read page_data (TP.PageVars 1 (VInt 1) max_pages)))
         = Ok false).
Proof.
  intros Hend.
  set (s0 := TP.initial_state max_pages).
  assert (Hd0 : deduplicated trustpilot_key s0) by done.
  destruct (tp_iteration w s0)
    as (s1 & r & rds & tail & Hit & Htail & Ht & Hp & Hd & Hb & Hc & _ & Hl & Hfrom).
  change (TP.current_page (locals s0)) with 1 in *.
  change (length (requests (trace s0))) with O in *.
  change (trace s0) with (@nil event) in *. rewrite app_nil_l in Ht.
  assert (Hreq : requests (trace s1) = [1]).
  { rewrite Ht, requests_cons_request, requests_app, requests_seen.
    by destruct Htail as [-> | [m ->]]. }
  assert (Hseen : seen (trace s1) = rds).
  { rewrite Ht. change (seen (EvRequest 1 :: ?l)) with (seen l).
    rewrite seen_app, seen_seen. destruct Htail as [-> | [m ->]]; simpl;
      by rewrite app_nil_r. }
  destruct r as [[]|e].
  - destruct (Hc eq_refl) as (pd & v & m & Hg & Hv & Htv & -> & Hc1 & Hge).
    destruct (Hl pd v Hg Hv eq_refl) as [Htot Hmax].
    assert (Hub : unbounded (TP.total_pages (locals s1)) = false).
    { rewrite Htot. unfold endless in Hend. by rewrite Hg in Hend. }
    destruct (tp_loop_run w (need (locals s1)) s1)
      as (s' & r & T' & Hr & Hrun & Ht' & HT' & Hp' & Hd' & Hn'); [lia|done|lia|].
    rewrite Hreq, Hc1 in HT'. simpl in HT'.
    exists (S (need (locals s1))), s', r, rds.
    split; [done|]. split.
    { intros [|fuel] Hfuel; [lia|].
      unfold TP.collect. fold s0. rewrite page_loop_unfold, Hit.
      apply Hrun. lia. }
    split.
    { rewrite Ht', Ht. rewrite <- ?app_assoc. simpl. rewrite <- ?app_assoc.
      eapply pages_next; eauto. }
    split; [auto|]. split; [done|].
    right. exists pd, v. split; [done|]. split; [done|]. split; [done|].
    change (TP.PageVars 1 (VInt 1) max_pages) with (locals s0).
    rewrite <- Htot. split; [|done].
    pose proof (py_ge_false_limit _ _ Hge Hub) as Hlt.
    rewrite Ht', requests_app, Hreq, length_app. simpl.
    unfold need in *. rewrite after_read_current. simpl.
    change (TP.total_pages (after_read pd _))
      with (TP.total_pages (after_read pd (locals s0))).
    rewrite <- Htot. rewrite Hc1 in Hn'. lia.
  - exists 1%nat, s1, (Ok (Some tt)), rds. split; [done|]. split.
    { intros [|fuel] Hfuel; [lia|].
      unfold TP.collect. fold s0. by rewrite page_loop_unfold, Hit. }
    split; [by rewrite Ht|]. split; [auto|]. split; [done|].
    left. done.
  - exists 1%nat, s1, (Raise e), rds. split; [done|]. split.
    { intros [|fuel] Hfuel; [lia|].
      unfold TP.collect. fold s0. by rewrite page_loop_unfold, Hit. }
    split; [by rewrite Ht|]. split; [auto|]. split; [done|].
    left. done.
Qed.

(** The two together: the state after any number of iterations, and a
    number of iterations within which the loop has ended when the first
    page does not make it endless. *)
Lemma tp_collect_all (w : TP.server) (max_pages : Z) :
  exists fuel0, forall fuel, exists s r,
    TP.collect w max_pages fuel = (s, r) /\
    (endless w max_pages = false -> (fuel0 <= fuel)%nat -> r <> Ok None) /\
    pages_trace w 0 1 r (trace s) /\
    deduplicated trustpilot_key s /\
    (length (requests (trace s)) <= fuel)%nat.
Proof.
  destruct (endless w max_pages) eqn:Hend.
  - exists O. intros fuel.
    destruct (tp_collect_any w max_pages fuel) as (s & r & Hc & HT & Hd & Hn).
    exists s, r. by split_run.
  - destruct (tp_collect_run w max_pages Hend)
      as (fuel0 & s' & r' & _ & Hr & Hrun & _).
    exists fuel0. intros fuel.
    destruct (tp_collect_any w max_pages fuel) as (s & r & Hc & HT & Hd & Hn).
    exists s, r. split_run; try done.
    intros _ Hfuel. rewrite (Hrun fuel Hfuel) in Hc. by injection Hc as <- <-.
Qed.

End TPLoop.

(** * Main results *)

Lemma foldl_delete_lookup (ks : list string) (r : record) (k : string) :
  k ∈ ks \/ r !! k = None ->
  foldl (fun r k => delete k r) r ks !! k = None.
Proof.
  revert r. induction ks as [|k1 ks IH]; intros r Hk; simpl.
  - destruct Hk as [Hk|Hk]; [by apply elem_of_nil in Hk | done].
  - apply IH. destruct Hk as [[->|Hk]%elem_of_cons|Hk]; [|by left|].
    + right. apply lookup_delete_eq.
    + right. apply lookup_delete_None. by right.
Qed.

Lemma pop_all_lookup (ks : list string) (l : list record) (r : record) (k : string) :
  r ∈ pop_all ks l -> k ∈ ks -> r !! k = None.
Proof.
  unfold pop_all. intros (r0 & -> & _)%list_elem_of_fmap Hk.
  apply foldl_delete_lookup. by left.
Qed.

Section Runs.
Context `{PyLib}.

Lemma v1_extract_run (w : V1.browser) (max_loops : Z) :
  exists s rds T,
    V1.collect w max_loops = (s, Ok tt) /\
    V1.extract_reviews_selenium w max_loops =
      Ok (pop_all ["review_id"] (all_reviews_data s)) /\
    trace s = (EvSeen <$> rds) ++ T /\
    (T = [] \/ more_trace (Z.to_nat max_loops) O T) /\
    deduplicated trustindex_key s.
Proof.
  destruct (v1_collect_run w max_loops) as (s & rds & T & Hc & Ht & HT & Hd).
  exists s, rds, T. unfold V1.extract_reviews_selenium. rewrite Hc. by split_run.
Qed.

Lemma v2_extract_run (w : V2.browser) (max_loops : Z) :
  exists s rds T,
    V2.collect w max_loops = (s, Ok tt) /\
    V2.extract_reviews_selenium w max_loops =
      Ok (pop_all ["review_id"] (all_reviews_data s)) /\
    trace s = (EvSeen <$> rds) ++ T /\
    (T = [] \/ more_trace (Z.to_nat max_loops) O T) /\
    deduplicated trustindex_key s.
Proof.
  destruct (v2_collect_run w max_loops) as (s & rds & T & Hc & Ht & HT & Hd).
  exists s, rds, T. unfold V2.extract_reviews_selenium. rewrite Hc. by split_run.
Qed.

Lemma tp_extract_run (w : TP.server) (max_pages : Z) (fuel : nat)
    (s : state TP.page_vars) :
  TP.collect w max_pages fuel = (s, Ok (Some tt)) ->
  TP.extract_trustpilot_reviews w max_pages fuel =
    Some (Ok (pop_all ["id"; "consumer_id"] (all_reviews_data s))).
Proof. intros Hc. unfold TP.extract_trustpilot_reviews. by rewrite Hc. Qed.

Lemma tp_extract_cases (w : TP.server) (max_pages : Z) (fuel : nat)
    (s : state TP.page_vars) (r : result (option unit)) :
  TP.collect w max_pages fuel = (s, r) ->
  TP.extract_trustpilot_reviews w max_pages fuel =
  match r with
  | Ok (Some _) => Some (Ok (pop_all ["id"; "consumer_id"] (all_reviews_data s)))
  | Ok None => None
  | Raise e => Some (Raise e)
  end.
Proof. intros Hc. unfold TP.extract_trustpilot_reviews. by rewrite Hc. Qed.

(** C1. In every run of a scraper the accumulated records are the first
    records of the identifiers the run met, in the order in which it met
    them: a parsed record whose identifier is in the set already is
    skipped, no two accumulated records have the same identifier, and the
    list returned is the accumulated list with the identifier keys
    removed from each record. For the Trustpilot script, whose loop need
    not end, this holds after any number of iterations, and the loop has
    ended after [fuel0] of them unless the first page makes it
    endless. *)
Theorem deduplicated_in_order :
  (forall w max_loops, exists s,
     V1.collect w max_loops = (s, Ok tt) /\
     V1.extract_reviews_selenium w max_loops =
       Ok (pop_all ["review_id"] (all_reviews_data s)) /\
     all_reviews_data s = first_seen trustindex_key ∅ (seen (trace s)) /\
     NoDup (omap trustindex_key (all_reviews_data s)) /\
     length (omap trustindex_key (all_reviews_data s)) =
       length (all_reviews_data s)) /\
  (forall w max_loops, exists s,
     V2.collect w max_loops = (s, Ok tt) /\
     V2.extract_reviews_selenium w max_loops =
       Ok (pop_all ["review_id"] (all_reviews_data s)) /\
     all_reviews_data s = first_seen trustindex_key ∅ (seen (trace s)) /\
     NoDup (omap trustindex_key (all_reviews_data s)) /\
     length (omap trustindex_key (all_reviews_data s)) =
       length (all_reviews_data s)) /\
  (forall w max_pages, exists fuel0, forall fuel, exists s r,
     TP.collect w max_pages fuel = (s, r) /\
     (endless w max_pages = false -> (fuel0 <= fuel)%nat -> r <> Ok None) /\
     (r = Ok (Some tt) ->
        TP.extract_trustpilot_reviews w max_pages fuel =
          Some (Ok (pop_all ["id"; "consumer_id"] (all_reviews_data s)))) /\
     all_reviews_data s = first_seen trustpilot_key ∅ (seen (trace s)) /\
     NoDup (omap trustpilot_key (all_reviews_data s)) /\
     length (omap trustpilot_key (all_reviews_data s)) =
       length (all_reviews_data s)).
Proof.
  split; [|split].
  - intros w max_loops.
    destruct (v1_extract_run w max_loops) as (s & rds & T & Hc & He & _ & _ & Hd).
    exists s. split_run; try done; try apply Hd.
    + by apply deduplicated_NoDup.
    + destruct Hd as [-> _]. apply omap_key_length, first_seen_keys.
  - intros w max_loops.
    destruct (v2_extract_run w max_loops) as (s & rds & T & Hc & He & _ & _ & Hd).
    exists s. split_run; try done; try apply Hd.
    + by apply deduplicated_NoDup.
    + destruct Hd as [-> _]. apply omap_key_length, first_seen_keys.
  - intros w max_pages.
    destruct (tp_collect_all w max_pages) as (fuel0 & Hall).
    exists fuel0. intros fuel.
    destruct (Hall fuel) as (s & r & Hc & Hend & _ & Hd & _).
    exists s, r. split; [done|]. split; [done|]. split.
    { intros ->. by apply tp_extract_run. }
    split; [apply Hd|]. split.
    + by apply deduplicated_NoDup.
    + destruct Hd as [-> _]. apply omap_key_length, first_seen_keys.
Qed.

(** C9. The records an extraction function returns have no identifier
    key: ['review_id'] in the Trustindex scripts, ['id'] and
    ['consumer_id'] in the Trustpilot script, whenever that one returns a
    list; its loop has ended after [fuel0] iterations unless the first
    page makes it endless. *)
Theorem identifiers_removed :
  (forall w max_loops, exists l,
     V1.extract_reviews_selenium w max_loops = Ok l /\
     forall r, r ∈ l -> r !! "review_id" = None) /\
  (forall w max_loops, exists l,
     V2.extract_reviews_selenium w max_loops = Ok l /\
     forall r, r ∈ l -> r !! "review_id" = None) /\
  (forall w max_pages, exists fuel0, forall fuel,
     (endless w max_pages = false -> (fuel0 <= fuel)%nat ->
        TP.extract_trustpilot_reviews w max_pages fuel <> None) /\
     forall l, TP.extract_trustpilot_reviews w max_pages fuel = Some (Ok l) ->
       forall r, r ∈ l -> r !! "id" = None /\ r !! "consumer_id" = None).
Proof.
  split; [|split].
  - intros w max_loops.
    destruct (v1_extract_run w max_loops) as (s & _ & _ & _ & -> & _).
    eexists. split; [done|]. intros r Hr.
    eapply pop_all_lookup; [exact Hr|]. set_solver.
  - intros w max_loops.
    destruct (v2_extract_run w max_loops) as (s & _ & _ & _ & -> & _).
    eexists. split; [done|]. intros r Hr.
    eapply pop_all_lookup; [exact Hr|]. set_solver.
  - intros w max_pages.
    destruct (tp_collect_all w max_pages) as (fuel0 & Hall).
    exists fuel0. intros fuel.
    destruct (Hall fuel) as (s & r & Hc & Hend & _).
    rewrite (tp_extract_cases _ _ _ _ _ Hc). split.
    + intros He Hf. specialize (Hend He Hf). by destruct r as [[]|].
    + intros l Hl r' Hr. destruct r as [[[]|]|e]; try done.
      injection Hl as <-.
      split; (eapply pop_all_lookup; [exact Hr|]); set_solver.
Qed.

Lemma run_clicks (rds : list record) (T : list event) (max_loops : Z) :
  T = [] \/ more_trace (Z.to_nat max_loops) O T ->
  exists k, clicks ((EvSeen <$> rds) ++ T) = seq 0 k /\
            Z.of_nat k <= Z.max 0 max_loops.
Proof.
  rewrite clicks_app, clicks_seen, app_nil_l. intros [-> | HT].
  - exists O. split; [done|lia].
  - destruct (more_trace_clicks _ _ _ HT) as (k & Hk & ->).
    exists k. split; [done|lia].
Qed.

Lemma run_pass0 (rds : list record) (T : list event) (max_loops : Z) :
  T = [] \/ more_trace (Z.to_nat max_loops) O T ->
  forall i, ((EvSeen <$> rds) ++ T) !! i = Some (EvPass O) ->
            length ((EvSeen <$> rds) ++ T) = S i.
Proof.
  intros HT. apply seen_then_pass0. destruct HT as [-> | HT].
  - by intros i ?.
  - by eapply more_trace_pass0.
Qed.

Lemma length_requests_seq (p : Z) (k : nat) (l : list Z) :
  l = (fun i => p + Z.of_nat i) <$> seq 0 k -> length l = k.
Proof. intros ->. by rewrite length_fmap, length_seq. Qed.

Lemma lookup_requests_seq (p : Z) (k i : nat) (q : Z) :
  ((fun i => p + Z.of_nat i) <$> seq 0 k) !! i = Some q ->
  (i < k)%nat /\ q = p + Z.of_nat i.
Proof.
  rewrite list_lookup_fmap. intros Hi.
  destruct (seq 0 k !! i) as [j|] eqn:Hj; [|done].
  apply lookup_seq in Hj as [-> Hlt]. simpl in Hi. injection Hi as <-.
  split; [lia|done].
Qed.

(** A request that is not answered by a page with reviews is the last of
    the log. *)
Lemma last_request (w : TP.server) (r : result (option unit)) (T : list event)
    (i : nat) (p : Z) :
  pages_trace w 0 1 r T ->
  requests T !! i = Some p ->
  ~ goes_on w i p ->
  length (requests T) = S i.
Proof.
  intros Hshape Hi Hno.
  destruct (pages_trace_requests _ _ _ _ _ Hshape) as (k & Hreq & _ & Hon).
  rewrite (length_requests_seq _ _ _ Hreq).
  rewrite Hreq in Hi. apply lookup_requests_seq in Hi as [Hlt ->].
  destruct (decide (k = S i)) as [->|Hne]; [done|].
  destruct Hno. apply (Hon i). left. lia.
Qed.

Lemma not_endless (w : TP.server) (max_pages : Z) :
  (forall page_data v, TP.get w 0 1 = TP.Html (Some (Ok page_data)) ->
     TP.lookup_total_pages page_data = Ok v -> unbounded v = false) ->
  endless w max_pages = false.
Proof.
  intros Hv. unfold endless.
  destruct (TP.get w 0 1) as [e|[[pd|e]|]]; try done.
  specialize (Hv pd). unfold after_read.
  destruct (TP.lookup_total_pages pd) as [tp|e]; cbn [TP.max_pages TP.total_pages].
  - specialize (Hv tp eq_refl eq_refl).
    destruct (0 <? max_pages); [|done].
    unfold py_min. destruct (as_int tp) eqn:Hi.
    + simpl. by destruct (max_pages <? z).
    + destruct tp; try done. simpl. by destruct (int_lt_float max_pages f).
  - by destruct (max_pages =? 0).
Qed.


(** C6. The Trustpilot script requests the pages 1, 2, ... in this order,
    no page twice, and makes no request after a request that raised. This
    holds after any number of iterations of the loop, which has ended
    after [fuel0] of them unless the first page makes it endless. *)
Theorem pages_in_order :
  forall w max_pages, exists fuel0, forall fuel, exists s r k,
    TP.collect w max_pages fuel = (s, r) /\
    (endless w max_pages = false -> (fuel0 <= fuel)%nat -> r <> Ok None) /\
    requests (trace s) = (fun i => 1 + Z.of_nat i) <$> seq 0 k /\
    NoDup (requests (trace s)) /\
    forall i p e,
      requests (trace s) !! i = Some p ->
      TP.get w i p = TP.Raised e ->
      length (requests (trace s)) = S i.
Proof.
  intros w max_pages.
  destruct (tp_collect_all w max_pages) as (fuel0 & Hall).
  exists fuel0. intros fuel.
  destruct (Hall fuel) as (s & r & Hc & Hend & Hshape & _).
  destruct (pages_trace_requests _ _ _ _ _ Hshape) as (k & Hreq & _).
  exists s, r, k. split; [done|]. split; [done|]. split; [done|]. split.
  - rewrite Hreq. apply NoDup_fmap_2; [|apply NoDup_seq].
    intros i j Hij. lia.
  - intros i p e Hi Hfail. eapply last_request; [exact Hshape|exact Hi|].
    intros (pd & v & Hg & _). congruence.
Qed.

(** C3. A pass that adds no record ends the loop: in the Trustindex
    scripts nothing happens after a pass that appended nothing ([EvPass 0]
    is the last event of the log, so no iteration starts after it); in the
    Trustpilot script a page whose reviews are empty is the last page
    requested, after any number of iterations of the loop, which has ended
    after [fuel0] of them unless the first page makes it endless. *)
Theorem stops_when_nothing_new :
  (forall w max_loops, exists s,
     V1.collect w max_loops = (s, Ok tt) /\
     forall i, trace s !! i = Some (EvPass O) -> length (trace s) = S i) /\
  (forall w max_loops, exists s,
     V2.collect w max_loops = (s, Ok tt) /\
     forall i, trace s !! i = Some (EvPass O) -> length (trace s) = S i) /\
  (forall w max_pages, exists fuel0, forall fuel, exists s r,
     TP.collect w max_pages fuel = (s, r) /\
     (endless w max_pages = false -> (fuel0 <= fuel)%nat -> r <> Ok None) /\
     forall i p page_data v,
       requests (trace s) !! i = Some p ->
       TP.get w i p = TP.Html (Some (Ok page_data)) ->
       TP.reviews_of page_data = Ok v -> truthy v = false ->
       length (requests (trace s)) = S i).
Proof.
  split; [|split].
  - intros w max_loops.
    destruct (v1_collect_run w max_loops) as (s & rds & T & Hc & Ht & HT & _).
    exists s. split; [done|]. rewrite Ht. by eapply run_pass0.
  - intros w max_loops.
    destruct (v2_collect_run w max_loops) as (s & rds & T & Hc & Ht & HT & _).
    exists s. split; [done|]. rewrite Ht. by eapply run_pass0.
  - intros w max_pages.
    destruct (tp_collect_all w max_pages) as (fuel0 & Hall).
    exists fuel0. intros fuel.
    destruct (Hall fuel) as (s & r & Hc & Hend & Hshape & _).
    exists s, r. split; [done|]. split; [done|].
    intros i p pd v Hi Hg Hv Htv.
    eapply last_request; [exact Hshape|exact Hi|].
    intros (pd' & v' & Hg' & Hv' & Htv'). congruence.
Qed.

(** C8. When the first page has reviews and its payload has no readable
    [totalPages] (the lookup raises [KeyError] or [TypeError]), the
    Trustpilot script requests page 1 only, whatever [max_pages] is:
    [total_pages] keeps its initial value 1, [max_pages] becomes 1000 when
    it was 0, and the records returned are those of the reviews of
    page 1. *)
Theorem first_page_only (w : TP.server) (max_pages : Z) (page_data v : pyval)
    (e : exn) :
  TP.get w 0 1 = TP.Html (Some (Ok page_data)) ->
  TP.lookup_total_pages page_data = Raise e ->
  TP.reviews_of page_data = Ok v -> truthy v = true ->
  (e = KeyError \/ e = TypeError) /\
  exists s rds,
    (forall fuel, (1 <= fuel)%nat ->
       TP.collect w max_pages fuel = (s, Ok (Some tt)) /\
       TP.extract_trustpilot_reviews w max_pages fuel =
         Some (Ok (pop_all ["id"; "consumer_id"]
                     (first_seen trustpilot_key ∅ rds)))) /\
    requests (trace s) = [1] /\
    seen (trace s) = rds /\
    (rds = [] \/ exists reviews, py_iter v = Ok reviews /\ parsed_from reviews rds) /\
    TP.total_pages (locals s) = VInt 1 /\
    TP.max_pages (locals s) = (if max_pages =? 0 then 1000 else max_pages).
Proof.
  intros Hg Hl Hv Htv. split; [by eapply lookup_total_pages_raises|].
  set (s0 := TP.initial_state max_pages).
  assert (Hd0 : deduplicated trustpilot_key s0) by done.
  destruct (tp_iteration w s0)
    as (s1 & r & rds & tail & Hit & Htail & Ht & _ & Hd & _ & Hc & _ & Hloc & Hfrom).
  destruct (iteration_html w s0 _ Hg) as (s1' & f & Hit').
  rewrite Hit in Hit'. injection Hit' as <- ->.
  change (TP.current_page (locals s0)) with 1 in *.
  change (length (requests (trace s0))) with O in *.
  change (trace s0) with (@nil event) in *. rewrite app_nil_l in Ht.
  destruct (Hloc page_data v Hg Hv eq_refl) as [Htot Hmax].
  unfold after_read in Htot, Hmax. rewrite Hl in Htot, Hmax.
  change (TP.max_pages (locals s0)) with max_pages in *.
  assert (Htot1 : TP.total_pages (locals s1) = VInt 1).
  { rewrite Htot. by destruct (max_pages =? 0). }
  assert (Hmax1 : TP.max_pages (locals s1) =
                  (if max_pages =? 0 then 1000 else max_pages)).
  { rewrite Hmax. by destruct (max_pages =? 0). }
  destruct f.
  { destruct (Hc eq_refl) as (_ & _ & _ & _ & _ & _ & _ & _ & Hge).
    by rewrite Htot1 in Hge. }
  assert (Hseen : seen (trace s1) = rds).
  { rewrite Ht. change (seen (EvRequest 1 :: ?l)) with (seen l).
    rewrite seen_app, seen_seen. destruct Htail as [-> | [m ->]]; simpl;
      by rewrite app_nil_r. }
  exists s1, rds. split.
  { intros [|fuel] Hfuel; [lia|].
    assert (Hcol : TP.collect w max_pages (S fuel) = (s1, Ok (Some tt))).
    { unfold TP.collect. fold s0. by rewrite page_loop_unfold, Hit. }
    split; [done|]. rewrite (tp_extract_run _ _ _ _ Hcol).
    destruct (Hd Hd0) as [-> _]. by rewrite Hseen. }
  split.
  { rewrite Ht, requests_cons_request, requests_app, requests_seen.
    by destruct Htail as [-> | [m ->]]. }
  split; [done|]. split; [|done].
  destruct Hfrom as [-> | (pd & v' & reviews & Hg' & Hv' & Hi & Hp)]; [by left|].
  right. rewrite Hg in Hg'. injection Hg' as <-.
  rewrite Hv in Hv'. injection Hv' as <-. eauto.
Qed.

End Runs.

Section Failures.
Context `{PyLib}.

Lemma v1_more_loop_raise (w : V1.browser) (remaining loop_count : nat)
    (s : state unit) (e : exn) :
  (V1.press (V1.more w loop_count) ;; V1.page_source (V1.more w loop_count))
    = Raise e ->
  V1.more_loop w (S remaining) loop_count s = (logged (EvClick loop_count) s, Ok tt).
Proof.
  intros Hr. cbn [V1.more_loop]. rewrite run_bind. cbn [log modify].
  rewrite run_bind, run_try_catch, v1_click_more_run, Hr. reflexivity.
Qed.

Lemma v1_setup_raise (w : V1.browser) (max_loops : Z) (e : exn) :
  V1.start w = Raise e \/ V1.initial_page w = Raise e ->
  V1.extract_reviews_selenium w max_loops = Ok [].
Proof.
  intros Hr. unfold V1.extract_reviews_selenium, V1.collect, V1.scrape.
  rewrite run_try_catch, run_bind. unfold lift at 1.
  destruct (V1.start w) as [[]|e1]; [|reflexivity].
  destruct Hr as [Hr|Hr]; [done|].
  rewrite run_bind. unfold lift at 1. rewrite Hr. reflexivity.
Qed.

Lemma tp_loop_failure (w : TP.server) (fuel : nat) (s : state TP.page_vars)
    (e : exn) :
  let cur := TP.current_page (locals s) in
  let n := length (requests (trace s)) in
  TP.get w n cur = TP.Raised e /\ except_ [RequestException] e = true \/
  TP.get w n cur = TP.Html (Some (Raise e)) ->
  TP.page_loop w (S fuel) s = (logged (EvRequest cur) s, Ok (Some tt)).
Proof.
  intros cur n Hg. rewrite page_loop_unfold. unfold iteration. fold cur n.
  destruct Hg as [[-> ->] | ->]; [reflexivity|]. by rewrite tp_visit_run.
Qed.

Lemma tp_loop_raise (w : TP.server) (fuel : nat) (s : state TP.page_vars)
    (e : exn) :
  let cur := TP.current_page (locals s) in
  let n := length (requests (trace s)) in
  TP.get w n cur = TP.Raised e -> except_ [RequestException] e = false ->
  TP.page_loop w (S fuel) s = (logged (EvRequest cur) s, Raise e).
Proof.
  intros cur n Hg He. rewrite page_loop_unfold. unfold iteration. fold cur n.
  by rewrite Hg, He.
Qed.

Lemma tp_loop_prefix (w : TP.server) (fuel : nat) (s : state TP.page_vars) :
  exists s' r,
    TP.page_loop w fuel s = (s', r) /\
    all_reviews_data s `prefix_of` all_reviews_data s'.
Proof.
  destruct (tp_loop_any w fuel s) as (s' & r & T & Hrun & _ & _ & Hp & _).
  eauto.
Qed.

Lemma tp_for_prefix (reviews : list pyval) (n : nat) (s : state TP.page_vars) :
  all_reviews_data s `prefix_of`
    all_reviews_data (fst (for_ reviews n TP.take s)).
Proof.
  destruct (tp_for_run reviews n s) as (rds & r & -> & _).
  apply seen_steps_prefix.
Qed.

(** A run that raises has met a request that raised an exception which is
    not one of [requests]. *)
Lemma pages_trace_raised (w : TP.server) (n : nat) (p : Z)
    (r : result (option unit)) (T : list event) (e : exn) :
  pages_trace w n p r T -> r = Raise e ->
  exists n' p',
    TP.get w n' p' = TP.Raised e /\ except_ [RequestException] e = false.
Proof.
  induction 1 as [| n p e' Hg He | | | |n p pd v rds m r T Hg Hv Ht _ IH];
    intros Hr; try done.
  - injection Hr as ->. eauto.
  - by apply IH.
Qed.

(** A direct click that raises one of the two exceptions of the inner
    [except] clause is replaced by the JavaScript click: the iteration goes
    on as that one allows. *)
Lemma v1_press_fallback (c : V1.more_click) (e : exn) :
  V1.wait_clickable c = Ok tt -> V1.scroll_into_view c = Ok tt ->
  V1.click c = Raise e ->
  except_ [ElementClickInterceptedException; StaleElementReferenceException] e
    = true ->
  V1.press c = (V1.wait_presence c ;; V1.js_click c).
Proof.
  intros Hw Hs Hc He. unfold V1.press. rewrite Hw, Hs, Hc.
  cbn [bind result_monad try_except]. by rewrite He.
Qed.


End Failures.

(** [first_page_only] at a server whose pages have two reviews and no
    pagination data, with no limit on the pages. *)
Lemma first_page_only_witness :
  (KeyError = KeyError \/ KeyError = TypeError) /\
  exists s rds,
    (forall fuel, (1 <= fuel)%nat ->
       TP.collect server_bare 0 fuel = (s, Ok (Some tt)) /\
       TP.extract_trustpilot_reviews server_bare 0 fuel =
         Some (Ok (pop_all ["id"; "consumer_id"]
                     (first_seen trustpilot_key ∅ rds)))) /\
    requests (trace s) = [1] /\
    seen (trace s) = rds /\
    (rds = [] \/ exists reviews,
       py_iter (VList [review_1; review_2]) = Ok reviews /\
       parsed_from reviews rds) /\
    TP.total_pages (locals s) = VInt 1 /\
    TP.max_pages (locals s) = (if 0 =? 0 then 1000 else 0).
Proof.
  exact (first_page_only server_bare 0
           (page_data_of (VList [review_1; review_2]) None)
           (VList [review_1; review_2]) KeyError
           eq_refl eq_refl eq_refl eq_refl).
Defined.



(** The date element of [review_b] is found and its text, 'last week', is
    not a date: the field holds the text, not [None]. *)
Lemma v2_unparsed_date_kept :
  exists r d,
    V2.parse_review_div (as_tag review_b) = Ok (Some r) /\
    find "div" "ti-date" (as_tag review_b) = Some d /\
    strptime_Y_m_d (str_strip (text d)) = None /\
    r !! "date" = Some (VStr "last week") /\
    r !! "date" <> Some VNone.
Proof.
  exists (v2_record "b2" (as_tag review_b)),
    (Tag "div" ∅ (Some ["ti-date"]) [NavigableString "last week"]).
  split; [by apply v2_parse_some|].
  split; [reflexivity|]. split; [by vm_compute|].
  split; by vm_compute.
Qed.

(** ** Runs on the examples *)

(** The first Trustindex script on [browser_a]: two records from the first
    page, one more after the first click, none after the second, which ends
    the loop. *)
Example v1_run_browser_a :
  match V1.extract_reviews_selenium browser_a 10 with
  | Ok l => (fun r : record => r !! "author") <$> l
  | Raise _ => []
  end = [Some (VStr "Ann"); Some (VStr "Bob"); Some VNone] /\
  clicks (trace (fst (V1.collect browser_a 10))) = [0; 1]%nat /\
  omap (fun e => match e with EvPass n => Some n | _ => None end)
    (trace (fst (V1.collect browser_a 10))) = [1; 0]%nat.
Proof. split; [|split]; by vm_compute. Qed.

(** The second Trustindex script on [browser_b]: the failures the script
    tolerates do not stop it; the dates that parse are in ISO form. *)
Example v2_run_browser_b :
  match V2.extract_reviews_selenium browser_b 10 with
  | Ok l => (fun r : record => r !! "date") <$> l
  | Raise _ => []
  end = [Some (VStr "2024-01-15"); Some (VStr "last week");
         Some (VStr "2023-12-01")] /\
  clicks (trace (fst (V2.collect browser_b 10))) = [0; 1]%nat.
Proof. split; by vm_compute. Qed.

(** The Trustpilot script on [server_three] with no limit: pages 1, 2 and
    3 are requested, page 3 fails, and the review that page 2 repeats is
    kept once. *)
Example tp_run_server_three :
  requests (trace (fst (TP.collect server_three 0 5))) = [1; 2; 3] /\
  match TP.extract_trustpilot_reviews server_three 0 5 with
  | Some (Ok l) => (fun r : record => r !! "date_published") <$> l
  | _ => []
  end = [Some (VStr "2023-05-01 12:34:56"); Some (VStr "2023-05-02 08:00:00")].
Proof. split; by vm_compute. Qed.

(** * Further properties *)

(** ** The parse functions *)

Section MoreParse.
Context `{PyLib}.

(** X1. [parse_review_div] of trustindex_scraper.py never raises and never
    returns [None]: for every element it returns a dict with exactly the
    keys review_id, author, date, rating, body and source_platform, where
    review_id is the ['data-id'] attribute ([None] when absent), a field
    whose element is not found is [None], and source_platform is
    ['Unknown'] when the element has no [class] attribute or no class that
    starts with ['source-']. *)
Theorem v1_parse_review_div_shape (review_div : tag) :
  exists r,
    V1.parse_review_div review_div = Ok r /\
    dom r = list_to_set ["review_id"; "author"; "date"; "rating"; "body";
                         "source_platform"] /\
    r !! "review_id" = Some (opt_str (tag_get "data-id" review_div)) /\
    (find "div" "ti-name" review_div = None -> r !! "author" = Some VNone) /\
    (find "div" "ti-date" review_div = None -> r !! "date" = Some VNone) /\
    (find "div" "ti-stars" review_div = None -> r !! "rating" = Some VNone) /\
    (find "div" "ti-review-content" review_div = None -> r !! "body" = Some VNone) /\
    (List.filter (startswith "source-") (default [] (tag_class review_div)) = [] ->
       r !! "source_platform" = Some (VStr "Unknown")).
Proof.
  exists (v1_record review_div). split; [apply v1_parse_ok|].
  unfold v1_record. split.
  { rewrite !dom_insert_L, dom_empty_L. set_solver. }
  split; [by simplify_map_eq|].
  repeat split; intros Hf; simplify_map_eq; try rewrite Hf; try done.
  destruct (tag_class review_div) as [cls|]; [|done].
  simpl in Hf. unfold source_of. by rewrite Hf.
Qed.

Lemma py_get_dict_get (d : list (string * pyval)) (k : string) (dflt : pyval) :
  py_get (VDict d) k dflt = Ok (dict_get d k dflt).
Proof. reflexivity. Qed.



End MoreParse.



(** ** The writers *)

Section MoreWriters.
Import Writers.

(** The table the writers are to write. *)
Lemma write_rows_prefix (io : file_io) (l : rows) :
  fst (write_rows io l) `prefix_of` l.
Proof.
  induction l as [|row l IH]; simpl; [done|].
  destruct (write_row io row); [|apply prefix_nil].
  destruct (write_rows io l) as [done r]. simpl in *. by apply prefix_cons.
Qed.

Lemma write_rows_ok (io : file_io) (l : rows) :
  (exists u, snd (write_rows io l) = Ok u) <->
  Forall (fun row => exists u, write_row io row = Ok u) l.
Proof.
  induction l as [|row l IH]; simpl.
  - split; [constructor | eauto].
  - destruct (write_row io row) as [u|e] eqn:Hw.
    + destruct (write_rows io l) as [done r]. simpl in *. rewrite IH. split.
      * intros Hl. constructor; eauto.
      * by intros [_ Hl]%Forall_cons_1.
    + simpl. split; [by intros [u [=]]|].
      intros [[u Hu] _]%Forall_cons_1. congruence.
Qed.

Lemma write_rows_complete (io : file_io) (l : rows) (u : unit) :
  snd (write_rows io l) = Ok u -> fst (write_rows io l) = l.
Proof.
  induction l as [|row l IH]; simpl; [done|].
  destruct (write_row io row); [|done].
  destruct (write_rows io l) as [done r]. simpl in *. intros Hr. f_equal. auto.
Qed.

(** X4. The workbook is saved whole or not at all: [write_reviews_to_excel]
    makes a file exactly when the list is not empty, every row is taken by
    [ws.append] and [wb.save] succeeds, and the file then holds the header
    and one row for every record. *)
Theorem excel_all_or_nothing (io : file_io) (reviews : list record) (t : rows) :
  write_reviews_to_excel io reviews = Some t <->
  reviews <> [] /\
  Forall (fun row => exists u, write_row io row = Ok u)
    (map VStr (fieldnames_of reviews)
       :: map (row_of (fieldnames_of reviews)) reviews) /\
  (exists u, save io = Ok u) /\
  t = map VStr (fieldnames_of reviews)
        :: map (row_of (fieldnames_of reviews)) reviews.
Proof.
  unfold write_reviews_to_excel.
  set (full := map VStr (fieldnames_of reviews)
                 :: map (row_of (fieldnames_of reviews)) reviews).
  destruct reviews as [|r0 reviews0] eqn:Hr.
  { split; [done|]. by intros [? _]. }
  rewrite <- Hr in *. clearbody full.
  pose proof (write_rows_ok io full) as Hok.
  pose proof (write_rows_complete io full) as Hfull.
  destruct (write_rows io full) as [ws [u|e]]; simpl in *.
  - destruct (save io) as [u'|e'].
    + split.
      * intros [= <-]. split; [by rewrite Hr|]. split; [apply Hok; eauto|].
        split; [eauto|]. by apply (Hfull u).
      * intros (_ & _ & _ & ->). f_equal. by apply (Hfull u).
    + split; [done|]. by intros (_ & _ & [u' [=]] & _).
  - split; [done|]. intros (_ & Hall & _). apply Hok in Hall as [u [=]].
Qed.

(** X5. [write_reviews_to_csv] makes no file exactly when the list is
    empty or the file cannot be opened; the file it makes holds a first
    part of the table, the rows written before a failure. *)
Theorem csv_partial (io : file_io) (reviews : list record) :
  (write_reviews_to_csv io reviews = None <->
     reviews = [] \/ exists e, open_ io = Raise e) /\
  (forall t, write_reviews_to_csv io reviews = Some t ->
     t `prefix_of` map VStr (fieldnames_of reviews)
                     :: map (row_of (fieldnames_of reviews)) reviews).
Proof.
  unfold write_reviews_to_csv. destruct reviews as [|r0 reviews0] eqn:Hr.
  { split; [split; auto|done]. }
  rewrite <- Hr. destruct (open_ io) as [u|e].
  - split.
    + split; [done|]. intros [Hnil | [e [=]]]. by rewrite Hr in Hnil.
    + intros t Ht. injection Ht as <-.
      exact (write_rows_prefix io (map VStr (fieldnames_of reviews) :: _)).
  - split; [split; eauto|done].
Qed.

(** X6. The header depends on the keys the records have, not on the
    order of the records or on how often a key occurs: two lists with the
    same keys get the same header. *)
Theorem fieldnames_of_keys (reviews1 reviews2 : list record) :
  (forall k, (exists r, r ∈ reviews1 /\ is_Some (r !! k)) <->
             (exists r, r ∈ reviews2 /\ is_Some (r !! k))) ->
  fieldnames_of reviews1 = fieldnames_of reviews2.
Proof.
  intros Hk.
  destruct (fieldnames_of_spec reviews1) as (Hs1 & Hn1 & Hm1).
  destruct (fieldnames_of_spec reviews2) as (Hs2 & Hn2 & Hm2).
  apply (Sorted_unique String.le); [done|done|].
  apply NoDup_Permutation; [done|done|].
  intros k. by rewrite Hm1, Hm2.
Qed.

End MoreWriters.

(** [fieldnames_of_keys] at a list of two records and the same two in the
    other order. *)
Lemma fieldnames_of_keys_witness :
  Writers.fieldnames_of
    [ {[ "body" := VStr "Good"; "author" := VStr "Ann" ]};
      ({[ "rating" := VInt 5 ]} : record) ] =
  Writers.fieldnames_of
    [ ({[ "rating" := VInt 5 ]} : record);
      {[ "body" := VStr "Good"; "author" := VStr "Ann" ]} ].
Proof.
  apply fieldnames_of_keys. intros k.
  split; intros (r & Hr & Hk); exists r; (split; [|done]);
    rewrite !elem_of_cons in *; tauto.
Defined.

(** ** What a run keeps *)

Section Keeps.
Context {L : Type}.
Implicit Types (s : state L) (I : state L -> Prop).

Lemma keeps_ret {A} I (a : A) : keeps I (ret a : M L A).
Proof. by intros s. Qed.

Lemma keeps_lift {A} I (r : result A) : keeps I (lift r : M L A).
Proof. by intros s. Qed.

Lemma keeps_gets {A} I (f : state L -> A) : keeps I (gets f).
Proof. by intros s. Qed.

Lemma keeps_bind {A B} I (m : M L A) (f : A -> M L B) :
  keeps I m -> (forall a, keeps I (f a)) -> keeps I (bind m f).
Proof.
  intros Hm Hf s Hs. rewrite run_bind. specialize (Hm s Hs).
  destruct (m s) as [s' [a|e]]; simpl in *; [by apply Hf | done].
Qed.

(** The continuation of a lifted result runs on the value it returned. *)
Lemma keeps_bind_lift {A B} I (r : result A) (f : A -> M L B) :
  (forall a, r = Ok a -> keeps I (f a)) -> keeps I (bind (lift r) f).
Proof.
  intros Hf s Hs. rewrite run_bind. unfold lift.
  destruct r as [a|e]; [by apply Hf | done].
Qed.

Lemma keeps_try_catch {A} I (m : M L A) catches (h : exn -> M L A) :
  keeps I m -> (forall e, keeps I (h e)) -> keeps I (try_catch m catches h).
Proof.
  intros Hm Hh s Hs. rewrite run_try_catch. specialize (Hm s Hs).
  destruct (m s) as [s' [a|e]]; simpl in *; [done|].
  destruct (catches e); [by apply Hh | done].
Qed.

Lemma keeps_for {A B} I (l : list A) (b : B) (body : A -> B -> M L B) :
  (forall x b, x ∈ l -> keeps I (body x b)) -> keeps I (for_ l b body).
Proof.
  revert b. induction l as [|x l IH]; intros b Hb; simpl.
  - apply keeps_ret.
  - apply keeps_bind; [apply Hb; left|].
    intros b'. apply IH. intros y b'' Hy. apply Hb. by right.
Qed.

Lemma keeps_seen_log (P : record -> Prop) (rd : record) :
  P rd -> keeps (all_seen P) (log (EvSeen rd) : M L unit).
Proof.
  intros Hp s Hs. unfold all_seen in *. simpl. rewrite seen_app.
  apply Forall_app. split; [done|]. by repeat constructor.
Qed.

Lemma keeps_seen_log_other (P : record -> Prop) (e : event) :
  seen [e] = [] -> keeps (all_seen P) (log e : M L unit).
Proof.
  intros He s Hs. unfold all_seen in *. simpl. by rewrite seen_app, He, app_nil_r.
Qed.

Lemma keeps_seen_append (P : record -> Prop) (rd : record) :
  keeps (all_seen P) (append rd : M L unit).
Proof. by intros s. Qed.

Lemma keeps_seen_add_id (P : record -> Prop) (v : pyval) :
  keeps (all_seen P) (add_id v : M L unit).
Proof. intros s Hs. unfold add_id. rewrite run_bind. simpl. by destruct (py_hash v). Qed.

Lemma keeps_seen_not_in_ids (P : record -> Prop) (v : pyval) :
  keeps (all_seen P) (not_in_ids v : M L bool).
Proof.
  intros s Hs. unfold not_in_ids. rewrite run_bind. simpl. by destruct (py_hash v).
Qed.

Lemma keeps_seen_set_locals (P : record -> Prop) (f : L -> L) :
  keeps (all_seen P) (set_locals f).
Proof. by intros s. Qed.

End Keeps.

(** Splits a computation along its [bind]s, [try]s and branches. *)
Ltac keeps_step :=
  first
    [ apply keeps_ret | apply keeps_lift | apply keeps_gets
    | apply keeps_seen_append | apply keeps_seen_add_id
    | apply keeps_seen_not_in_ids | apply keeps_seen_set_locals
    | apply keeps_seen_log_other; reflexivity
    | apply keeps_bind; [|intros ?]
    | apply keeps_try_catch; [|intros ?]
    | match goal with
      | |- keeps _ (if ?b then _ else _) => destruct b
      | |- keeps _ (match ?x with _ => _ end) => destruct x
      end ].

Lemma first_seen_elem (key : record -> option hkey) (ids : gset hkey)
    (l : list record) (r : record) :
  r ∈ first_seen key ids l -> r ∈ l /\ is_Some (key r).
Proof.
  revert ids. induction l as [|r' l IH]; intros ids; simpl.
  - by intros ?%elem_of_nil.
  - destruct (key r') as [k|] eqn:Hk.
    + destruct (decide (k ∈ ids)).
      * intros [? ?]%IH. split; [by right|done].
      * intros [->|[? ?]%IH]%elem_of_cons.
        -- split; [left|by rewrite Hk].
        -- split; [by right|done].
    + intros [? ?]%IH. split; [by right|done].
Qed.

(** What holds of every record seen holds of every record accumulated. *)
Lemma deduplicated_all {L} key (P : record -> Prop) (s : state L) :
  deduplicated key s -> all_seen P s ->
  Forall (fun r => P r /\ is_Some (key r)) (all_reviews_data s).
Proof.
  intros [Ha _] Hs. apply Forall_forall. intros r Hr. rewrite Ha in Hr.
  apply first_seen_elem in Hr as [Hr Hk]. split; [|done].
  unfold all_seen in Hs. rewrite Forall_forall in Hs. auto.
Qed.

Section V1Seen.
Context `{PyLib}.

Lemma v1_is_new_keeps (P : record -> Prop) (rd : record) :
  keeps (all_seen P) (V1.is_new rd).
Proof. unfold V1.is_new. repeat keeps_step. Qed.

Lemma v1_take_seen (P : record -> Prop) (div : tag) (n : nat) :
  P (v1_record div) -> keeps (all_seen P) (V1.take div n).
Proof.
  intros Hp. unfold V1.take. rewrite v1_parse_ok.
  apply keeps_bind_lift. intros rd [= <-].
  apply keeps_bind; [by apply keeps_seen_log|]. intros _.
  apply keeps_bind; [apply v1_is_new_keeps|]. intros new.
  repeat keeps_step.
Qed.

Lemma v1_more_loop_seen (w : V1.browser) (P : record -> Prop)
    (remaining loop_count : nat) :
  (forall div, v1_shown w div -> P (v1_record div)) ->
  keeps (all_seen P) (V1.more_loop w remaining loop_count).
Proof.
  intros Hp. revert loop_count.
  induction remaining as [|remaining IH]; intros loop_count;
    cbn [V1.more_loop].
  { apply keeps_ret. }
  apply keeps_bind; [by apply keeps_seen_log_other|]. intros _.
  apply keeps_bind.
  - apply keeps_try_catch; [|intros; apply keeps_ret].
    unfold V1.click_more. apply keeps_bind; [apply keeps_lift|]. intros _.
    apply keeps_bind_lift. intros soup Hsoup.
    apply keeps_bind.
    + apply keeps_for. intros div n Hdiv. apply v1_take_seen, Hp.
      exists soup. split; [right; eauto|done].
    + intros newly. repeat keeps_step.
  - intros []; [apply IH | apply keeps_ret].
Qed.

Lemma v1_collect_seen (w : V1.browser) (max_loops : Z) (P : record -> Prop) :
  (forall div, v1_shown w div -> P (v1_record div)) ->
  all_seen P (fst (V1.collect w max_loops)).
Proof.
  intros Hp. unfold V1.collect.
  apply keeps_try_catch; [|intros; apply keeps_ret|constructor].
  unfold V1.scrape. apply keeps_bind; [apply keeps_lift|]. intros _.
  apply keeps_bind_lift. intros soup Hsoup.
  apply keeps_bind.
  - apply keeps_for. intros div n Hdiv. apply v1_take_seen, Hp.
    exists soup. split; [by left|done].
  - intros _. by apply v1_more_loop_seen.
Qed.

End V1Seen.

Section V2Seen.
Context `{PyLib}.

Lemma v2_is_new_keeps (P : record -> Prop) (rd : option record) :
  keeps (all_seen P) (V2.is_new rd).
Proof. unfold V2.is_new. repeat keeps_step. Qed.

Lemma v2_take_seen (P : record -> Prop) (div : tag) (n : nat) :
  (forall rd, V2.parse_review_div div = Ok (Some rd) -> P rd) ->
  keeps (all_seen P) (V2.take div n).
Proof.
  intros Hp. unfold V2.take.
  apply keeps_bind_lift. intros rd Hrd.
  apply keeps_bind.
  { destruct rd as [rd|]; [by apply keeps_seen_log, Hp | apply keeps_ret]. }
  intros _. apply keeps_bind; [apply v2_is_new_keeps|]. intros new.
  repeat keeps_step.
Qed.

Lemma v2_for_seen (w : V2.browser) (P : record -> Prop) (page : result tag) :
  (forall soup, page = Ok soup ->
     forall div rd, div ∈ find_all "div" (Some "review") soup ->
       V2.parse_review_div div = Ok (Some rd) -> P rd) ->
  keeps (all_seen P) (for_ (V2.get_review_divs_from_source page) O V2.take).
Proof.
  intros Hp. apply keeps_for. intros div n Hdiv. apply v2_take_seen.
  destruct page as [soup|e]; [|by apply elem_of_nil in Hdiv]. eauto.
Qed.

Lemma v2_more_loop_seen (w : V2.browser) (P : record -> Prop)
    (remaining loop_count : nat) :
  (forall div rd, v2_shown w div ->
     V2.parse_review_div div = Ok (Some rd) -> P rd) ->
  keeps (all_seen P) (V2.more_loop w remaining loop_count).
Proof.
  intros Hp. revert loop_count.
  induction remaining as [|remaining IH]; intros loop_count;
    cbn [V2.more_loop].
  { apply keeps_ret. }
  apply keeps_bind; [by apply keeps_seen_log_other|]. intros _.
  apply keeps_bind; [apply keeps_lift|]. intros _.
  apply keeps_bind.
  - apply keeps_try_catch; [|intros; apply keeps_ret].
    unfold V2.click_more. apply keeps_bind; [apply keeps_lift|].
    intros []; [|apply keeps_ret].
    unfold V2.extract_new. apply keeps_bind_lift. intros page Hpage.
    apply keeps_bind.
    + apply (v2_for_seen w). intros soup -> div rd Hdiv. apply Hp.
      exists soup. split; [right; eauto|done].
    + intros newly. unfold V2.count_ids. repeat keeps_step.
  - intros []; [apply IH | apply keeps_ret].
Qed.

Lemma v2_collect_seen (w : V2.browser) (max_loops : Z) (P : record -> Prop) :
  (forall div rd, v2_shown w div ->
     V2.parse_review_div div = Ok (Some rd) -> P rd) ->
  all_seen P (fst (V2.collect w max_loops)).
Proof.
  intros Hp. unfold V2.collect.
  apply keeps_try_catch; [|intros; apply keeps_ret|constructor].
  unfold V2.scrape. apply keeps_bind; [apply keeps_lift|]. intros _.
  apply keeps_bind_lift. intros page Hpage.
  apply keeps_bind.
  - apply (v2_for_seen w). intros soup -> div rd Hdiv. apply Hp.
    exists soup. split; [by left|done].
  - intros _. unfold V2.count_ids.
    apply keeps_bind; [apply keeps_gets|]. intros n.
    apply keeps_bind; [apply keeps_seen_set_locals|]. intros _.
    by apply v2_more_loop_seen.
Qed.

End V2Seen.

Section TPSeen.
Context `{PyLib}.

Lemma tp_is_new_keeps (P : record -> Prop) (rd : record) :
  keeps (all_seen P) (TP.is_new rd).
Proof. unfold TP.is_new. repeat keeps_step. Qed.

Lemma tp_take_seen (P : record -> Prop) (x : pyval) (n : nat) :
  (forall rd, TP.parse_trustpilot_review_data x = Ok rd -> P rd) ->
  keeps (all_seen P) (TP.take x n).
Proof.
  intros Hp. unfold TP.take.
  apply keeps_bind_lift. intros rd Hrd.
  apply keeps_bind; [by apply keeps_seen_log, Hp|]. intros _.
  apply keeps_bind; [apply tp_is_new_keeps|]. intros new.
  repeat keeps_step.
Qed.

Lemma tp_read_total_pages_keeps (P : record -> Prop) (page_data : pyval) :
  keeps (all_seen P) (TP.read_total_pages page_data).
Proof.
  unfold TP.read_total_pages, TP.set_total_pages, TP.set_max_pages.
  repeat keeps_step.
Qed.

Lemma tp_page_loop_seen (w : TP.server) (P : record -> Prop) (fuel : nat) :
  (forall x rd, tp_sent w x ->
     TP.parse_trustpilot_review_data x = Ok rd -> P rd) ->
  keeps (all_seen P) (TP.page_loop w fuel).
Proof.
  intros Hp. induction fuel as [|fuel IH]; cbn [TP.page_loop].
  { apply keeps_ret. }
  apply keeps_bind; [apply keeps_gets|]. intros p.
  apply keeps_bind; [apply keeps_gets|]. intros n.
  apply keeps_bind; [by apply keeps_seen_log_other|]. intros _.
  destruct (TP.get w n p) as [e|script_tag] eqn:Hget.
  { destruct (except_ [RequestException] e); [apply keeps_ret | apply keeps_lift]. }
  apply keeps_bind.
  - apply keeps_try_catch; [|intros; apply keeps_ret].
    unfold TP.visit. destruct script_tag as [loads|]; [|apply keeps_ret].
    apply keeps_bind_lift. intros page_data ->.
    apply keeps_bind_lift. intros v Hv.
    apply keeps_bind; [apply keeps_gets|]. intros p'.
    apply keeps_bind.
    { destruct (p' =? 1)%Z; [apply tp_read_total_pages_keeps | apply keeps_ret]. }
    intros _. destruct (negb (truthy v)); [apply keeps_ret|].
    apply keeps_bind_lift. intros reviews Hreviews.
    apply keeps_bind.
    + apply keeps_for. intros x m Hx. apply tp_take_seen. intros rd.
      apply Hp. by exists n, p, page_data, v, reviews.
    + intros newly. unfold TP.set_current_page. repeat keeps_step.
  - intros []; [apply IH | apply keeps_ret].
Qed.

Lemma tp_collect_seen (w : TP.server) (max_pages : Z) (fuel : nat)
    (P : record -> Prop) :
  (forall x rd, tp_sent w x ->
     TP.parse_trustpilot_review_data x = Ok rd -> P rd) ->
  all_seen P (fst (TP.collect w max_pages fuel)).
Proof.
  intros Hp. unfold TP.collect. apply tp_page_loop_seen; [done|constructor].
Qed.

End TPSeen.

(** ** Where the returned records come from *)

Lemma elem_of_pop_all (ks : list string) (l : list record) (r : record) :
  r ∈ pop_all ks l <->
  exists r0, r0 ∈ l /\ r = foldl (fun r k => delete k r) r0 ks.
Proof.
  unfold pop_all. split.
  - intros (r0 & -> & Hr0)%list_elem_of_fmap. eauto.
  - intros (r0 & Hr0 & ->). apply list_elem_of_fmap. eauto.
Qed.

Lemma opt_str_truthy (o : option string) :
  truthy (opt_str o) = true -> exists id, o = Some id /\ id <> "".
Proof.
  destruct o as [id|]; [|done]. simpl. intros Hid. exists id. split; [done|].
  intros ->. done.
Qed.

Section Provenance.
Context `{PyLib}.

Lemma v1_record_dom (div : tag) :
  dom (delete "review_id" (v1_record div)) = list_to_set trustindex_columns.
Proof.
  unfold v1_record, trustindex_columns.
  rewrite dom_delete_L, !dom_insert_L, dom_empty_L. set_solver.
Qed.

Lemma v2_record_dom (id : string) (div : tag) :
  dom (delete "review_id" (v2_record id div)) = list_to_set trustindex_columns.
Proof.
  unfold v2_record, trustindex_columns.
  rewrite dom_delete_L, !dom_insert_L, dom_empty_L. set_solver.
Qed.

Lemma v1_record_key (div : tag) :
  is_Some (trustindex_key (v1_record div)) ->
  exists id, tag_get "data-id" div = Some id /\ id <> "".
Proof.
  unfold trustindex_key. destruct (nonempty _); [|by intros [? [=]]].
  assert (v1_record div !! "review_id" = Some (opt_str (tag_get "data-id" div)))
    as -> by (unfold v1_record; by simplify_map_eq).
  destruct (truthy _) eqn:Ht; [|by intros [? [=]]].
  intros _. by apply opt_str_truthy.
Qed.

Lemma v2_parse_inv (div : tag) (rd : record) :
  V2.parse_review_div div = Ok (Some rd) ->
  exists id, tag_get "data-id" div = Some id /\ id <> "" /\ rd = v2_record id div.
Proof.
  intros Hp. destruct (tag_get "data-id" div) as [id|] eqn:Hid.
  - destruct (decide (id = "")) as [->|Hne].
    + rewrite v2_parse_none in Hp by auto. done.
    + rewrite (v2_parse_some _ _ Hid Hne) in Hp. injection Hp as <-. eauto.
  - rewrite v2_parse_none in Hp by auto. done.
Qed.

Lemma tp_parse_dom (review_json : pyval) (r : record) :
  TP.parse_trustpilot_review_data review_json = Ok r ->
  dom (delete "consumer_id" (delete "id" r)) = list_to_set trustpilot_columns.
Proof.
  unfold TP.parse_trustpilot_review_data. cbn [bind ret result_monad].
  intros Hp.
  repeat match type of Hp with
  | match ?m with Ok _ => _ | Raise _ => _ end = _ =>
      destruct m; [|discriminate Hp]
  end.
  injection Hp as <-. unfold trustpilot_columns.
  rewrite !dom_delete_L, !dom_insert_L, dom_empty_L. set_solver.
Qed.

(** What holds of the record of every element shown holds of every
    record the run accumulates. *)
Lemma v1_accumulated (w : V1.browser) (max_loops : Z) (P : record -> Prop) :
  (forall div, v1_shown w div -> P (v1_record div)) ->
  exists s : state unit,
    V1.extract_reviews_selenium w max_loops =
      Ok (pop_all ["review_id"] (all_reviews_data s)) /\
    Forall (fun r => P r /\ is_Some (trustindex_key r)) (all_reviews_data s).
Proof.
  intros Hp.
  destruct (v1_extract_run w max_loops) as (s & _ & _ & Hc & He & _ & _ & Hd).
  exists s. split; [done|].
  pose proof (v1_collect_seen w max_loops P Hp) as Hs.
  rewrite Hc in Hs. by apply deduplicated_all.
Qed.

Lemma v2_accumulated (w : V2.browser) (max_loops : Z) (P : record -> Prop) :
  (forall div rd, v2_shown w div ->
     V2.parse_review_div div = Ok (Some rd) -> P rd) ->
  exists s : state nat,
    V2.extract_reviews_selenium w max_loops =
      Ok (pop_all ["review_id"] (all_reviews_data s)) /\
    Forall (fun r => P r /\ is_Some (trustindex_key r)) (all_reviews_data s).
Proof.
  intros Hp.
  destruct (v2_extract_run w max_loops) as (s & _ & _ & Hc & He & _ & _ & Hd).
  exists s. split; [done|].
  pose proof (v2_collect_seen w max_loops P Hp) as Hs.
  rewrite Hc in Hs. by apply deduplicated_all.
Qed.

Lemma tp_accumulated (w : TP.server) (max_pages : Z) (fuel : nat)
    (P : record -> Prop) :
  (forall x rd, tp_sent w x ->
     TP.parse_trustpilot_review_data x = Ok rd -> P rd) ->
  exists (s : state TP.page_vars) r,
    TP.collect w max_pages fuel = (s, r) /\
    Forall (fun r => P r /\ is_Some (trustpilot_key r)) (all_reviews_data s).
Proof.
  intros Hp.
  destruct (tp_collect_any w max_pages fuel) as (s & r & Hc & _ & Hd & _).
  exists s, r. split; [done|].
  pose proof (tp_collect_seen w max_pages fuel P Hp) as Hs.
  rewrite Hc in Hs. by apply deduplicated_all.
Qed.

Lemma Forall_pop_all (ks : list string) (P Q : record -> Prop) (l : list record) :
  (forall r, P r -> Q (foldl (fun r k => delete k r) r ks)) ->
  Forall P l -> Forall Q (pop_all ks l).
Proof.
  intros Hpq Hl. apply Forall_forall. intros r (r0 & Hr0 & ->)%elem_of_pop_all.
  rewrite Forall_forall in Hl. auto.
Qed.

(** X7. Every record [extract_reviews_selenium] of trustindex_scraper.py
    returns is made from a review element of a page the browser showed,
    the initial one or one after a click: the element has a non-empty
    ['data-id'], and the record is what [parse_review_div] builds for it
    without ['review_id'], so that its keys are exactly author, body, date,
    rating and source_platform. *)
Theorem v1_records_from_pages (w : V1.browser) (max_loops : Z) :
  exists l,
    V1.extract_reviews_selenium w max_loops = Ok l /\
    Forall (fun r => exists div id,
              v1_shown w div /\
              tag_get "data-id" div = Some id /\ id <> "" /\
              V1.parse_review_div div = Ok (<["review_id" := VStr id]> r) /\
              r = delete "review_id" (v1_record div) /\
              dom r = list_to_set trustindex_columns) l.
Proof.
  destruct (v1_accumulated w max_loops
              (fun r => exists div, v1_shown w div /\ r = v1_record div))
    as (s & -> & Hall); [eauto|].
  eexists. split; [reflexivity|].
  eapply Forall_pop_all; [|exact Hall].
  intros r0 [(div & Hdiv & ->) Hk].
  destruct (v1_record_key div Hk) as (id & Hid & Hne).
  exists div, id. simpl. split; [done|]. split; [done|]. split; [done|].
  split; [|split; [done | apply v1_record_dom]].
  rewrite v1_parse_ok. f_equal. rewrite insert_delete_eq.
  unfold v1_record. by rewrite Hid, insert_insert_eq.
Qed.

(** X8. The same for trustindex_scraper2.py, where the page can also be
    one that [BeautifulSoup] parsed after the source was read. *)
Theorem v2_records_from_pages (w : V2.browser) (max_loops : Z) :
  exists l,
    V2.extract_reviews_selenium w max_loops = Ok l /\
    Forall (fun r => exists div id,
              v2_shown w div /\
              tag_get "data-id" div = Some id /\ id <> "" /\
              V2.parse_review_div div = Ok (Some (<["review_id" := VStr id]> r)) /\
              r = delete "review_id" (v2_record id div) /\
              dom r = list_to_set trustindex_columns) l.
Proof.
  destruct (v2_accumulated w max_loops
              (fun r => exists div, v2_shown w div /\
                          V2.parse_review_div div = Ok (Some r)))
    as (s & -> & Hall); [eauto|].
  eexists. split; [reflexivity|].
  eapply Forall_pop_all; [|exact Hall].
  intros r0 [(div & Hdiv & Hp) _].
  destruct (v2_parse_inv div r0 Hp) as (id & Hid & Hne & ->).
  exists div, id. simpl. split; [done|]. split; [done|]. split; [done|].
  split; [|split; [done | apply v2_record_dom]].
  rewrite Hp. by do 2 f_equal.
Qed.

(** X9. Every record [extract_trustpilot_reviews] returns is made from a
    review object of a page the server sent: [parse_trustpilot_review_data]
    returned a record for the object, its ['id'] can be hashed, and the
    record returned is that one without ['id'] and ['consumer_id'], so
    that its keys are exactly the twelve of [trustpilot_columns]. *)
Theorem tp_records_from_pages (w : TP.server) (max_pages : Z) (fuel : nat)
    (l : list record) :
  TP.extract_trustpilot_reviews w max_pages fuel = Some (Ok l) ->
  Forall (fun r => exists x r0,
            tp_sent w x /\
            TP.parse_trustpilot_review_data x = Ok r0 /\
            is_Some (trustpilot_key r0) /\
            r = delete "consumer_id" (delete "id" r0) /\
            dom r = list_to_set trustpilot_columns) l.
Proof.
  destruct (tp_accumulated w max_pages fuel
              (fun r => exists x, tp_sent w x /\
                          TP.parse_trustpilot_review_data x = Ok r))
    as (s & r & Hc & Hall); [eauto|].
  rewrite (tp_extract_cases _ _ _ _ _ Hc).
  destruct r as [[[]|]|e]; try done. intros [= <-].
  eapply Forall_pop_all; [|exact Hall].
  intros r0 [(x & Hx & Hp) Hk].
  exists x, r0. simpl. split; [done|]. split; [done|]. split; [done|].
  split; [done|]. by eapply tp_parse_dom.
Qed.

End Provenance.

Lemma server_three_run :
  TP.extract_trustpilot_reviews server_three 0 5 = Some (Ok server_three_reviews).
Proof. vm_cast_no_check (@eq_refl _ (Some (Ok server_three_reviews))). Qed.

(** [tp_records_from_pages] at the run on [server_three]. *)
Lemma tp_records_from_pages_witness :
  Forall (fun r => exists x r0,
            tp_sent server_three x /\
            TP.parse_trustpilot_review_data x = Ok r0 /\
            is_Some (trustpilot_key r0) /\
            r = delete "consumer_id" (delete "id" r0) /\
            dom r = list_to_set trustpilot_columns)
    server_three_reviews.
Proof.
  exact (tp_records_from_pages server_three 0 5 _ server_three_run).
Defined.

(** ** The files the scripts write *)

Section Files.
Import Writers.

Lemma fieldnames_of_same_dom (l : list record) (columns : list string) :
  l <> [] -> Forall (fun r => dom r = list_to_set columns) l ->
  Sorted String.le columns -> NoDup columns ->
  fieldnames_of l = columns.
Proof.
  intros Hl Hdom Hs Hn.
  destruct (fieldnames_of_spec l) as (Hs1 & Hn1 & Hm1).
  apply (Sorted_unique String.le); [done|done|].
  apply NoDup_Permutation; [done|done|].
  intros k. rewrite Hm1. rewrite Forall_forall in Hdom. split.
  - intros (r & Hr & Hk). apply elem_of_dom in Hk. rewrite (Hdom r Hr) in Hk.
    by apply elem_of_list_to_set in Hk.
  - intros Hk. destruct l as [|r l]; [done|]. exists r. split; [left|].
    apply elem_of_dom. rewrite (Hdom r) by left. by apply elem_of_list_to_set.
Qed.

Lemma trustindex_columns_sorted :
  Sorted String.le trustindex_columns /\ NoDup trustindex_columns.
Proof.
  split; [repeat constructor | apply NoDup_ListNoDup; repeat constructor];
    rewrite ?elem_of_list_In; simpl; intuition discriminate.
Qed.

Lemma trustpilot_columns_sorted :
  Sorted String.le trustpilot_columns /\ NoDup trustpilot_columns.
Proof.
  split; [repeat constructor | apply NoDup_ListNoDup; repeat constructor];
    rewrite ?elem_of_list_In; simpl; intuition discriminate.
Qed.

Lemma excel_some (io : file_io) (l : list record) (f : rows) :
  write_reviews_to_excel io l = Some f -> f = table (fieldnames_of l) l.
Proof.
  unfold write_reviews_to_excel, table. destruct l as [|r l]; [done|].
  destruct (write_rows io _) as [ws [u|e]] eqn:Hw; [|done].
  destruct (save io); [|done]. intros [= <-].
  pose proof (write_rows_complete io _ u (f_equal snd Hw)) as Hc.
  by rewrite Hw in Hc.
Qed.

Lemma csv_some (io : file_io) (l : list record) (f : rows) :
  write_reviews_to_csv io l = Some f ->
  f `prefix_of` table (fieldnames_of l) l.
Proof.
  unfold write_reviews_to_csv, table. destruct l as [|r l]; [done|].
  destruct (open_ io); [|done]. intros Hf. injection Hf as <-.
  exact (write_rows_prefix io (map VStr (fieldnames_of (r :: l)) :: _)).
Qed.

End Files.

Section Scripts.
Context `{PyLib}.
Import Writers.

Lemma v1_returned_columns (w : V1.browser) (max_loops : Z) :
  exists l, V1.extract_reviews_selenium w max_loops = Ok l /\
    Forall (fun r => dom r = list_to_set trustindex_columns) l.
Proof.
  destruct (v1_accumulated w max_loops
              (fun r => dom (delete "review_id" r) = list_to_set trustindex_columns))
    as (s & -> & Hall); [intros; apply v1_record_dom|].
  eexists. split; [reflexivity|].
  eapply Forall_pop_all; [|exact Hall]. by intros r [Hr _].
Qed.

Lemma v2_returned_columns (w : V2.browser) (max_loops : Z) :
  exists l, V2.extract_reviews_selenium w max_loops = Ok l /\
    Forall (fun r => dom r = list_to_set trustindex_columns) l.
Proof.
  destruct (v2_accumulated w max_loops
              (fun r => dom (delete "review_id" r) = list_to_set trustindex_columns))
    as (s & -> & Hall).
  { intros div rd _ (id & _ & _ & ->)%v2_parse_inv. apply v2_record_dom. }
  eexists. split; [reflexivity|].
  eapply Forall_pop_all; [|exact Hall]. by intros r [Hr _].
Qed.

Lemma tp_returned_columns (w : TP.server) (max_pages : Z) (fuel : nat)
    (l : list record) :
  TP.extract_trustpilot_reviews w max_pages fuel = Some (Ok l) ->
  Forall (fun r => dom r = list_to_set trustpilot_columns) l.
Proof.
  destruct (tp_accumulated w max_pages fuel
              (fun r => dom (delete "consumer_id" (delete "id" r)) =
                        list_to_set trustpilot_columns))
    as (s & r & Hc & Hall).
  { intros x rd _ Hp. by eapply tp_parse_dom. }
  rewrite (tp_extract_cases _ _ _ _ _ Hc).
  destruct r as [[[]|]|e]; try done. intros [= <-].
  eapply Forall_pop_all; [|exact Hall]. by intros r [Hr _].
Qed.

(** The two files written for a list of records that all have the keys
    [columns]. *)
Lemma files_of_columns (csv excel : file_io) (l : list record)
    (columns : list string) :
  Forall (fun r => dom r = list_to_set columns) l ->
  Sorted String.le columns -> NoDup columns ->
  (l = [] ->
     write_reviews_to_csv csv l = None /\ write_reviews_to_excel excel l = None) /\
  (forall f, write_reviews_to_csv csv l = Some f ->
     f `prefix_of` table columns l) /\
  (forall f, write_reviews_to_excel excel l = Some f -> f = table columns l).
Proof.
  intros Hdom Hs Hn. split; [by intros ->|].
  destruct (decide (l = [])) as [->|Hl]; [done|].
  rewrite <- (fieldnames_of_same_dom l columns) by done.
  split; intros f; [apply csv_some | apply excel_some].
Qed.



(** X12. When [extract_trustpilot_reviews] returns a list, the main
    block of trustpilot_scraper.py does not raise. With an empty list it
    writes no file. Otherwise the sheet, if one is saved, is the table of
    the returned records under the twelve column names of
    [trustpilot_columns] in this order, and the CSV file, if it is opened,
    holds the first rows of the same table. *)
Theorem tp_main_files (w : TP.server) (pages : Z) (fuel : nat)
    (csv excel : file_io) (l : list record) :
  TP.extract_trustpilot_reviews w pages fuel = Some (Ok l) ->
  exists csv_file excel_file,
    tp_main w pages fuel csv excel = Some (Ok (csv_file, excel_file)) /\
    (l = [] -> csv_file = None /\ excel_file = None) /\
    (forall f, csv_file = Some f -> f `prefix_of` table trustpilot_columns l) /\
    (forall f, excel_file = Some f -> f = table trustpilot_columns l).
Proof.
  intros He. pose proof (tp_returned_columns w pages fuel l He) as Hdom.
  destruct trustpilot_columns_sorted as [Hs Hn].
  destruct (files_of_columns csv excel l _ Hdom Hs Hn) as (Hnil & Hc & Hx).
  unfold tp_main. rewrite He. cbn [bind ret result_monad].
  destruct l as [|r l].
  - by exists None, None.
  - by exists (write_reviews_to_csv csv (r :: l)),
      (write_reviews_to_excel excel (r :: l)).
Qed.

End Scripts.

(** [tp_main_files] at the run on [server_three], with files that take
    everything. *)
Lemma tp_main_files_witness :
  let io := Writers.FileIO (Ok tt) (fun _ => Ok tt) (Ok tt) in
  let l := server_three_reviews in
  exists csv_file excel_file,
    tp_main server_three 0 5 io io = Some (Ok (csv_file, excel_file)) /\
    (l = [] -> csv_file = None /\ excel_file = None) /\
    (forall f, csv_file = Some f -> f `prefix_of` table trustpilot_columns l) /\
    (forall f, excel_file = Some f -> f = table trustpilot_columns l).
Proof.
  intros io l.
  exact (tp_main_files server_three 0 5 io io l server_three_run).
Defined.

(** ** The page limit *)

Section Limit.
Context `{PyLib}.

(** [min(v, n)], when it has a limit, has one that is at most [n]. *)
Lemma py_min_limit (v : pyval) (n : Z) (m : pyval) :
  0 <= n -> py_min v n = Ok m -> unbounded m = false -> limit m <= n.
Proof.
  intros Hn. unfold py_min. destruct (as_int v) as [t|] eqn:Hi.
  - intros [= <-] _. destruct (Z.ltb_spec n t); [simpl; lia|].
    destruct v; try done; simpl in *; injection Hi as <-; [by destruct b|lia].
  - destruct v as [| | |f| | |]; try done. intros [= <-].
    unfold int_lt_float.
    destruct f as [|negative|negative mant e]; cbn [int_cmp_float].
    + done.
    + destruct negative; [simpl; lia | intros _; simpl; lia].
    + set (mz := if negative then - Z.of_N mant else Z.of_N mant).
      destruct (Z.leb_spec 0 e) as [He|He].
      * destruct (Z.compare_spec n (mz * 2 ^ e)); intros _; simpl; fold mz;
          try lia.
        all: assert ((0 <=? e) = true) as -> by lia; lia.
      * assert (Hd : 0 < 2 ^ (- e)) by (apply Z.pow_pos_nonneg; lia).
        destruct (Z.compare_spec (n * 2 ^ (- e)) mz) as [Heq|Hlt|Hgt];
          intros _; simpl; fold mz; try lia.
        all: assert ((0 <=? e) = false) as -> by lia.
        all: assert (- n <= (- mz) / 2 ^ (- e)); [|lia].
        all: apply Z.div_le_lower_bound; [done|]; lia.
Qed.

(** X13. With a limit [max_pages > 0] the Trustpilot run requests at
    least one page and at most [max_pages], whatever the server sends,
    unless the [totalPages] of the first page is [nan]: the loop reaches a
    [break] or raises within that many requests. *)
Theorem tp_requests_limit (w : TP.server) (max_pages : Z) :
  0 < max_pages -> endless w max_pages = false ->
  exists fuel0 s r,
    r <> Ok None /\
    (forall fuel, (fuel0 <= fuel)%nat ->
       TP.collect w max_pages fuel = (s, r)) /\
    1 <= Z.of_nat (length (requests (trace s))) <= max_pages.
Proof.
  intros Hmax Hend.
  destruct (tp_collect_run w max_pages Hend)
    as (fuel0 & s & r & rds & Hr & Hc & Hpt & _ & _ & Hcase).
  exists fuel0, s, r. split; [done|]. split; [exact Hc|]. split.
  { destruct (pages_trace_requests _ _ _ _ _ Hpt) as (k & Hreq & Hk & _).
    rewrite (length_requests_seq _ _ _ Hreq). specialize (Hk Hr). lia. }
  destruct Hcase as [[-> _] | (pd & v & Hg & _ & _ & Hlen & Hge)].
  { simpl. lia. }
  unfold endless in Hend. rewrite Hg in Hend.
  assert (Hlim : limit (TP.total_pages
                          (after_read pd (TP.PageVars 1 (VInt 1) max_pages)))
                 <= max_pages).
  { revert Hend Hge. unfold after_read.
    cbn [TP.max_pages TP.total_pages TP.current_page].
    destruct (TP.lookup_total_pages pd) as [tp|e].
    - assert ((0 <? max_pages) = true) as -> by lia.
      destruct (py_min tp max_pages) as [m|e] eqn:Hm; cbn [TP.total_pages].
      + intros Hub _. eapply py_min_limit; [|exact Hm|exact Hub]. lia.
      + intros _ Hge. unfold py_min in Hm. unfold py_ge in Hge.
        destruct (as_int tp); [done|]. by destruct tp.
    - assert ((max_pages =? 0) = false) as -> by lia.
      cbn. by intros _ [=]. }
  unfold need in Hlen. rewrite after_read_current in Hlen.
  cbn [TP.current_page] in Hlen. lia.
Qed.

End Limit.

(** [tp_requests_limit] at [server_three] with a limit of two pages. *)
Lemma tp_requests_limit_witness :
  exists fuel0 s r,
    r <> Ok None /\
    (forall fuel, (fuel0 <= fuel)%nat ->
       TP.collect server_three 2 fuel = (s, r)) /\
    1 <= Z.of_nat (length (requests (trace s))) <= 2.
Proof.
  apply (tp_requests_limit server_three 2); [lia | reflexivity].
Defined.

(** ** The pages the first Trustindex script reads *)

Section V1Exact.
Context `{PyLib}.

Lemma v1_records_cons (soup : tag) (soups : list tag) :
  v1_records (soup :: soups) =
  (v1_record <$> find_all "div" (Some "review") soup) ++ v1_records soups.
Proof. unfold v1_records. simpl. by rewrite fmap_app. Qed.

Lemma v1_records_app (soups1 soups2 : list tag) :
  v1_records (soups1 ++ soups2) = v1_records soups1 ++ v1_records soups2.
Proof. unfold v1_records. by rewrite fmap_app, concat_app, fmap_app. Qed.

(** The body of the loop over the elements does not raise. *)
Lemma v1_take_ok (div : tag) (n : nat) (s : state unit) :
  V1.take div n s =
  (seen_step trustindex_key s (v1_record div),
   Ok (if is_stored trustindex_key (v1_record div)
            (logged (EvSeen (v1_record div)) s)
       then S n else n)).
Proof.
  assert (Hid : v1_record div !! "review_id" =
                Some (opt_str (tag_get "data-id" div))).
  { unfold v1_record. by simplify_map_eq. }
  unfold V1.take. rewrite v1_parse_ok.
  generalize dependent (v1_record div). intros rd Hid.
  unfold seen_step, stored, is_stored, trustindex_key, V1.is_new.
  change (lift (Ok rd)) with (ret rd : M unit record).
  cbn [bind ret M_monad]. cbn.
  destruct (nonempty rd); cbn; [|done].
  unfold getitem. rewrite Hid. cbn.
  destruct (truthy _); cbn; [|done].
  unfold py_hash. destruct (tag_get "data-id" div) as [id|]; cbn;
    (case_decide;
     [rewrite bool_decide_eq_false_2 by auto
     |rewrite bool_decide_eq_true_2 by auto]; done).
Qed.

Lemma v1_for_ok (divs : list tag) (n : nat) (s : state unit) :
  exists n',
    for_ divs n V1.take s =
      (foldl (seen_step trustindex_key) s (v1_record <$> divs), Ok n') /\
    (n <= n')%nat /\
    length (all_reviews_data
              (foldl (seen_step trustindex_key) s (v1_record <$> divs))) =
      (length (all_reviews_data s) + (n' - n))%nat.
Proof.
  revert n s. induction divs as [|div divs IH]; intros n s.
  - exists n. split; [done|]. simpl. lia.
  - rewrite for_cons, run_bind, v1_take_ok. cbn [fst snd fmap list_fmap foldl].
    pose proof (seen_step_all trustindex_key s (v1_record div)) as Hall.
    destruct (is_stored _ _ _).
    + destruct (IH (S n) (seen_step trustindex_key s (v1_record div)))
        as (n' & Hrun & Hle & Hlen).
      exists n'. split; [exact Hrun|]. split; [lia|].
      etrans; [exact Hlen|]. rewrite Hall, length_app. simpl. lia.
    + destruct (IH n (seen_step trustindex_key s (v1_record div)))
        as (n' & Hrun & Hle & Hlen).
      exists n'. split; [exact Hrun|]. split; [lia|].
      etrans; [exact Hlen|]. rewrite Hall, length_app. simpl. lia.
Qed.

Lemma seen_steps_seen {L} key (s : state L) (rds : list record) :
  seen (trace (foldl (seen_step key) s rds)) = seen (trace s) ++ rds.
Proof. by rewrite seen_steps_trace, seen_app, seen_seen. Qed.

(** The 'More' loop from a state whose accumulators agree with the log:
    the pages it reads are those after the clicks that succeed, one after
    the other, and it reads every element of each. *)
Lemma v1_more_loop_exact (w : V1.browser) (remaining c : nat) (s : state unit) :
  deduplicated trustindex_key s ->
  exists soups s',
    V1.more_loop w remaining c s = (s', Ok tt) /\
    (length soups <= remaining)%nat /\
    (forall k soup, soups !! k = Some soup -> v1_click w (c + k) = Ok soup) /\
    seen (trace s') = seen (trace s) ++ v1_records soups /\
    deduplicated trustindex_key s' /\
    ((length soups < remaining)%nat ->
       (exists e, v1_click w (c + length soups) = Raise e) \/
       exists soups' soup,
         soups = soups' ++ [soup] /\
         first_seen trustindex_key ∅ (seen (trace s) ++ v1_records soups') =
         first_seen trustindex_key ∅ (seen (trace s) ++ v1_records soups)).
Proof.
  revert c s. induction remaining as [|remaining IH]; intros c s Hd.
  { exists [], s. unfold v1_records. simpl. rewrite app_nil_r.
    split; [done|]. split; [done|]. split; [by intros k soup [=]|].
    split; [done|]. split; [done|]. lia. }
  cbn [V1.more_loop]. rewrite run_bind. cbn [log modify fst snd].
  rewrite run_bind, run_try_catch, v1_click_more_run.
  set (s0 := State (all_reviews_data s) (review_ids s)
               (trace s ++ [EvClick c]) (locals s)).
  assert (Hseen0 : seen (trace s0) = seen (trace s)).
  { unfold s0. simpl. rewrite seen_app. simpl. by rewrite app_nil_r. }
  assert (Hd0 : deduplicated trustindex_key s0).
  { destruct Hd as [Ha Hi]. split; [by rewrite Hseen0 | done]. }
  fold (v1_click w c). destruct (v1_click w c) as [soup|e] eqn:Hclick.
  2: { exists [], s0. unfold v1_records. cbn. rewrite app_nil_r, Nat.add_0_r.
       split; [done|]. split; [lia|]. split; [by intros k soup [=]|].
       split; [done|]. split; [done|]. intros _. left. eauto. }
  destruct (v1_for_ok (find_all "div" (Some "review") soup) O s0)
    as (newly & -> & _ & Hlen).
  set (rds := v1_record <$> find_all "div" (Some "review") soup) in *.
  set (s1 := foldl (seen_step trustindex_key) s0 rds) in *.
  assert (Hrds : v1_records [soup] = rds).
  { unfold v1_records, rds. simpl. by rewrite app_nil_r. }
  assert (Hseen1 : seen (trace s1) = seen (trace s) ++ rds).
  { unfold s1. by rewrite seen_steps_seen, Hseen0. }
  assert (Hd1 : deduplicated trustindex_key s1)
    by by apply seen_steps_deduplicated.
  set (s2 := logged (EvPass newly) s1).
  assert (Hseen2 : seen (trace s2) = seen (trace s) ++ rds).
  { unfold s2. simpl. rewrite seen_app. simpl. by rewrite app_nil_r. }
  assert (Hd2 : deduplicated trustindex_key s2).
  { destruct Hd1 as [Ha Hi]. split; [by rewrite Hseen2, <- Hseen1 | done]. }
  destruct newly as [|n]; cbn [Nat.eqb].
  { exists [soup], s2. rewrite Hrds.
    split; [done|]. split; [simpl; lia|]. split.
    { intros [|k] soup' [=]. subst. by rewrite Nat.add_0_r. }
    split; [done|]. split; [done|]. intros _. right. exists [], soup.
    split; [done|]. unfold v1_records at 1. simpl. rewrite app_nil_r.
    destruct Hd0 as [Ha0 _], Hd1 as [Ha1 _].
    rewrite <- Hseen1, <- Ha1, <- Hseen0, <- Ha0.
    pose proof (seen_steps_prefix trustindex_key s0 rds) as [k Hk].
    fold s1 in Hk. rewrite Hk in Hlen. rewrite length_app in Hlen.
    destruct k; [by rewrite app_nil_r in Hk | simpl in Hlen; lia]. }
  cbn. destruct (IH (S c) s2 Hd2)
    as (soups & s' & -> & Hle & Hclicks & Hseen & Hd' & Hstop).
  exists (soup :: soups), s'. split; [done|]. split; [simpl; lia|]. split.
  { intros [|k] soup' Hk; simpl in Hk.
    - injection Hk as <-. by rewrite Nat.add_0_r.
    - rewrite <- Nat.add_succ_comm. by apply Hclicks. }
  rewrite v1_records_cons. fold rds.
  split; [by rewrite Hseen, Hseen2, <- app_assoc|]. split; [done|].
  intros Hlt. simpl in Hlt.
  destruct Hstop as [[e He] | (soups' & soup' & -> & Heq)]; [lia| |].
  - left. exists e. simpl. by rewrite <- Nat.add_succ_comm.
  - right. exists (soup :: soups'), soup'. split; [done|].
    rewrite !v1_records_cons. fold rds. rewrite Hseen2 in Heq.
    by rewrite <- !app_assoc in Heq.
Qed.

(** X14. When the browser starts and shows the initial page,
    [extract_reviews_selenium] of trustindex_scraper.py reads every review
    element of the initial page and of the pages shown after the clicks
    0, 1, ..., one after the other, and returns the first record of each
    identifier without its ['review_id']. It reads at most [max_loops]
    pages after clicks (none when [max_loops <= 0]), and it stops before
    that only when a click or the reading of the page source raises, or
    when the last page read added no record. *)
Theorem v1_reads_every_element (w : V1.browser) (max_loops : Z) (soup0 : tag) :
  V1.start w = Ok tt -> V1.initial_page w = Ok soup0 ->
  exists soups,
    (length soups <= Z.to_nat max_loops)%nat /\
    (forall k soup, soups !! k = Some soup -> v1_click w k = Ok soup) /\
    V1.extract_reviews_selenium w max_loops =
      Ok (pop_all ["review_id"]
            (first_seen trustindex_key ∅ (v1_records (soup0 :: soups)))) /\
    ((length soups < Z.to_nat max_loops)%nat ->
       (exists e, v1_click w (length soups) = Raise e) \/
       exists soups' soup,
         soups = soups' ++ [soup] /\
         first_seen trustindex_key ∅ (v1_records (soup0 :: soups')) =
         first_seen trustindex_key ∅ (v1_records (soup0 :: soups))).
Proof.
  intros Hstart Hpage.
  set (rds := v1_record <$> find_all "div" (Some "review") soup0).
  set (s1 := foldl (seen_step trustindex_key) V1.initial_state rds).
  assert (Hd1 : deduplicated trustindex_key s1).
  { by apply seen_steps_deduplicated. }
  assert (Hseen1 : seen (trace s1) = rds).
  { unfold s1. by rewrite seen_steps_seen. }
  destruct (v1_more_loop_exact w (Z.to_nat max_loops) O s1 Hd1)
    as (soups & s' & Hrun & Hle & Hclicks & Hseen & [Ha _] & Hstop).
  exists soups. split; [done|]. split; [exact Hclicks|].
  rewrite !v1_records_cons. fold rds. rewrite Hseen1 in Hseen, Hstop.
  split.
  - unfold V1.extract_reviews_selenium, V1.collect, V1.scrape.
    rewrite run_try_catch, run_bind, Hstart. unfold lift at 1.
    rewrite run_bind, Hpage. unfold lift at 1. rewrite run_bind.
    destruct (v1_for_ok (find_all "div" (Some "review") soup0) O V1.initial_state)
      as (n & -> & _). fold rds s1. cbn [fst snd]. rewrite Hrun. cbn [fst snd].
    by rewrite Ha, Hseen.
  - intros Hlt. destruct (Hstop Hlt) as [He | (soups' & soup & -> & Heq)];
      [by left|].
    right. exists soups', soup. split; [done|]. by rewrite !v1_records_cons.
Qed.

End V1Exact.

(** ** The pages the Trustpilot script reads *)

Section TPExact.
Context `{PyLib}.

(** The body of the loop over the reviews does not raise on a review that
    can be stored. *)
Lemma tp_take_ok (x : pyval) (rd : record) (n : nat) (s : state TP.page_vars) :
  TP.parse_trustpilot_review_data x = Ok rd -> is_Some (trustpilot_key rd) ->
  TP.take x n s =
  (seen_step trustpilot_key s rd,
   Ok (if is_stored trustpilot_key rd (logged (EvSeen rd) s) then S n else n)).
Proof.
  intros Hp [k Hk]. unfold TP.take. rewrite Hp. revert Hk.
  unfold seen_step, stored, is_stored, trustpilot_key, TP.is_new, getitem,
    not_in_ids, py_hash.
  change (lift (Ok rd)) with (ret rd : M TP.page_vars record).
  cbn [bind ret M_monad]. cbn.
  destruct (nonempty rd); cbn; [|done].
  destruct (rd !! "id") as [v|]; cbn; [|done].
  destruct (key_of v) as [k'|] eqn:Hkv; cbn; [|done]. intros _.
  case_decide;
    [rewrite bool_decide_eq_false_2 by auto | rewrite bool_decide_eq_true_2 by auto];
    unfold py_hash, logged; rewrite ?Hkv; done.
Qed.

Lemma tp_for_ok (reviews : list pyval) (n : nat) (s : state TP.page_vars) :
  Forall tp_storable reviews ->
  exists n',
    for_ reviews n TP.take s =
      (foldl (seen_step trustpilot_key) s (omap tp_parsed reviews), Ok n').
Proof.
  intros Hok. revert n s.
  induction Hok as [|x reviews (rd & Hp & Hk) _ IH]; intros n s.
  - by exists n.
  - rewrite for_cons, run_bind, (tp_take_ok x rd n s Hp Hk). cbn [fst snd].
    cbn [omap list_omap]. unfold tp_parsed at 1. rewrite Hp. cbn [foldl].
    apply IH.
Qed.

Lemma tp_records_cons (l : list pyval) (pages : list (list pyval)) :
  tp_records (l :: pages) = omap tp_parsed l ++ tp_records pages.
Proof. unfold tp_records. simpl. by rewrite omap_app. Qed.

(** The second [try] block on a page whose reviews can all be stored,
    [total_pages] being the integer [T] when the reviews are read. *)
Lemma tp_visit_healthy (page_data : pyval) (reviews : list pyval)
    (s : state TP.page_vars) (T : Z) :
  TP.reviews_of page_data = Ok (VList reviews) -> reviews <> [] ->
  Forall tp_storable reviews ->
  let cur := TP.current_page (locals s) in
  let s1 := if cur =? 1
            then with_locals (after_read page_data (locals s)) s else s in
  TP.total_pages (locals s1) = VInt T ->
  exists m,
    try_catch (TP.visit (Some (Ok page_data))) except_Exception
      (fun _ => ret Break) s =
    let s3 := logged (EvPass m)
                (foldl (seen_step trustpilot_key) s1 (omap tp_parsed reviews)) in
    if T <=? cur then (s3, Ok Break)
    else (with_locals (TP.PageVars (cur + 1) (VInt T) (TP.max_pages (locals s1))) s3,
          Ok Continue).
Proof.
  intros Hrev Hne Hok cur s1 HT.
  rewrite tp_visit_run, Hrev. cbv zeta. fold cur. fold s1.
  assert (truthy (VList reviews) = true) as -> by by destruct reviews.
  cbn [negb py_iter].
  destruct (tp_for_ok reviews O s1 Hok) as (m & ->).
  exists m. cbn [logged locals]. rewrite seen_steps_locals, HT.
  unfold py_ge. cbn [as_int]. by destruct (T <=? cur).
Qed.

(** The loop from page [p >= 2] on, when the pages [p], ..., [T] are
    healthy and [total_pages] is [T]. *)
Lemma tp_healthy_loop (w : TP.server) (T : Z) (page : Z -> pyval)
    (reviews : Z -> list pyval) (k : nat) (s : state TP.page_vars) :
  (forall p, 1 <= p <= T -> tp_healthy w p (page p) (reviews p)) ->
  2 <= TP.current_page (locals s) <= T ->
  Z.of_nat k = T - TP.current_page (locals s) ->
  TP.total_pages (locals s) = VInt T ->
  length (requests (trace s)) = Z.to_nat (TP.current_page (locals s) - 1) ->
  deduplicated trustpilot_key s ->
  exists s',
    (forall fuel, (S k <= fuel)%nat -> TP.page_loop w fuel s = (s', Ok (Some tt))) /\
    requests (trace s') =
      requests (trace s) ++ seqZ (TP.current_page (locals s)) (Z.of_nat (S k)) /\
    seen (trace s') =
      seen (trace s) ++
      tp_records (reviews <$> seqZ (TP.current_page (locals s)) (Z.of_nat (S k))) /\
    deduplicated trustpilot_key s'.
Proof.
  intros Hw. revert s. induction k as [|k IH]; intros s Hcur Hk HT Hlen Hd.
  all: set (p := TP.current_page (locals s)) in *.
  all: destruct (Hw p ltac:(lia)) as (Hget & Hrev & Hne & Hok).
  all: destruct (tp_visit_healthy (page p) (reviews p)
                   (logged (EvRequest p) s) T Hrev Hne Hok) as [m Hvisit];
    [cbn [logged locals]; fold p;
     by assert ((p =? 1) = false) as -> by lia|].
  all: cbn [logged locals] in Hvisit; fold p in Hvisit;
    assert ((p =? 1) = false) as Hp1 by lia; rewrite Hp1 in Hvisit;
    cbv zeta in Hvisit.
  all: set (s2 := foldl (seen_step trustpilot_key) (logged (EvRequest p) s)
                    (omap tp_parsed (reviews p))) in *.
  all: assert (Hd2 : deduplicated trustpilot_key (logged (EvPass m) s2))
    by (apply logged_deduplicated; [done|];
        apply seen_steps_deduplicated; by apply logged_deduplicated).
  all: assert (Hreq2 : requests (trace (logged (EvPass m) s2)) =
                       requests (trace s) ++ [p])
    by (unfold s2; cbn [logged trace];
        rewrite requests_app, seen_steps_trace; cbn [logged trace];
        rewrite !requests_app, requests_seen; simpl; by rewrite !app_nil_r).
  all: assert (Hseen2 : seen (trace (logged (EvPass m) s2)) =
                        seen (trace s) ++ omap tp_parsed (reviews p))
    by (unfold s2; cbn [logged trace];
        rewrite seen_app, seen_steps_seen; cbn [logged trace];
        rewrite seen_app; simpl; by rewrite !app_nil_r).
  - assert ((T <=? p) = true) as HTp by lia. rewrite HTp in Hvisit.
    exists (logged (EvPass m) s2). split.
    { intros [|fuel] Hfuel; [lia|]. rewrite page_loop_unfold. unfold iteration.
      fold p. rewrite Hlen, Hget, Hvisit. done. }
    change (seqZ p (Z.of_nat 1)) with [p].
    split; [done|]. split; [|done].
    rewrite Hseen2. unfold tp_records. simpl. by rewrite app_nil_r.
  - assert ((T <=? p) = false) as HTp by lia. rewrite HTp in Hvisit.
    set (s3 := with_locals
                 (TP.PageVars (p + 1) (VInt T)
                    (TP.max_pages (locals (logged (EvRequest p) s))))
                 (logged (EvPass m) s2)) in *.
    destruct (IH s3) as (s' & Hrun & Hreq & Hseen & Hd'); cbn [s3 with_locals locals TP.current_page TP.total_pages trace].
    { lia. } { lia. } { done. }
    { rewrite Hreq2, length_app, Hlen. simpl. lia. }
    { destruct Hd2 as [Ha Hi]. by split. }
    exists s'. split.
    { intros [|fuel] Hfuel; [lia|]. rewrite page_loop_unfold. unfold iteration.
      fold p. rewrite Hlen, Hget, Hvisit. apply Hrun. lia. }
    cbn [s3 with_locals locals TP.current_page trace] in Hreq, Hseen.
    rewrite (seqZ_cons p) by lia.
    replace (Z.pred (Z.of_nat (S (S k)))) with (Z.of_nat (S k)) by lia.
    replace (Z.succ p) with (p + 1) by lia.
    rewrite fmap_cons, tp_records_cons.
    split; [by rewrite Hreq, Hreq2, <- app_assoc|].
    split; [by rewrite Hseen, Hseen2, <- app_assoc | done].
Qed.

Lemma after_read_total (page_data : pyval) (N max_pages : Z) :
  TP.lookup_total_pages page_data = Ok (VInt N) ->
  TP.total_pages (after_read page_data (TP.PageVars 1 (VInt 1) max_pages)) =
    VInt (tp_last_page max_pages N) /\
  TP.max_pages (after_read page_data (TP.PageVars 1 (VInt 1) max_pages)) =
    max_pages.
Proof.
  intros Hl. unfold after_read, tp_last_page. rewrite Hl.
  cbn [TP.max_pages TP.total_pages TP.current_page].
  destruct (0 <? max_pages); [|done].
  unfold py_min. cbn [as_int].
  destruct (Z.ltb_spec max_pages N); cbn [TP.max_pages TP.total_pages];
    split; try done; f_equal; lia.
Qed.

(** X15. A run over healthy pages reads them all. When the first page
    gives the integer [N] as [totalPages], and every page from 1 to the
    last one, [min(N, max_pages)] under a limit and [N] without, is
    served with a list of reviews that is not empty and whose reviews are
    parsed and have an ['id'] that can be hashed, the run requests exactly
    the pages 1, 2, ..., last, and returns the first record of each
    identifier among the reviews of these pages, in page order, without
    ['id'] and ['consumer_id']. *)
Theorem tp_reads_every_page (w : TP.server) (max_pages N : Z)
    (page : Z -> pyval) (reviews : Z -> list pyval) :
  1 <= tp_last_page max_pages N ->
  TP.lookup_total_pages (page 1) = Ok (VInt N) ->
  (forall p, 1 <= p <= tp_last_page max_pages N ->
     tp_healthy w p (page p) (reviews p)) ->
  exists fuel0 s,
    (forall fuel, (fuel0 <= fuel)%nat ->
       TP.collect w max_pages fuel = (s, Ok (Some tt)) /\
       TP.extract_trustpilot_reviews w max_pages fuel =
         Some (Ok (pop_all ["id"; "consumer_id"]
                     (first_seen trustpilot_key ∅
                        (tp_records
                           (reviews <$> seqZ 1 (tp_last_page max_pages N))))))) /\
    requests (trace s) = seqZ 1 (tp_last_page max_pages N).
Proof.
  set (T := tp_last_page max_pages N). intros HT Hl Hw.
  destruct (after_read_total (page 1) N max_pages Hl) as [Htot Hmax]. fold T in Htot.
  set (s0 := TP.initial_state max_pages).
  destruct (Hw 1 ltac:(lia)) as (Hget & Hrev & Hne & Hok).
  change (Z.to_nat (1 - 1)) with O in Hget.
  destruct (tp_visit_healthy (page 1) (reviews 1) (logged (EvRequest 1) s0) T
              Hrev Hne Hok) as [m Hvisit]; [exact Htot|].
  cbn [logged locals s0 TP.initial_state TP.current_page Z.eqb Pos.eqb] in Hvisit.
  cbv zeta in Hvisit.
  set (s1 := with_locals (after_read (page 1) (TP.PageVars 1 (VInt 1) max_pages))
               (logged (EvRequest 1) s0)) in *.
  set (s2 := foldl (seen_step trustpilot_key) s1 (omap tp_parsed (reviews 1))) in *.
  assert (Hd2 : deduplicated trustpilot_key (logged (EvPass m) s2)).
  { apply logged_deduplicated; [done|]. by apply seen_steps_deduplicated. }
  assert (Hreq2 : requests (trace (logged (EvPass m) s2)) = [1]).
  { unfold s2. cbn [logged trace]. rewrite requests_app, seen_steps_trace.
    cbn [s1 with_locals logged trace s0 TP.initial_state].
    rewrite !requests_app, requests_seen. done. }
  assert (Hseen2 : seen (trace (logged (EvPass m) s2)) =
                   omap tp_parsed (reviews 1)).
  { unfold s2. cbn [logged trace]. rewrite seen_app, seen_steps_seen.
    cbn [s1 with_locals logged trace s0 TP.initial_state]. simpl.
    by rewrite app_nil_r. }
  assert (Hfinal : forall fuel0 (s : state TP.page_vars),
    (forall fuel, (fuel0 <= fuel)%nat ->
       TP.page_loop w fuel s0 = (s, Ok (Some tt))) ->
    deduplicated trustpilot_key s ->
    seen (trace s) = tp_records (reviews <$> seqZ 1 T) ->
    requests (trace s) = seqZ 1 T ->
    exists fuel0 s,
      (forall fuel, (fuel0 <= fuel)%nat ->
         TP.collect w max_pages fuel = (s, Ok (Some tt)) /\
         TP.extract_trustpilot_reviews w max_pages fuel =
           Some (Ok (pop_all ["id"; "consumer_id"]
                       (first_seen trustpilot_key ∅
                          (tp_records (reviews <$> seqZ 1 T)))))) /\
      requests (trace s) = seqZ 1 T).
  { intros fuel0 s Hrun [Ha _] Hseen Hreq. exists fuel0, s. split; [|done].
    intros fuel Hfuel. split; [by apply Hrun|].
    rewrite (tp_extract_run w max_pages fuel s) by by apply Hrun.
    by rewrite Ha, Hseen. }
  destruct (Z.leb_spec T 1) as [HT1|HT1].
  - assert (T = 1) as HTeq by lia.
    apply (Hfinal 1%nat (logged (EvPass m) s2)); [|done| |].
    + intros [|fuel] Hfuel; [lia|]. rewrite page_loop_unfold. unfold iteration.
      cbn [s0 TP.initial_state locals TP.current_page trace requests omap
           list_omap length].
      fold s0. by rewrite Hget, Hvisit.
    + rewrite Hseen2, HTeq. unfold tp_records. simpl. by rewrite app_nil_r.
    + by rewrite Hreq2, HTeq.
  - set (s3 := with_locals (TP.PageVars (1 + 1) (VInt T) (TP.max_pages (locals s1)))
                 (logged (EvPass m) s2)) in *.
    destruct (tp_healthy_loop w T page reviews (Z.to_nat (T - 2)) s3 Hw)
      as (s' & Hrun & Hreq & Hseen & Hd');
      cbn [s3 with_locals locals TP.current_page TP.total_pages trace].
    { lia. } { lia. } { done. } { by rewrite Hreq2. }
    { destruct Hd2 as [Ha Hi]. by split. }
    cbn [s3 with_locals locals TP.current_page trace] in Hreq, Hseen.
    replace (Z.of_nat (S (Z.to_nat (T - 2)))) with (T - 1) in Hreq, Hseen by lia.
    assert (Hseq : seqZ 1 T = 1 :: seqZ (1 + 1) (T - 1)).
    { rewrite (seqZ_cons 1) by lia; repeat f_equal; lia. }
    apply (Hfinal (S (S (Z.to_nat (T - 2)))) s'); [|done| |].
    + intros [|fuel] Hfuel; [lia|]. rewrite page_loop_unfold. unfold iteration.
      cbn [s0 TP.initial_state locals TP.current_page trace requests omap
           list_omap length].
      fold s0. rewrite Hget, Hvisit. apply Hrun. lia.
    + rewrite Hseen, Hseen2, Hseq. by rewrite fmap_cons, tp_records_cons.
    + by rewrite Hreq, Hreq2, Hseq.
Qed.

End TPExact.

(** [v1_reads_every_element] at [browser_a] with three iterations
    allowed. *)
Lemma v1_reads_every_element_witness :
  exists soups,
    (length soups <= Z.to_nat 3)%nat /\
    (forall k soup, soups !! k = Some soup -> v1_click browser_a k = Ok soup) /\
    V1.extract_reviews_selenium browser_a 3 =
      Ok (pop_all ["review_id"]
            (first_seen trustindex_key ∅ (v1_records (page_one :: soups)))) /\
    ((length soups < Z.to_nat 3)%nat ->
       (exists e, v1_click browser_a (length soups) = Raise e) \/
       exists soups' soup,
         soups = soups' ++ [soup] /\
         first_seen trustindex_key ∅ (v1_records (page_one :: soups')) =
         first_seen trustindex_key ∅ (v1_records (page_one :: soups))).
Proof.
  exact (v1_reads_every_element browser_a 3 page_one eq_refl eq_refl).
Defined.

(** A review object is shown to be storable by running the parse
    function on it. *)
Lemma storable_by_run (x : pyval) :
  match tp_parsed x with
  | Some rd => bool_decide (is_Some (trustpilot_key rd))
  | None => false
  end = true ->
  tp_storable x.
Proof.
  unfold tp_parsed, tp_storable.
  destruct (TP.parse_trustpilot_review_data x) as [rd|e]; [|done].
  intros Hk%bool_decide_eq_true. eauto.
Qed.

Lemma review_1_storable : tp_storable review_1.
Proof. apply storable_by_run. by vm_compute. Qed.

Lemma review_2_storable : tp_storable review_2.
Proof. apply storable_by_run. by vm_compute. Qed.

Lemma server_three_healthy (p : Z) :
  1 <= p <= 2 -> tp_healthy server_three p (page_three p) (reviews_three p).
Proof.
  intros Hp. assert (p = 1 \/ p = 2) as [-> | ->] by lia.
  - split; [reflexivity|]. split; [reflexivity|]. split; [done|].
    repeat constructor. apply review_1_storable.
  - split; [reflexivity|]. split; [reflexivity|]. split; [done|].
    repeat constructor; [apply review_1_storable | apply review_2_storable].
Qed.

(** [tp_reads_every_page] at [server_three] with a limit of two pages:
    the third page, which cannot be fetched, is not asked for. *)
Lemma tp_reads_every_page_witness :
  exists fuel0 s,
    (forall fuel, (fuel0 <= fuel)%nat ->
       TP.collect server_three 2 fuel = (s, Ok (Some tt)) /\
       TP.extract_trustpilot_reviews server_three 2 fuel =
         Some (Ok (pop_all ["id"; "consumer_id"]
                     (first_seen trustpilot_key ∅
                        (tp_records
                           (reviews_three <$> seqZ 1 (tp_last_page 2 3))))))) /\
    requests (trace s) = seqZ 1 (tp_last_page 2 3).
Proof.
  apply (tp_reads_every_page server_three 2 3 page_three reviews_three).
  - vm_compute. discriminate.
  - reflexivity.
  - exact server_three_healthy.
Defined.

(** ** The pages the second Trustindex script reads *)

Section V2Exact.
Context `{PyLib}.

Lemma v2_records_cons (page : result tag) (pages : list (result tag)) :
  v2_records (page :: pages) =
  omap v2_parsed (V2.get_review_divs_from_source page) ++ v2_records pages.
Proof. unfold v2_records. simpl. by rewrite omap_app. Qed.

(** The body of the loop over the elements does not raise: an element
    without identifier is passed over, the record of any other meets the
    deduplication test. *)
Lemma v2_take_ok (div : tag) (n : nat) (s : state nat) :
  V2.take div n s =
  match v2_parsed div with
  | None => (s, Ok n)
  | Some rd =>
      (seen_step trustindex_key s rd,
       Ok (if is_stored trustindex_key rd (logged (EvSeen rd) s)
           then S n else n))
  end.
Proof.
  unfold v2_parsed, V2.take.
  destruct (V2.parse_review_div div) as [[rd|]|e] eqn:Hp.
  3: { destruct (v2_parse_cases div) as [Hn | [rd Hs]]; congruence. }
  2: reflexivity.
  destruct (v2_parse_inv div rd Hp) as (id & Hid & Hne & ->).
  clear Hp Hid.
  assert (Hrid : v2_record id div !! "review_id" = Some (VStr id)).
  { unfold v2_record. by simplify_map_eq. }
  generalize dependent (v2_record id div). intros rd Hrid.
  unfold seen_step, stored, is_stored, trustindex_key, V2.is_new, getitem,
    not_in_ids, py_hash.
  change (lift (Ok (Some rd))) with (ret (Some rd) : M nat (option record)).
  cbn [bind ret M_monad]. cbn. rewrite Hrid.
  destruct (nonempty rd); cbn; [|done].
  assert (negb (id =? "")%string = true) as ->.
  { destruct (String.eqb_spec id ""); [done | reflexivity]. }
  cbn.
  case_decide;
    [rewrite bool_decide_eq_false_2 by auto | rewrite bool_decide_eq_true_2 by auto];
    done.
Qed.

Lemma v2_for_ok (divs : list tag) (n : nat) (s : state nat) :
  exists n',
    for_ divs n V2.take s =
      (foldl (seen_step trustindex_key) s (omap v2_parsed divs), Ok n') /\
    (n <= n')%nat /\
    length (all_reviews_data
              (foldl (seen_step trustindex_key) s (omap v2_parsed divs))) =
      (length (all_reviews_data s) + (n' - n))%nat.
Proof.
  revert n s. induction divs as [|div divs IH]; intros n s.
  - exists n. split; [done|]. simpl. lia.
  - rewrite for_cons, run_bind, v2_take_ok. cbn [omap list_omap].
    destruct (v2_parsed div) as [rd|]; cbn [fst snd foldl]; [|apply IH].
    pose proof (seen_step_all trustindex_key s rd) as Hall.
    destruct (is_stored _ _ _).
    + destruct (IH (S n) (seen_step trustindex_key s rd))
        as (n' & Hrun & Hle & Hlen).
      exists n'. split; [exact Hrun|]. split; [lia|].
      etrans; [exact Hlen|]. rewrite Hall, length_app. simpl. lia.
    + destruct (IH n (seen_step trustindex_key s rd))
        as (n' & Hrun & Hle & Hlen).
      exists n'. split; [exact Hrun|]. split; [lia|].
      etrans; [exact Hlen|]. rewrite Hall, length_app. simpl. lia.
Qed.

(** Step 6 on a page that is read, from a state that is ready. *)
Lemma v2_extract_new_exact (c : V2.more_click) (page : result tag)
    (s : state nat) :
  v2_ready s -> V2.page_source c = Ok page ->
  exists newly,
    let s1 := foldl (seen_step trustindex_key) s
                (omap v2_parsed (V2.get_review_divs_from_source page)) in
    let s2 := logged (EvPass newly) s1 in
    length (all_reviews_data s1) = (length (all_reviews_data s) + newly)%nat /\
    V2.extract_new c s =
    match newly with
    | O => (s2, Ok Break)
    | S _ => (with_locals (size (review_ids s1)) s2, Ok Continue)
    end.
Proof.
  intros [Hd Hl] Hpage. unfold V2.extract_new.
  rewrite run_bind, Hpage. unfold lift at 1. rewrite run_bind.
  destruct (v2_for_ok (V2.get_review_divs_from_source page) O s)
    as (newly & -> & _ & Hlen).
  exists newly. cbv zeta.
  set (s1 := foldl (seen_step trustindex_key) s
               (omap v2_parsed (V2.get_review_divs_from_source page))) in *.
  rewrite Nat.sub_0_r in Hlen. split; [exact Hlen|].
  assert (Hd1 : deduplicated trustindex_key s1) by by apply seen_steps_deduplicated.
  assert (Hl1 : locals s1 = locals s) by apply (seen_steps_locals trustindex_key s).
  assert (Hsz : size (review_ids s1) = (locals s1 + newly)%nat).
  { rewrite (deduplicated_size _ _ Hd1), Hlen, Hl1, Hl.
    by rewrite (deduplicated_size _ _ Hd). }
  cbn -[Nat.eqb size].
  destruct (Nat.eqb_spec (size (review_ids s1)) (locals s1)) as [Heq|Hne].
  - by assert (newly = O) as -> by lia.
  - destruct newly as [|n]; [lia|]. reflexivity.
Qed.

(** The inner [try] statement, as the answers of the browser decide
    it. *)
Lemma v2_click_more_cases (c : V2.more_click) (s : state nat) :
  try_catch (V2.click_more c) except_Exception (fun _ => ret Break) s =
  match V2.press c with
  | Raise _ | Ok Break => (s, Ok Break)
  | Ok Continue =>
      try_catch (V2.extract_new c) except_Exception (fun _ => ret Break) s
  end.
Proof.
  rewrite !run_try_catch. unfold V2.click_more. rewrite run_bind.
  unfold lift at 1. by destruct (V2.press c) as [[]|].
Qed.

(** The 'More' loop from a state that is ready: the pages it reads are
    those the iterations 0, 1, ... hand over, one after the other, and it
    reads every element of each. *)
Lemma v2_more_loop_exact (w : V2.browser) (remaining c : nat) (s : state nat) :
  v2_ready s ->
  exists pages s' r,
    V2.more_loop w remaining c s = (s', r) /\
    (length pages <= remaining)%nat /\
    (forall k page, pages !! k = Some page ->
       v2_click w (c + k) = Ok (Some page)) /\
    seen (trace s') = seen (trace s) ++ v2_records pages /\
    deduplicated trustindex_key s' /\
    ((length pages < remaining)%nat ->
       v2_click w (c + length pages) = Ok None \/
       (exists e, v2_click w (c + length pages) = Raise e) \/
       exists pages' page,
         pages = pages' ++ [page] /\
         first_seen trustindex_key ∅ (seen (trace s) ++ v2_records pages') =
         first_seen trustindex_key ∅ (seen (trace s) ++ v2_records pages)).
Proof.
  revert c s. induction remaining as [|remaining IH]; intros c s Hr.
  { exists [], s, (Ok tt). unfold v2_records. simpl. rewrite app_nil_r.
    destruct Hr as [Hd _].
    split; [done|]. split; [done|]. split; [by intros k page [=]|].
    split; [done|]. split; [done|]. lia. }
  cbn [V2.more_loop]. rewrite run_bind. cbn [log modify fst snd].
  change (State (all_reviews_data s) (review_ids s)
            (trace s ++ [EvClick c]) (locals s))
    with (logged (EvClick c) s).
  set (s0 := logged (EvClick c) s).
  assert (Hseen0 : seen (trace s0) = seen (trace s)).
  { unfold s0. simpl. rewrite seen_app. simpl. by rewrite app_nil_r. }
  assert (Hr0 : v2_ready s0).
  { destruct Hr as [Hd Hl]. split; [|done]. by apply logged_deduplicated. }
  rewrite run_bind. unfold lift at 1.
  assert (Hstop : forall r0,
    (r0 = Ok tt \/ exists e, r0 = Raise e) ->
    v2_click w c = Ok None \/ (exists e, v2_click w c = Raise e) ->
    exists pages s' r,
      (s0, r0) = (s', r) /\
      (length pages <= S remaining)%nat /\
      (forall k page, pages !! k = Some page ->
         v2_click w (c + k) = Ok (Some page)) /\
      seen (trace s') = seen (trace s) ++ v2_records pages /\
      deduplicated trustindex_key s' /\
      ((length pages < S remaining)%nat ->
         v2_click w (c + length pages) = Ok None \/
         (exists e, v2_click w (c + length pages) = Raise e) \/
         exists pages' page,
           pages = pages' ++ [page] /\
           first_seen trustindex_key ∅ (seen (trace s) ++ v2_records pages') =
           first_seen trustindex_key ∅ (seen (trace s) ++ v2_records pages))).
  { intros r0 _ Hclick. exists [], s0, r0. unfold v2_records. simpl.
    rewrite app_nil_r, Nat.add_0_r. destruct Hr0 as [Hd0 _].
    split; [done|]. split; [lia|]. split; [by intros k page [=]|].
    split; [done|]. split; [done|]. intros _.
    destruct Hclick as [?|?]; [by left | by right; left]. }
  unfold v2_click in Hstop |- *.
  destruct (V2.count_before (V2.more w c)) as [nb|e] eqn:Hcb;
    cbn [bind ret result_monad] in Hstop |- *.
  2: { apply (Hstop (Raise e)); [right|right]; eauto. }
  rewrite run_bind, v2_click_more_cases.
  destruct (V2.press (V2.more w c)) as [[]|e] eqn:Hpress;
    cbn [bind ret result_monad] in Hstop |- *.
  2: { apply (Hstop (Ok tt)); [by left | by left]. }
  2: { apply (Hstop (Ok tt)); [by left | right; eauto]. }
  rewrite run_try_catch.
  destruct (V2.page_source (V2.more w c)) as [page|e] eqn:Hpage;
    cbn [bind ret result_monad] in Hstop |- *.
  2: { unfold V2.extract_new. rewrite run_bind, Hpage. unfold lift at 1.
       apply (Hstop (Ok tt)); [by left | right; eauto]. }
  clear Hstop.
  destruct (v2_extract_new_exact (V2.more w c) page s0 Hr0 Hpage)
    as (newly & Hlen & ->).
  set (rds := omap v2_parsed (V2.get_review_divs_from_source page)) in *.
  set (s1 := foldl (seen_step trustindex_key) s0 rds) in *.
  assert (Hrds : v2_records [page] = rds).
  { unfold v2_records, rds. simpl. by rewrite app_nil_r. }
  assert (Hseen1 : seen (trace s1) = seen (trace s) ++ rds).
  { unfold s1. by rewrite seen_steps_seen, Hseen0. }
  destruct Hr0 as [Hd0 Hl0].
  assert (Hd1 : deduplicated trustindex_key s1)
    by by apply seen_steps_deduplicated.
  set (s2 := logged (EvPass newly) s1).
  assert (Hseen2 : seen (trace s2) = seen (trace s) ++ rds).
  { unfold s2. simpl. rewrite seen_app. simpl. by rewrite app_nil_r. }
  assert (Hd2 : deduplicated trustindex_key s2)
    by by apply logged_deduplicated.
  assert (Hclick : v2_click w c = Ok (Some page)).
  { unfold v2_click. by rewrite Hcb, Hpress, Hpage. }
  destruct newly as [|n].
  { exists [page], s2, (Ok tt). rewrite Hrds.
    split; [done|]. split; [simpl; lia|]. split.
    { intros [|k] page' [=]. subst. by rewrite Nat.add_0_r. }
    split; [done|]. split; [done|]. intros _. right. right. exists [], page.
    split; [done|]. unfold v2_records at 1. simpl. rewrite app_nil_r.
    destruct Hd0 as [Ha0 _], Hd1 as [Ha1 _].
    rewrite <- Hseen1, <- Ha1, <- Hseen0, <- Ha0.
    pose proof (seen_steps_prefix trustindex_key s0 rds) as [k Hk].
    fold s1 in Hk. rewrite Hk in Hlen. rewrite length_app in Hlen.
    destruct k; [by rewrite app_nil_r in Hk | simpl in Hlen; lia]. }
  set (s3 := with_locals (size (review_ids s1)) s2).
  assert (Hr3 : v2_ready s3).
  { split; [|reflexivity]. destruct Hd2 as [Ha Hi]. by split. }
  cbn [fst snd].
  destruct (IH (S c) s3 Hr3)
    as (pages & s' & r & -> & Hle & Hclicks & Hseen & Hd' & Hstop).
  exists (page :: pages), s', r. split; [done|]. split; [simpl; lia|]. split.
  { intros [|k] page' Hk; simpl in Hk.
    - injection Hk as <-. by rewrite Nat.add_0_r.
    - rewrite <- Nat.add_succ_comm. by apply Hclicks. }
  rewrite v2_records_cons. fold rds.
  change (seen (trace s3)) with (seen (trace s2)) in Hseen, Hstop.
  split; [by rewrite Hseen, Hseen2, <- app_assoc|]. split; [done|].
  intros Hlt. simpl in Hlt.
  destruct Hstop as [Hn | [[e He] | (pages' & page' & -> & Heq)]]; [lia| | |].
  - left. simpl. by rewrite <- Nat.add_succ_comm.
  - right. left. exists e. simpl. by rewrite <- Nat.add_succ_comm.
  - right. right. exists (page :: pages'), page'. split; [done|].
    rewrite !v2_records_cons. fold rds. rewrite Hseen2 in Heq.
    by rewrite <- !app_assoc in Heq.
Qed.

(** X16. When the browser starts and hands over the initial page source,
    [extract_reviews_selenium] of trustindex_scraper2.py reads every review
    element of the initial page and of the pages handed over in the
    iterations 0, 1, ..., one after the other, passes over the elements
    without identifier, and returns the first record of each identifier
    without its ['review_id']. It reads at most [max_loops] pages after the
    first, and it stops before that only when an iteration leaves the loop
    before the page source is read (the button is not found, a step
    raises, no new element appears in time), or when the last page read
    added no record. *)
Theorem v2_reads_every_element (w : V2.browser) (max_loops : Z)
    (page0 : result tag) :
  V2.start w = Ok tt -> V2.initial_page w = Ok page0 ->
  exists pages,
    (length pages <= Z.to_nat max_loops)%nat /\
    (forall k page, pages !! k = Some page -> v2_click w k = Ok (Some page)) /\
    V2.extract_reviews_selenium w max_loops =
      Ok (pop_all ["review_id"]
            (first_seen trustindex_key ∅ (v2_records (page0 :: pages)))) /\
    ((length pages < Z.to_nat max_loops)%nat ->
       v2_click w (length pages) = Ok None \/
       (exists e, v2_click w (length pages) = Raise e) \/
       exists pages' page,
         pages = pages' ++ [page] /\
         first_seen trustindex_key ∅ (v2_records (page0 :: pages')) =
         first_seen trustindex_key ∅ (v2_records (page0 :: pages))).
Proof.
  intros Hstart Hpage.
  set (rds := omap v2_parsed (V2.get_review_divs_from_source page0)).
  set (s1 := foldl (seen_step trustindex_key) V2.initial_state rds).
  assert (Hd1 : deduplicated trustindex_key s1).
  { by apply seen_steps_deduplicated. }
  assert (Hseen1 : seen (trace s1) = rds).
  { unfold s1. by rewrite seen_steps_seen. }
  set (s2 := with_locals (size (review_ids s1)) s1).
  assert (Hr2 : v2_ready s2).
  { split; [|reflexivity]. destruct Hd1 as [Ha Hi]. by split. }
  destruct (v2_more_loop_exact w (Z.to_nat max_loops) O s2 Hr2)
    as (pages & s' & r & Hrun & Hle & Hclicks & Hseen & [Ha _] & Hstop).
  change (seen (trace s2)) with (seen (trace s1)) in Hseen, Hstop.
  exists pages. split; [done|]. split; [exact Hclicks|].
  rewrite !v2_records_cons. fold rds. rewrite Hseen1 in Hseen, Hstop.
  split.
  - unfold V2.extract_reviews_selenium, V2.collect, V2.scrape.
    rewrite run_try_catch, run_bind, Hstart. unfold lift at 1.
    rewrite run_bind, Hpage. unfold lift at 1. rewrite run_bind.
    destruct (v2_for_ok (V2.get_review_divs_from_source page0) O V2.initial_state)
      as (n & -> & _). fold rds s1.
    rewrite run_bind. unfold V2.count_ids. cbn [gets].
    rewrite run_bind. cbn [set_locals modify].
    change (State (all_reviews_data s1) (review_ids s1) (trace s1)
              (size (review_ids s1))) with s2.
    rewrite Hrun. destruct r as [[]|e]; cbn; by rewrite Ha, Hseen.
  - intros Hlt.
    destruct (Hstop Hlt) as [Hn | [He | (pages' & page & -> & Heq)]];
      [by left | by right; left |].
    right. right. exists pages', page. split; [done|].
    by rewrite !v2_records_cons.
Qed.

End V2Exact.

(** [v2_reads_every_element] at [browser_b] with three iterations
    allowed. *)
Lemma v2_reads_every_element_witness :
  exists pages,
    (length pages <= Z.to_nat 3)%nat /\
    (forall k page, pages !! k = Some page ->
       v2_click browser_b k = Ok (Some page)) /\
    V2.extract_reviews_selenium browser_b 3 =
      Ok (pop_all ["review_id"]
            (first_seen trustindex_key ∅ (v2_records (Ok page_one :: pages)))) /\
    ((length pages < Z.to_nat 3)%nat ->
       v2_click browser_b (length pages) = Ok None \/
       (exists e, v2_click browser_b (length pages) = Raise e) \/
       exists pages' page,
         pages = pages' ++ [page] /\
         first_seen trustindex_key ∅ (v2_records (Ok page_one :: pages')) =
         first_seen trustindex_key ∅ (v2_records (Ok page_one :: pages))).
Proof.
  exact (v2_reads_every_element browser_b 3 (Ok page_one) eq_refl eq_refl).
Defined.

(** ** A run of the Trustpilot script that does not end *)

Section TPEndless.
Context `{PyLib}.

Lemma after_read_nan (page_data : pyval) (l : TP.page_vars) :
  TP.lookup_total_pages page_data = Ok (VFloat FNaN) ->
  TP.total_pages (after_read page_data l) = VFloat FNaN.
Proof.
  intros Hl. unfold after_read. rewrite Hl. by destruct (0 <? TP.max_pages l).
Qed.

(** The loop over healthy pages when [total_pages] is [nan], or is to be
    read as [nan] on the first page: no iteration reaches a [break]. *)
Lemma tp_nan_loop (w : TP.server) (page : Z -> pyval)
    (reviews : Z -> list pyval) (fuel : nat) (s : state TP.page_vars) :
  TP.lookup_total_pages (page 1) = Ok (VFloat FNaN) ->
  (forall p, 1 <= p -> tp_healthy w p (page p) (reviews p)) ->
  1 <= TP.current_page (locals s) ->
  (TP.current_page (locals s) = 1 \/ TP.total_pages (locals s) = VFloat FNaN) ->
  length (requests (trace s)) = Z.to_nat (TP.current_page (locals s) - 1) ->
  exists s',
    TP.page_loop w fuel s = (s', Ok None) /\
    requests (trace s') =
      requests (trace s) ++ seqZ (TP.current_page (locals s)) (Z.of_nat fuel).
Proof.
  intros Hnan Hw. revert s. induction fuel as [|fuel IH]; intros s Hcur Htot Hlen.
  { exists s. split; [done|]. by rewrite app_nil_r. }
  set (p := TP.current_page (locals s)) in *.
  destruct (Hw p Hcur) as (Hget & Hrev & Hne & Hok).
  rewrite page_loop_unfold. unfold iteration. fold p.
  rewrite Hlen, Hget, tp_visit_run, Hrev. cbv zeta.
  cbn [logged locals]. fold p.
  set (s1 := if p =? 1
             then with_locals (after_read (page p) (locals s))
                    (logged (EvRequest p) s)
             else logged (EvRequest p) s).
  assert (Hs1 : TP.total_pages (locals s1) = VFloat FNaN /\
                trace s1 = trace s ++ [EvRequest p]).
  { unfold s1. destruct (Z.eqb_spec p 1) as [Hp|Hp].
    - split; [|done]. cbn [with_locals locals]. rewrite Hp.
      by apply after_read_nan.
    - split; [|done]. by destruct Htot. }
  destruct Hs1 as [Htot1 Htr1]. clearbody s1.
  assert (truthy (VList (reviews p)) = true) as -> by by destruct (reviews p).
  cbn [negb py_iter].
  destruct (tp_for_ok (reviews p) O s1 Hok) as (m & ->).
  set (s2 := foldl (seen_step trustpilot_key) s1 (omap tp_parsed (reviews p))).
  cbn [logged locals]. unfold s2 at 1. rewrite seen_steps_locals, Htot1.
  cbn [py_ge as_int int_ge_float int_cmp_float].
  set (s3 := with_locals _ _).
  assert (Hreq3 : requests (trace s3) = requests (trace s) ++ [p]).
  { unfold s3, s2. cbn [with_locals logged trace].
    rewrite requests_app, seen_steps_trace, Htr1.
    rewrite !requests_app, requests_seen. simpl. by rewrite !app_nil_r. }
  destruct (IH s3) as (s' & -> & Hreq).
  { unfold s3. cbn [with_locals locals TP.current_page]. lia. }
  { right. unfold s3. cbn [with_locals locals TP.total_pages].
    unfold s2. by rewrite seen_steps_locals. }
  { rewrite Hreq3, length_app, Hlen. unfold s3.
    cbn [with_locals locals TP.current_page]. simpl. lia. }
  exists s'. split; [done|]. rewrite Hreq, Hreq3.
  unfold s3 at 1. cbn [with_locals locals TP.current_page].
  rewrite (seqZ_cons p) by lia. rewrite <- app_assoc. simpl.
  do 3 f_equal; lia.
Qed.

(** X17. A [totalPages] that is [NaN] makes the run endless on a server
    that keeps sending reviews: [current_page >= total_pages] is false at
    every page, and [min(total_pages, max_pages)] is [nan] again, so that
    the limit [max_pages] does not apply. After any number of iterations
    the function has not returned, and it has requested one page in each
    of them: 1, 2, 3, ... *)
Theorem tp_endless (w : TP.server) (max_pages : Z) (page : Z -> pyval)
    (reviews : Z -> list pyval) (fuel : nat) :
  TP.lookup_total_pages (page 1) = Ok (VFloat FNaN) ->
  (forall p, 1 <= p -> tp_healthy w p (page p) (reviews p)) ->
  TP.extract_trustpilot_reviews w max_pages fuel = None /\
  requests (trace (fst (TP.collect w max_pages fuel))) = seqZ 1 (Z.of_nat fuel).
Proof.
  intros Hnan Hw.
  destruct (tp_nan_loop w page reviews fuel (TP.initial_state max_pages) Hnan Hw)
    as (s' & Hrun & Hreq); [done|by left|done|].
  unfold TP.extract_trustpilot_reviews, TP.collect. rewrite Hrun.
  split; [done|]. exact Hreq.
Qed.

End TPEndless.

Lemma server_nan_healthy (p : Z) :
  1 <= p ->
  tp_healthy server_nan p
    (page_data_of (VList [review_1]) (Some (VFloat FNaN))) [review_1].
Proof.
  intros _. split; [reflexivity|]. split; [reflexivity|]. split; [done|].
  repeat constructor. apply review_1_storable.
Qed.

(** [tp_endless] at [server_nan] with a limit of two pages, after seven
    iterations. *)
Lemma tp_endless_witness :
  TP.extract_trustpilot_reviews server_nan 2 7 = None /\
  requests (trace (fst (TP.collect server_nan 2 7))) = seqZ 1 (Z.of_nat 7).
Proof.
  exact (tp_endless server_nan 2
           (fun _ => page_data_of (VList [review_1]) (Some (VFloat FNaN)))
           (fun _ => [review_1]) 7 eq_refl server_nan_healthy).
Defined.

